(** * Seedtime garden renderer: a shallow embedding of [garden_renderer.py]

    The renderer is a set of Python functions over JSON-like data
    ([dict[str, Any]]).  The embedding keeps that shape: one type of dynamic
    values, Python's exceptions as an error monad, the debug logger as an
    explicit piece of state, and one Rocq function per Python function, under
    the Python name.  The image entity of [image.py], which calls the
    renderer and caches its document, follows the renderer. *)

From Stdlib Require Import ZArith String Ascii List Bool Lia Floats DecimalString.
From Stdlib Require Import Sorting.Sorted Sorting.Permutation.
Import ListNotations.
Open Scope string_scope.
Open Scope Z_scope.

Set Warnings "-register-all,-inexact-float,-notation-for-abbreviation".

(** ** Dynamic values *)

(** What [json.loads] can produce.  A dict is an association list read with
    first-match lookup, so consing a binding overrides the key. *)
Inductive value : Type :=
| VNone
| VBool (b : bool)
| VInt (z : Z)
| VFloat (f : float)
| VStr (s : string)
| VList (l : list value)
| VDict (d : list (string * value)).

(** ** Exceptions *)

Inductive exn : Type :=
| KeyError | TypeError | IndexError | ValueError
| AttributeError | OverflowError | ZeroDivisionError
| UnicodeEncodeError.

Inductive result (A : Type) : Type :=
| Ok (a : A)
| Raise (e : exn).
Arguments Ok {A} a.
Arguments Raise {A} e.

Definition rbind {A B} (m : result A) (k : A -> result B) : result B :=
  match m with
  | Ok a => k a
  | Raise e => Raise e
  end.

Declare Scope py_scope.
Delimit Scope py_scope with py.
Notation "x <- m ;; k" := (rbind m (fun x => k))
  (at level 61, m at next level, right associativity) : py_scope.
Notation "' pat <- m ;; k" := (rbind m (fun x => match x with pat => k end))
  (at level 61, pat pattern, m at next level, right associativity) : py_scope.
Open Scope py_scope.

Fixpoint rmap {A B} (f : A -> result B) (l : list A) : result (list B) :=
  match l with
  | [] => Ok []
  | a :: r => b <- f a ;; bs <- rmap f r ;; Ok (b :: bs)
  end.

(** ** The debug logger

    [_LOGGER.debug] is the module's only effect.  A log record keeps the
    exception that was swallowed.  Functions that may log are state
    transformers over the log. *)

Definition log := list exn.
Definition M (A : Type) : Type := log -> result A * log.

Definition mret {A} (a : A) : M A := fun l => (Ok a, l).
Definition mbind {A B} (m : M A) (k : A -> M B) : M B :=
  fun l => match m l with
           | (Ok a, l') => k a l'
           | (Raise e, l') => (Raise e, l')
           end.
Definition lift {A} (r : result A) : M A := fun l => (r, l).
Definition log_debug (e : exn) : M unit := fun l => (Ok tt, (l ++ [e])%list).

Notation "x <~ m ;; k" := (mbind m (fun x => k))
  (at level 61, m at next level, right associativity) : py_scope.

(** ** Python built-ins on values *)

Module Py.

Definition dq : string := String (ascii_of_nat 34) "".
Definition nl : string := String (ascii_of_nat 10) "".

Fixpoint lookup (k : string) (d : list (string * value)) : option value :=
  match d with
  | [] => None
  | (k', v) :: r => if String.eqb k k' then Some v else lookup k r
  end.

(** Keys of a dict, each once, in first-occurrence order. *)
Fixpoint keys (d : list (string * value)) (seen : list string) : list string :=
  match d with
  | [] => []
  | (k, _) :: r =>
      if existsb (String.eqb k) seen then keys r seen else k :: keys r (k :: seen)
  end.

(** Strings are UTF-8 byte strings; a character is a lead byte and the
    continuation bytes (10xxxxxx) after it. *)
Definition is_cont (c : ascii) : bool :=
  let n := N_of_ascii c in ((128 <=? n) && (n <? 192))%N.

Fixpoint chars_aux (cur : string) (s : string) : list string :=
  match s with
  | EmptyString => [cur]
  | String c r =>
      if is_cont c then chars_aux (cur ++ String c "") r
      else cur :: chars_aux (String c "") r
  end.

Definition chars (s : string) : list string :=
  match s with
  | EmptyString => []
  | String c r => chars_aux (String c "") r
  end.

(** [f == 0.0] *)
Definition float_is_zero (f : float) : bool :=
  match Prim2SF f with
  | S754_zero _ => true
  | _ => false
  end.

(** [bool(v)] *)
Definition truthy (v : value) : bool :=
  match v with
  | VNone => false
  | VBool b => b
  | VInt z => negb (z =? 0)
  | VFloat f => negb (float_is_zero f)
  | VStr s => negb (String.eqb s "")
  | VList l => match l with [] => false | _ => true end
  | VDict d => match d with [] => false | _ => true end
  end.

(** [a or b] *)
Definition or_ (a b : value) : value := if truthy a then a else b.

(** [o.get(k, default)]; only dicts have [get]. *)
Definition get (o : value) (k : string) (default : value) : result value :=
  match o with
  | VDict d => Ok (match lookup k d with Some v => v | None => default end)
  | _ => Raise AttributeError
  end.

(** [len(o)] *)
Definition len (o : value) : result Z :=
  match o with
  | VList l => Ok (Z.of_nat (length l))
  | VStr s => Ok (Z.of_nat (length (chars s)))
  | VDict d => Ok (Z.of_nat (length (keys d [])))
  | _ => Raise TypeError
  end.

(** [iter(o)] run to the end. *)
Definition iter (o : value) : result (list value) :=
  match o with
  | VList l => Ok l
  | VStr s => Ok (map VStr (chars s))
  | VDict d => Ok (map VStr (keys d []))
  | _ => Raise TypeError
  end.

Definition nth_wrap {A} (l : list A) (i : Z) : option A :=
  let n := Z.of_nat (length l) in
  let j := if i <? 0 then i + n else i in
  if (0 <=? j) && (j <? n) then nth_error l (Z.to_nat j) else None.

(** [o[i]] *)
Definition getitem (o i : value) : result value :=
  match o with
  | VList l =>
      match i with
      | VInt z => match nth_wrap l z with Some v => Ok v | None => Raise IndexError end
      | VBool b => match nth_wrap l (if b then 1 else 0) with
                   | Some v => Ok v | None => Raise IndexError end
      | _ => Raise TypeError
      end
  | VStr s =>
      match i with
      | VInt z => match nth_wrap (chars s) z with
                  | Some c => Ok (VStr c) | None => Raise IndexError end
      | VBool b => match nth_wrap (chars s) (if b then 1 else 0) with
                   | Some c => Ok (VStr c) | None => Raise IndexError end
      | _ => Raise TypeError
      end
  | VDict d =>
      match i with
      | VStr k => match lookup k d with Some v => Ok v | None => Raise KeyError end
      | VList _ | VDict _ => Raise TypeError
      | _ => Raise KeyError
      end
  | _ => Raise TypeError
  end.

(** *** Numbers: Python's [int] and [float] *)

Inductive num : Type :=
| NInt (z : Z)
| NFloat (f : float).

Definition as_num (v : value) : option num :=
  match v with
  | VBool b => Some (NInt (if b then 1 else 0))
  | VInt z => Some (NInt z)
  | VFloat f => Some (NFloat f)
  | _ => None
  end.

Definition of_num (n : num) : value :=
  match n with
  | NInt z => VInt z
  | NFloat f => VFloat f
  end.

(** The least magnitude that rounds to 2^1024 in binary64. *)
Definition float_limit : Z := 2 ^ 1024 - 2 ^ 970.

(** [float(z)]: nearest binary64, [OverflowError] beyond the range. *)
Definition float_of_Z (z : Z) : result float :=
  if Z.abs z <? float_limit
  then Ok (SF2Prim (binary_normalize 53 1024 z 0 false))
  else Raise OverflowError.

Definition to_float (n : num) : result float :=
  match n with
  | NInt z => float_of_Z z
  | NFloat f => Ok f
  end.

Definition arith (fz : Z -> Z -> Z) (ff : float -> float -> float)
    (a b : num) : result num :=
  match a, b with
  | NInt x, NInt y => Ok (NInt (fz x y))
  | _, _ => x <- to_float a ;; y <- to_float b ;; Ok (NFloat (ff x y))
  end.

Definition num_add := arith Z.add PrimFloat.add.
Definition num_sub := arith Z.sub PrimFloat.sub.
Definition num_mul := arith Z.mul PrimFloat.mul.

(** [x / y] on two ints: the quotient rounded once to nearest-even.  The
    quotient is taken with enough extra bits, and a sticky bit for the
    remainder. *)
Definition int_truediv (x y : Z) : result float :=
  if y =? 0 then Raise ZeroDivisionError
  else
    let neg := xorb (x <? 0) (y <? 0) in
    let a := Z.abs x in
    let b := Z.abs y in
    if a =? 0 then Ok (if neg then (-0)%float else 0%float)
    else if float_limit * b <=? a then Raise OverflowError
    else
      let k := Z.max 0 (1200 + Z.log2 b - Z.log2 a) in
      let q := (a * 2 ^ k) / b in
      let sticky := if (a * 2 ^ k) mod b =? 0 then 0 else 1 in
      let m := 2 * q + sticky in
      Ok (SF2Prim (binary_normalize 53 1024 (if neg then - m else m) (- k - 1) false)).

Definition num_is_zero (n : num) : bool :=
  match n with
  | NInt z => z =? 0
  | NFloat f => float_is_zero f
  end.

(** An int converts to zero only when it is zero, so the zero test is made
    on the divisor as given. *)
Definition num_truediv (a b : num) : result float :=
  match a, b with
  | NInt x, NInt y => int_truediv x y
  | _, _ =>
      x <- to_float a ;; y <- to_float b ;;
      if num_is_zero b then Raise ZeroDivisionError else Ok (x / y)%float
  end.

(** Exact comparison of an int with a float. *)
Definition Z_lt_float (z : Z) (f : float) : bool :=
  match Prim2SF f with
  | S754_nan => false
  | S754_infinity s => negb s
  | S754_zero _ => z <? 0
  | S754_finite s m e =>
      let v := if s then Zneg m else Zpos m in
      if 0 <=? e then z <? v * 2 ^ e else z * 2 ^ (- e) <? v
  end.

Definition float_lt_Z (f : float) (z : Z) : bool :=
  match Prim2SF f with
  | S754_nan => false
  | S754_infinity s => s
  | S754_zero _ => 0 <? z
  | S754_finite s m e =>
      let v := if s then Zneg m else Zpos m in
      if 0 <=? e then v * 2 ^ e <? z else v <? z * 2 ^ (- e)
  end.

Definition num_lt (a b : num) : bool :=
  match a, b with
  | NInt x, NInt y => x <? y
  | NInt x, NFloat g => Z_lt_float x g
  | NFloat f, NInt y => float_lt_Z f y
  | NFloat f, NFloat g => PrimFloat.ltb f g
  end.

Definition binop (op : num -> num -> result num) (a b : value) : result value :=
  match as_num a, as_num b with
  | Some x, Some y => n <- op x y ;; Ok (of_num n)
  | _, _ => Raise TypeError
  end.

(** [a + b], [a - b], [a * b]: every call site has numbers on both sides or
    fails on the first non-number. *)
Definition add := binop num_add.
Definition sub := binop num_sub.
Definition mul := binop num_mul.

(** [a / b] *)
Definition truediv (a b : value) : result float :=
  match as_num a, as_num b with
  | Some x, Some y => num_truediv x y
  | _, _ => Raise TypeError
  end.

Definition float_is_nan (f : float) : bool :=
  match Prim2SF f with
  | S754_nan => true
  | _ => false
  end.

Definition num_eqb (a b : num) : bool :=
  match a, b with
  | NInt x, NInt y => x =? y
  | NFloat f, NFloat g => PrimFloat.eqb f g
  | NInt x, NFloat g | NFloat g, NInt x =>
      negb (Z_lt_float x g) && negb (float_lt_Z g x) && PrimFloat.eqb g g
  end.

(** [x is y or x == y], the test a list or a dict makes on two of its
    items.  Numbers are equal by value, lists item by item, dicts as
    mappings.  An object is equal to itself, which matters for NaN alone:
    [json.loads] hands out one NaN object, so here a NaN equals a NaN. *)
Fixpoint equal (a b : value) {struct a} : bool :=
  match a, b with
  | VNone, VNone => true
  | VStr s, VStr t => String.eqb s t
  | VList l1, VList l2 =>
      (fix all2 (l1 l2 : list value) {struct l1} : bool :=
         match l1, l2 with
         | [], [] => true
         | x :: r1, y :: r2 => equal x y && all2 r1 r2
         | _, _ => false
         end) l1 l2
  | VDict d1, VDict d2 =>
      Nat.eqb (length (keys d1 [])) (length (keys d2 []))
      && (fix sub (d : list (string * value)) (seen : list string) {struct d} : bool :=
            match d with
            | [] => true
            | (k, v) :: r =>
                if existsb (String.eqb k) seen then sub r seen
                else match lookup k d2 with
                     | Some w => equal v w && sub r (k :: seen)
                     | None => false
                     end
            end) d1 []
  | _, _ =>
      match as_num a, as_num b with
      | Some (NFloat f), Some (NFloat g) =>
          PrimFloat.eqb f g || (float_is_nan f && float_is_nan g)
      | Some x, Some y => num_eqb x y
      | _, _ => false
      end
  end.

(** [a < b]: numbers with numbers, strings with strings, and lists with
    lists, which are ordered by their first pair of unequal items, or by
    length when one is a prefix of the other.  Anything else, two [None]
    or two dicts included, is a [TypeError]. *)
Fixpoint lt (a b : value) {struct a} : result bool :=
  match a, b with
  | VStr s, VStr t => Ok (String.ltb s t)
  | VList l1, VList l2 =>
      (fix lex (l1 l2 : list value) {struct l1} : result bool :=
         match l1, l2 with
         | [], [] => Ok false
         | [], _ :: _ => Ok true
         | _ :: _, [] => Ok false
         | x :: r1, y :: r2 => if equal x y then lex r1 r2 else lt x y
         end) l1 l2
  | _, _ =>
      match as_num a, as_num b with
      | Some x, Some y => Ok (num_lt x y)
      | _, _ => Raise TypeError
      end
  end.

(** [a > b] *)
Definition gt (a b : value) : result bool := lt b a.

(** [min(a, b)] keeps [a] unless [b < a]; [max(a, b)] keeps [a] unless
    [b > a]. *)
Definition min2 (a b : value) : result value :=
  c <- lt b a ;; Ok (if c then b else a).
Definition max2 (a b : value) : result value :=
  c <- gt b a ;; Ok (if c then b else a).

Fixpoint fold_best (pick : value -> value -> result value) (best : value)
    (l : list value) : result value :=
  match l with
  | [] => Ok best
  | x :: r => b <- pick best x ;; fold_best pick b r
  end.

(** [min(xs)], [max(xs)] of a non-empty list. *)
Definition min_list (l : list value) : result value :=
  match l with
  | [] => Raise ValueError
  | x :: r => fold_best min2 x r
  end.
Definition max_list (l : list value) : result value :=
  match l with
  | [] => Raise ValueError
  | x :: r => fold_best max2 x r
  end.

(** [sum(xs)] *)
Fixpoint sum_from (acc : value) (l : list value) : result value :=
  match l with
  | [] => Ok acc
  | x :: r => a <- add acc x ;; sum_from a r
  end.
Definition sum (l : list value) : result value := sum_from (VInt 0) l.

(** [math.sqrt(v)]: the argument is converted first; a negative argument
    is a domain error. *)
Definition math_sqrt (v : value) : result float :=
  match as_num v with
  | Some n =>
      f <- to_float n ;;
      if num_lt n (NInt 0) then Raise ValueError else Ok (PrimFloat.sqrt f)
  | None => Raise TypeError
  end.

(** [int(f)] of a float: truncation toward zero. *)
Definition int_of_float (f : float) : result Z :=
  match Prim2SF f with
  | S754_nan => Raise ValueError
  | S754_infinity _ => Raise OverflowError
  | S754_zero _ => Ok 0
  | S754_finite s m e =>
      let a := if 0 <=? e then Zpos m * 2 ^ e else Zpos m / 2 ^ (- e) in
      Ok (if s then - a else a)
  end.

(** [range(n)] as ints. *)
Definition range (n : Z) : list Z := map Z.of_nat (seq 0 (Z.to_nat n)).

(** *** Text *)

Definition string_of_Z (z : Z) : string := NilZero.string_of_int (Z.to_int z).

Fixpoint zeros (n : nat) : string :=
  match n with
  | O => ""
  | S k => String "0" (zeros k)
  end.

Definition pad_left (width : nat) (s : string) : string :=
  zeros (width - String.length s) ++ s.

Definition round_half_even (n d : Z) : Z :=
  let q := n / d in
  match 2 * (n mod d) ?= d with
  | Lt => q
  | Eq => if Z.even q then q else q + 1
  | Gt => q + 1
  end.

(** [q] is the magnitude scaled by 10^digits, already rounded. *)
Definition fixed_point (digits : nat) (q : Z) : string :=
  let p := 10 ^ Z.of_nat digits in
  string_of_Z (q / p)
  ++ match digits with
     | O => ""
     | _ => "." ++ pad_left digits (string_of_Z (q mod p))
     end.

(** [format(f, ".<digits>f")] of a float: the exact binary value rounded
    half-even at the given decimal place. *)
Definition format_float (digits : nat) (f : float) : string :=
  let sign (s : bool) := if s then "-" else "" in
  match Prim2SF f with
  | S754_nan => "nan"
  | S754_infinity s => sign s ++ "inf"
  | S754_zero s => sign s ++ fixed_point digits 0
  | S754_finite s m e =>
      let scaled := Zpos m * 10 ^ Z.of_nat digits in
      sign s ++ fixed_point digits
        (if 0 <=? e then scaled * 2 ^ e else round_half_even scaled (2 ^ (- e)))
  end.

(** [f"{v:.<digits>f}"]: ints go through [float]; [str] has no [f] format
    code ([ValueError]); [None], lists and dicts take no format spec
    ([TypeError]). *)
Definition format_f (digits : nat) (v : value) : result string :=
  match v with
  | VStr _ => Raise ValueError
  | VNone | VList _ | VDict _ => Raise TypeError
  | VBool b => f <- float_of_Z (if b then 1 else 0) ;; Ok (format_float digits f)
  | VInt z => f <- float_of_Z z ;; Ok (format_float digits f)
  | VFloat f => Ok (format_float digits f)
  end.

(** [html.escape(s, quote=True)] *)
Fixpoint html_escape (s : string) : string :=
  match s with
  | EmptyString => ""
  | String c r =>
      let n := nat_of_ascii c in
      (if Nat.eqb n 38 then "&amp;"
       else if Nat.eqb n 60 then "&lt;"
       else if Nat.eqb n 62 then "&gt;"
       else if Nat.eqb n 34 then "&quot;"
       else if Nat.eqb n 39 then "&#x27;"
       else String c "") ++ html_escape r
  end.

(** [sep.join(parts)] *)
Definition join (sep : string) (parts : list string) : string :=
  String.concat sep parts.

(** [v == "literal"] *)
Definition eq_str (v : value) (s : string) : bool :=
  match v with
  | VStr t => String.eqb t s
  | _ => false
  end.

(** [name="val"] inside a tag. *)
Definition attr (name val : string) : string := name ++ "=" ++ dq ++ val ++ dq.

(** A lone surrogate (U+D800 to U+DFFF), which a JSON escape can put into a
    [str], is in these byte strings the lead byte ED followed by a byte of
    A0 to BF. *)
Fixpoint has_surrogate (s : string) : bool :=
  match s with
  | EmptyString => false
  | String c r =>
      match r with
      | EmptyString => false
      | String c' _ =>
          ((N_of_ascii c =? 237) && (160 <=? N_of_ascii c') && (N_of_ascii c' <? 192))%N
          || has_surrogate r
      end
  end.

(** [s.encode("utf-8")], and [s.encode()]: the bytes of [s], or
    [UnicodeEncodeError] when [s] holds a lone surrogate. *)
Definition encode_utf8 (s : string) : result string :=
  if has_surrogate s then Raise UnicodeEncodeError else Ok s.

(** *** Dict keys *)

Definition hashable (v : value) : bool :=
  match v with
  | VList _ | VDict _ => false
  | _ => true
  end.

(** Equality of two hashable values as dict keys. *)
Definition key_eqb (a b : value) : bool :=
  match a, b with
  | VNone, VNone => true
  | VStr s, VStr t => String.eqb s t
  | _, _ =>
      match as_num a, as_num b with
      | Some x, Some y => num_eqb x y
      | _, _ => false
      end
  end.

(** *** Built-ins left open

    [repr] of a float (shortest round-trip digits), [str] of a list or dict
    and [str.upper] on arbitrary Unicode are not spelled out; the renderer
    is defined for any choice of them. *)
Record builtins : Type := {
  float_repr : float -> string;
  container_repr : value -> string;
  str_upper : string -> string
}.

(** [str(v)], which is also [format(v, "")] *)
Definition str (B : builtins) (v : value) : string :=
  match v with
  | VNone => "None"
  | VBool b => if b then "True" else "False"
  | VInt z => string_of_Z z
  | VFloat f => float_repr B f
  | VStr s => s
  | VList _ | VDict _ => container_repr B v
  end.

(** [v.upper()]; only strings have [upper]. *)
Definition upper (B : builtins) (v : value) : result value :=
  match v with
  | VStr s => Ok (VStr (str_upper B s))
  | _ => Raise AttributeError
  end.

End Py.

(** ** Geometry kernel *)

Definition fmt2 : value -> result string := Py.format_f 2.

(** [f"{p['x']:.2f} {p['y']:.2f}"] *)
Definition xy2 (p : value) : result string :=
  x <- Py.getitem p (VStr "x") ;;
  sx <- fmt2 x ;;
  y <- Py.getitem p (VStr "y") ;;
  sy <- fmt2 y ;;
  Ok (sx ++ " " ++ sy).

(** [segments[i]["start"]] *)
Definition start_at (segments : value) (i : Z) : result value :=
  seg <- Py.getitem segments (VInt i) ;;
  Py.getitem seg (VStr "start").

(** One draw command: the body of the [for] loop of [_shape_to_path]. *)
Definition draw_command (segments : value) (i : Z) (seg : value) : result string :=
  c <- Py.get seg "bezierControlPoints" VNone ;;
  let cps := Py.or_ c (VList []) in
  n <- Py.len segments ;;
  end_ <- (if i + 1 <? n then start_at segments (i + 1) else start_at segments 0) ;;
  k <- Py.len cps ;;
  if 2 <=? k then
    c0 <- Py.getitem cps (VInt 0) ;;
    s0 <- xy2 c0 ;;
    c1 <- Py.getitem cps (VInt 1) ;;
    s1 <- xy2 c1 ;;
    se <- xy2 end_ ;;
    Ok ("C " ++ s0 ++ ", " ++ s1 ++ ", " ++ se)
  else if k =? 1 then
    c0 <- Py.getitem cps (VInt 0) ;;
    s0 <- xy2 c0 ;;
    se <- xy2 end_ ;;
    Ok ("Q " ++ s0 ++ ", " ++ se)
  else
    se <- xy2 end_ ;;
    Ok ("L " ++ se).

(** The [for i, seg in enumerate(segments)] loop, appending to [parts]. *)
Fixpoint draw_loop (segments : value) (i : Z) (items : list value)
    (parts : list string) : result (list string) :=
  match items with
  | [] => Ok parts
  | seg :: rest =>
      cmd <- draw_command segments i seg ;;
      draw_loop segments (i + 1) rest (parts ++ [cmd])%list
  end.

(** The [try] block of [_shape_to_path]. *)
Definition shape_to_path_try (segments : value) : result string :=
  first <- start_at segments 0 ;;
  m <- xy2 first ;;
  items <- Py.iter segments ;;
  parts <- draw_loop segments 0 items ["M " ++ m] ;;
  Ok (Py.join " " (parts ++ ["Z"])%list).

Definition caught_by_shape_to_path (e : exn) : bool :=
  match e with
  | KeyError | TypeError | IndexError => true
  | _ => false
  end.

Definition _shape_to_path (shape : value) : M string :=
  segments <~ lift (Py.get shape "segments" (VList [])) ;;
  if negb (Py.truthy segments) then mret ""
  else
    fun l =>
      match shape_to_path_try segments with
      | Ok d => (Ok d, l)
      | Raise e =>
          if caught_by_shape_to_path e
          then (_ <~ log_debug e ;; mret "") l
          else (Raise e, l)
      end.

(** [[s["start"][k] for s in segments]] *)
Definition start_coords (k : string) (segments : value) : result (list value) :=
  items <- Py.iter segments ;;
  rmap (fun s => st <- Py.getitem s (VStr "start") ;; Py.getitem st (VStr k)) items.

Definition caught_by_shape_centroid (e : exn) : bool :=
  match e with
  | KeyError | TypeError => true
  | _ => false
  end.

(** [sum(xs) / len(xs)] *)
Definition mean (xs : list value) : result float :=
  s <- Py.sum xs ;;
  Py.truediv s (VInt (Z.of_nat (length xs))).

Definition _shape_centroid (shape : value) : result (value * value) :=
  segments <- Py.get shape "segments" (VList []) ;;
  if negb (Py.truthy segments) then Ok (VFloat 0, VFloat 0)
  else
    match (xs <- start_coords "x" segments ;;
           ys <- start_coords "y" segments ;;
           Ok (xs, ys)) with
    | Raise e =>
        if caught_by_shape_centroid e then Ok (VFloat 0, VFloat 0) else Raise e
    | Ok (xs, ys) =>
        cx <- mean xs ;;
        cy <- mean ys ;;
        Ok (VFloat cx, VFloat cy)
    end.

(** ** Plant layout engine *)

Definition caught_by_plant_positions (e : exn) : bool :=
  match e with
  | KeyError | TypeError => true
  | _ => false
  end.

(** The four reads inside the [try] of [_plant_positions_from_rows]. *)
Definition row_endpoints (row : value) : result (value * value * value * value) :=
  s <- Py.getitem row (VStr "start") ;;
  sx <- Py.getitem s (VStr "x") ;;
  s' <- Py.getitem row (VStr "start") ;;
  sy <- Py.getitem s' (VStr "y") ;;
  e <- Py.getitem row (VStr "end") ;;
  ex <- Py.getitem e (VStr "x") ;;
  e' <- Py.getitem row (VStr "end") ;;
  ey <- Py.getitem e' (VStr "y") ;;
  Ok (sx, sy, ex, ey).

(** [(sx + i * plant_spacing * ux, sy + i * plant_spacing * uy)] *)
Definition plant_at (sx sy plant_spacing : value) (ux uy : float) (i : Z)
    : result (value * value) :=
  a <- Py.mul (VInt i) plant_spacing ;;
  b <- Py.mul a (VFloat ux) ;;
  px <- Py.add sx b ;;
  a' <- Py.mul (VInt i) plant_spacing ;;
  b' <- Py.mul a' (VFloat uy) ;;
  py <- Py.add sy b' ;;
  Ok (px, py).

(** The [for i in range(n_plants)] loop. *)
Fixpoint plants_loop (sx sy plant_spacing : value) (ux uy : float)
    (idxs : list Z) (positions : list (value * value))
    : result (list (value * value)) :=
  match idxs with
  | [] => Ok positions
  | i :: rest =>
      p <- plant_at sx sy plant_spacing ux uy i ;;
      plants_loop sx sy plant_spacing ux uy rest (positions ++ [p])%list
  end.

(** The body of the [for row in rows] loop after the [try]. *)
Definition row_plants (sx sy ex ey plant_spacing : value)
    (positions : list (value * value)) : result (list (value * value)) :=
  dx <- Py.sub ex sx ;;
  dy <- Py.sub ey sy ;;
  xx <- Py.mul dx dx ;;
  yy <- Py.mul dy dy ;;
  sq <- Py.add xx yy ;;
  row_len <- Py.math_sqrt sq ;;
  short <- Py.lt (VFloat row_len) (VInt 1) ;;
  tight <- (if short then Ok true else Py.lt plant_spacing (VInt 1)) ;;
  if tight then Ok (positions ++ [(sx, sy)])%list
  else
    ux <- Py.truediv dx (VFloat row_len) ;;
    uy <- Py.truediv dy (VFloat row_len) ;;
    q <- Py.truediv (VFloat row_len) plant_spacing ;;
    n <- Py.int_of_float q ;;
    plants_loop sx sy plant_spacing ux uy (Py.range (n + 1)) positions.

Fixpoint rows_loop (rows : list value) (plant_spacing : value)
    (positions : list (value * value)) : result (list (value * value)) :=
  match rows with
  | [] => Ok positions
  | row :: rest =>
      match row_endpoints row with
      | Raise e =>
          if caught_by_plant_positions e
          then rows_loop rest plant_spacing positions
          else Raise e
      | Ok (sx, sy, ex, ey) =>
          positions' <- row_plants sx sy ex ey plant_spacing positions ;;
          rows_loop rest plant_spacing positions'
      end
  end.

Definition _plant_positions_from_rows (rows plant_spacing : value)
    : result (list (value * value)) :=
  items <- Py.iter rows ;;
  rows_loop items plant_spacing [].

(** ** Landmark badges *)

Definition _MDI_TREE : string :=
  "M11,21V16.74C10.53,16.91 10.03,17 9.5,17C7.01,17 5,14.99 5,12.5"
  ++ "C5,11.23 5.5,10.09 6.36,9.27C6.13,8.73 6,8.13 6,7.5C6,5.01 8.01,3 "
  ++ "10.5,3C12.06,3 13.44,3.8 14.25,5C14.33,5 14.41,5 14.5,5C16.99,5 "
  ++ "19,7.01 19,9.5C19,10.8 18.45,11.97 17.57,12.79C17.84,13.33 18,13.9 "
  ++ "18,14.5C18,16.99 15.99,19 13.5,19C13.03,19 12.57,18.92 12.13,18.77"
  ++ "V21H11Z".

Definition _MDI_HOME : string := "M10,20V14H14V20H19V12H22L12,3L2,12H5V20H10Z".

(** The icon table at the head of [_landmark_badge_svg]:
    [(badge_color, icon_path)], [icon_path] being [None] for no badge. *)
Definition badge_style (icon_name : value) : string * option string :=
  if Py.eq_str icon_name "house" then ("#44739e", Some _MDI_HOME)
  else if Py.eq_str icon_name "tree" then ("#4a7c3f", Some _MDI_TREE)
  else ("#555", None).

(** The markup of a badge: the circle and the icon glyph. *)
Definition badge_markup (badge_color icon scx scy sr stx sty ssc : string) : string :=
  "<circle " ++ Py.attr "cx" scx ++ " " ++ Py.attr "cy" scy ++ " "
  ++ Py.attr "r" sr ++ " " ++ Py.attr "fill" badge_color ++ " "
  ++ Py.attr "stroke" "#fff" ++ " " ++ Py.attr "stroke-width" "4" ++ "/>"
  ++ "<path " ++ Py.attr "d" icon ++ " " ++ Py.attr "fill" "#fff" ++ " "
  ++ Py.attr "transform"
       ("translate(" ++ stx ++ "," ++ sty ++ ") scale(" ++ ssc ++ ")")
  ++ "/>".

Definition _landmark_badge_svg (icon_name cx cy radius : value) : result string :=
  let '(badge_color, icon_path) := badge_style icon_name in
  match icon_path with
  | None => Ok ""
  | Some icon =>
      if negb (Py.truthy (VStr icon)) then Ok ""
      else
        r12 <- Py.mul radius (VFloat 1.2) ;;
        scale <- Py.truediv r12 (VInt 24) ;;
        t <- Py.mul (VInt 12) (VFloat scale) ;;
        tx <- Py.sub cx t ;;
        t' <- Py.mul (VInt 12) (VFloat scale) ;;
        ty <- Py.sub cy t' ;;
        scx <- Py.format_f 1 cx ;;
        scy <- Py.format_f 1 cy ;;
        sr <- Py.format_f 1 radius ;;
        stx <- Py.format_f 1 tx ;;
        sty <- Py.format_f 1 ty ;;
        ssc <- Py.format_f 3 (VFloat scale) ;;
        Ok (badge_markup badge_color icon scx scy sr stx sty ssc)
  end.

(** ** Render-order planner *)

Inductive item_kind : Type := Landmark | Location.

Notation item := (item_kind * value)%type (only parsing).

(** [v.get("index") if v.get("index") is not None else 0] *)
Definition index_or_zero (v : value) : result value :=
  a <- Py.get v "index" VNone ;;
  match a with
  | VNone => Ok (VInt 0)
  | _ => Py.get v "index" VNone
  end.

(** A dict keyed by values, in insertion order. *)
Fixpoint kfind {A} (k : value) (d : list (value * A)) : option A :=
  match d with
  | [] => None
  | (k', a) :: r => if Py.key_eqb k' k then Some a else kfind k r
  end.

(** [d[k] = a] *)
Fixpoint kset {A} (k : value) (a : A) (d : list (value * A)) : list (value * A) :=
  match d with
  | [] => [(k, a)]
  | (k', a') :: r => if Py.key_eqb k' k then (k', a) :: r else (k', a') :: kset k a r
  end.

(** [d.setdefault(k, []).append(x)] *)
Fixpoint kappend {A} (k : value) (x : A) (d : list (value * list A))
    : list (value * list A) :=
  match d with
  | [] => [(k, [x])]
  | (k', xs) :: r =>
      if Py.key_eqb k' k then (k', (xs ++ [x])%list) :: r else (k', xs) :: kappend k x r
  end.

(** The [for grp in groups] loop building [group_index_map]. *)
Fixpoint group_index_loop (groups : list value) (m : list (value * value))
    : result (list (value * value)) :=
  match groups with
  | [] => Ok m
  | grp :: rest =>
      h <- Py.get grp "hidden" VNone ;;
      if Py.truthy h then group_index_loop rest m
      else
        idx <- index_or_zero grp ;;
        id <- Py.getitem grp (VStr "id") ;;
        if Py.hashable id then group_index_loop rest (kset id idx m)
        else Raise TypeError
  end.

(** [group_id and group_id in group_index_map] *)
Definition in_group (group_id : value) (m : list (value * value)) : result bool :=
  if Py.truthy group_id then
    if Py.hashable group_id
    then Ok (match kfind group_id m with Some _ => true | None => false end)
    else Raise TypeError
  else Ok false.

(** The two categorising loops, one call per collection. *)
Fixpoint categorize (kind : item_kind) (nodes : list value)
    (m : list (value * value))
    (grouped : list (value * list item)) (ungrouped : list (value * item))
    : result (list (value * list item) * list (value * item)) :=
  match nodes with
  | [] => Ok (grouped, ungrouped)
  | x :: rest =>
      h <- Py.get x "hidden" VNone ;;
      if Py.truthy h then categorize kind rest m grouped ungrouped
      else
        group_id <- Py.get x "groupId" VNone ;;
        g <- in_group group_id m ;;
        if g then categorize kind rest m (kappend group_id (kind, x) grouped) ungrouped
        else
          idx <- index_or_zero x ;;
          categorize kind rest m grouped (ungrouped ++ [(idx, (kind, x))])%list
  end.

Notation unit_ := (value * list item)%type (only parsing).

(** [render_units] before sorting: one unit per group, then one per
    ungrouped item. *)
Definition build_units (m : list (value * value))
    (grouped : list (value * list item)) (ungrouped : list (value * item))
    : result (list unit_) :=
  gs <- rmap (fun '(group_id, items) =>
                match kfind group_id m with
                | Some group_idx => Ok (group_idx, items)
                | None => Raise KeyError
                end) grouped ;;
  Ok (gs ++ map (fun '(idx, it) => (idx, [it])) ungrouped)%list.

(** [render_units.sort(key=lambda x: x[0], reverse=True)]: a stable sort
    into descending key order that uses [<] only.  It agrees with
    Python's sort whenever [<] orders the keys totally (ints, non-NaN floats,
    strings, or lists of such) and raises [TypeError] as Python does when
    two keys of different kinds, or [None] keys, meet.  Where [<] is no
    total order (a NaN among the keys, or lists that only some pairs of
    which can be compared), which pairs are compared, and so the outcome,
    depends on the sorting algorithm; [render_units_by] below leaves the
    sort open for what holds of any. *)
Fixpoint insert_desc (u : unit_) (sorted : list unit_) : result (list unit_) :=
  match sorted with
  | [] => Ok [u]
  | v :: r =>
      c <- Py.lt (fst u) (fst v) ;;
      if c then r' <- insert_desc u r ;; Ok (v :: r')
      else Ok (u :: v :: r)
  end.

Fixpoint sort_desc (units : list unit_) : result (list unit_) :=
  match units with
  | [] => Ok []
  | u :: r => s <- sort_desc r ;; insert_desc u s
  end.

(** [_build_render_order] up to and including the sort: the value of
    [render_units] when the flattening loop starts. *)
Definition render_units (landmarks locations groups : value)
    : result (list unit_) :=
  gl <- Py.iter groups ;;
  group_index_map <- group_index_loop gl [] ;;
  lms <- Py.iter landmarks ;;
  '(grouped, ungrouped) <- categorize Landmark lms group_index_map [] [] ;;
  locs <- Py.iter locations ;;
  '(grouped_items, ungrouped') <- categorize Location locs group_index_map grouped ungrouped ;;
  units <- build_units group_index_map grouped_items ungrouped' ;;
  sort_desc units.

Definition _build_render_order (landmarks locations groups : value)
    : result (list item) :=
  sorted <- render_units landmarks locations groups ;;
  Ok (concat (map snd sorted)).

(** The same two functions with [sort] standing for
    [render_units.sort(key=lambda x: x[0], reverse=True)]. *)
Definition render_units_by (sort : list unit_ -> result (list unit_))
    (landmarks locations groups : value) : result (list unit_) :=
  gl <- Py.iter groups ;;
  group_index_map <- group_index_loop gl [] ;;
  lms <- Py.iter landmarks ;;
  '(grouped, ungrouped) <- categorize Landmark lms group_index_map [] [] ;;
  locs <- Py.iter locations ;;
  '(grouped_items, ungrouped') <- categorize Location locs group_index_map grouped ungrouped ;;
  units <- build_units group_index_map grouped_items ungrouped' ;;
  sort units.

Definition build_render_order_by (sort : list unit_ -> result (list unit_))
    (landmarks locations groups : value) : result (list item) :=
  sorted <- render_units_by sort landmarks locations groups ;;
  Ok (concat (map snd sorted)).

(** ** Element renderers *)

(** [min(max(xs) - min(xs), max(ys) - min(ys))] over the start points of
    [segs]: the three lines that [_render_landmark] and [_render_formation]
    share. *)
Definition start_extent (segs : value) : result value :=
  xs <- start_coords "x" segs ;;
  ys <- start_coords "y" segs ;;
  hx <- Py.max_list xs ;;
  lx <- Py.min_list xs ;;
  wx <- Py.sub hx lx ;;
  hy <- Py.max_list ys ;;
  ly <- Py.min_list ys ;;
  wy <- Py.sub hy ly ;;
  Py.min2 wx wy.

(** [max(lo, min(hi, extent * factor))] when [segs] is truthy, [otherwise]
    when not. *)
Definition scaled_extent (shape : value) (factor : float) (lo hi otherwise : Z)
    : result value :=
  segs <- Py.get shape "segments" (VList []) ;;
  if Py.truthy segs then
    extent <- start_extent segs ;;
    e <- Py.mul extent (VFloat factor) ;;
    m <- Py.min2 (VInt hi) e ;;
    Py.max2 (VInt lo) m
  else Ok (VInt otherwise).

Section Renderers.

Variable B : Py.builtins.

Definition _esc (text : value) : string := Py.html_escape (Py.str B text).

(** The filled outline of a landmark. *)
Definition landmark_path (d : string) (fill stroke effective_stroke_w : value)
    : string :=
  "  <path " ++ Py.attr "d" d ++ " " ++ Py.attr "fill" (_esc fill) ++ " "
  ++ Py.attr "fill-opacity" "0.55" ++ " "
  ++ Py.attr "stroke" (_esc stroke) ++ " "
  ++ Py.attr "stroke-width" (Py.str B effective_stroke_w) ++ "/>".

(** The opening [<g ...>] of a landmark. *)
Definition landmark_open (lm fill : value) : result string :=
  n <- Py.get lm "name" (VStr "") ;;
  let name := _esc n in
  icon_name <- Py.get lm "iconName" VNone ;;
  raw_name <- Py.get lm "name" (VStr "") ;;
  let g_attrs :=
    if Py.truthy icon_name && Py.truthy raw_name
    then Py.attr "class" "landmark tooltip-target" ++ " "
         ++ Py.attr "data-name" name ++ " " ++ Py.attr "data-crop" name ++ " "
         ++ Py.attr "data-color" (_esc fill)
    else Py.attr "class" "landmark" ++ " " ++ Py.attr "data-name" name in
  Ok ("<g " ++ g_attrs ++ ">").

(** The badge block of [_render_landmark], under [if icon_name:]. *)
Definition landmark_badge (icon_name shape : value) : result string :=
  '(cx, cy) <- _shape_centroid shape ;;
  badge_r <- scaled_extent shape 0.15 30 80 60 ;;
  _landmark_badge_svg icon_name cx cy badge_r.

(** [_render_landmark] after the outline [d] is known to be non-empty. *)
Definition render_landmark_body (lm shape : value) (d : string) : result string :=
  fill <- Py.get lm "fillColor" (VStr "#cccccc") ;;
  stroke <- Py.get lm "strokeColor" (VStr "#999999") ;;
  stroke_w <- Py.get lm "strokeWidth" (VInt 1) ;;
  m <- Py.min2 stroke_w (VInt 60) ;;
  effective_stroke_w <- Py.max2 (VInt 3) m ;;
  icon_name <- Py.get lm "iconName" VNone ;;
  g <- landmark_open lm fill ;;
  let skip_fill := Py.eq_str icon_name "house" in
  let parts := [g] in
  let parts :=
    if negb skip_fill
    then (parts ++ [landmark_path d fill stroke effective_stroke_w])%list
    else parts in
  parts <- (if Py.truthy icon_name
            then b <- landmark_badge icon_name shape ;; Ok (parts ++ [b])%list
            else Ok parts) ;;
  Ok (Py.join Py.nl (parts ++ ["</g>"])%list).

Definition _render_landmark (lm : value) : M string :=
  shape <~ lift (Py.get lm "shape" (VDict [])) ;;
  d <~ _shape_to_path shape ;;
  if negb (Py.truthy (VStr d)) then mret ""
  else lift (render_landmark_body lm shape d).

Definition _render_text (txt : value) : result string :=
  shape <- Py.get txt "shape" (VDict []) ;;
  segments <- Py.get shape "segments" (VList []) ;;
  if negb (Py.truthy segments) then Ok ""
  else
    s <- start_at segments 0 ;;
    x <- Py.getitem s (VStr "x") ;;
    s' <- start_at segments 0 ;;
    y <- Py.getitem s' (VStr "y") ;;
    t <- Py.get txt "text" (VStr "") ;;
    let text := _esc t in
    font_size <- Py.get txt "fontSize" (VInt 14) ;;
    sx <- Py.format_f 1 x ;;
    sy <- Py.format_f 1 y ;;
    Ok ("<text " ++ Py.attr "x" sx ++ " " ++ Py.attr "y" sy ++ " "
        ++ Py.attr "class" "text-label" ++ " "
        ++ Py.attr "font-size" (Py.str B font_size) ++ " "
        ++ Py.attr "font-weight" "bold" ++ ">" ++ text ++ "</text>").

Definition _crop_initial (gc : value) : result value :=
  a <- Py.get gc "cropName" VNone ;;
  name <- (if Py.truthy a then Ok a
           else b <- Py.get gc "title" VNone ;; Ok (Py.or_ b (VStr ""))) ;;
  if Py.truthy name then c <- Py.getitem name (VInt 0) ;; Py.upper B c
  else Ok (VStr "").

(** [sum(c.get("plantCount", 0) for c in clusters)] *)
Fixpoint plant_count_from (acc : value) (clusters : list value) : result value :=
  match clusters with
  | [] => Ok acc
  | c :: rest =>
      n <- Py.get c "plantCount" (VInt 0) ;;
      acc' <- Py.add acc n ;;
      plant_count_from acc' rest
  end.

(** One plant circle; [opacity] is the [fill-opacity] attribute of the
    outer circles and absent on the inner ones. *)
Definition plant_circle (r color : value) (opacity : option string)
    (p : value * value) : result string :=
  scx <- Py.format_f 1 (fst p) ;;
  scy <- Py.format_f 1 (snd p) ;;
  sr <- Py.format_f 1 r ;;
  Ok ("    <circle " ++ Py.attr "cx" scx ++ " " ++ Py.attr "cy" scy ++ " "
      ++ Py.attr "r" sr ++ " " ++ Py.attr "fill" (_esc color) ++ " "
      ++ match opacity with
         | Some o => Py.attr "fill-opacity" o ++ " "
         | None => ""
         end
      ++ Py.attr "stroke" "none" ++ "/>").

(** The solid fallback path of a cluster without rows. *)
Definition cluster_path (cd : string) (color : value) : string :=
  "    <path " ++ Py.attr "d" cd ++ " " ++ Py.attr "fill" (_esc color) ++ " "
  ++ Py.attr "stroke" "none" ++ "/>".

(** The body of the [for cluster in ...] loop of [_render_formation]. *)
Definition render_cluster (cluster plant_spacing outer_r inner_r color : value)
    (parts : list string) : M (list string) :=
  r <~ lift (Py.get cluster "rows" VNone) ;;
  let rows := Py.or_ r (VList []) in
  if Py.truthy rows then
    lift (positions <- _plant_positions_from_rows rows plant_spacing ;;
          outer <- rmap (plant_circle outer_r color (Some "0.3")) positions ;;
          inner <- rmap (plant_circle inner_r color None) positions ;;
          Ok (parts ++ outer ++ inner)%list)
  else
    cluster_shape <~ lift (Py.get cluster "shape" (VDict [])) ;;
    cd <~ _shape_to_path cluster_shape ;;
    if Py.truthy (VStr cd)
    then mret (parts ++ [cluster_path cd color])%list
    else mret parts.

Fixpoint clusters_loop (clusters : list value)
    (plant_spacing outer_r inner_r color : value) (parts : list string)
    : M (list string) :=
  match clusters with
  | [] => mret parts
  | cluster :: rest =>
      parts' <~ render_cluster cluster plant_spacing outer_r inner_r color parts ;;
      clusters_loop rest plant_spacing outer_r inner_r color parts'
  end.

(** The centred initial of [_render_formation], under [if initial:]. *)
Definition formation_label (shape initial : value) : result string :=
  '(fcx, fcy) <- _shape_centroid shape ;;
  font_size <- scaled_extent shape 0.35 24 80 40 ;;
  sx <- Py.format_f 1 fcx ;;
  sy <- Py.format_f 1 fcy ;;
  sf <- Py.format_f 0 font_size ;;
  Ok ("    <text " ++ Py.attr "x" sx ++ " " ++ Py.attr "y" sy ++ " "
      ++ Py.attr "class" "crop-initial" ++ " " ++ Py.attr "font-size" sf ++ ">"
      ++ _esc initial ++ "</text>").

(** What [_render_formation] computes between the outline and the cluster
    loop: the opening tag, the hit-area path and the values the loop needs. *)
Record formation_head : Type := {
  fh_parts : list string;
  fh_color : value;
  fh_initial : value;
  fh_spacing : value;
  fh_outer : value;
  fh_inner : value
}.

Definition render_formation_head (formation : value) (d : string)
    : result formation_head :=
  gc <- Py.get formation "gardenCrop" (VDict []) ;;
  color <- Py.get gc "color" (VStr "#6b8e23") ;;
  title <- Py.get gc "title" (VStr "Unknown") ;;
  seeding <- Py.get gc "seedingDate" (VStr "") ;;
  harvest <- Py.get gc "harvestingDate" (VStr "") ;;
  initial <- _crop_initial gc ;;
  ps <- Py.get formation "plantSpacing" VNone ;;
  let plant_spacing := Py.or_ ps (VInt 80) in
  cl <- Py.get formation "clusters" (VList []) ;;
  clusters <- Py.iter cl ;;
  plant_count <- plant_count_from (VInt 0) clusters ;;
  ground_start <- Py.get gc "groundOccupationStart" (VStr "") ;;
  ground_end <- Py.get gc "groundOccupationEnd" (VStr "") ;;
  let data_attrs :=
    Py.attr "data-crop" (_esc title)
    ++ " " ++ Py.attr "data-seeding" (_esc seeding)
    ++ " " ++ Py.attr "data-harvest" (_esc harvest)
    ++ " " ++ Py.attr "data-plants" (Py.str B plant_count)
    ++ " " ++ Py.attr "data-ground-start" (_esc ground_start)
    ++ " " ++ Py.attr "data-ground-end" (_esc ground_end) in
  let data_attrs :=
    if Py.truthy color
    then data_attrs ++ " " ++ Py.attr "data-color" (_esc color)
    else data_attrs in
  outer_r <- Py.truediv plant_spacing (VFloat 2) ;;
  inner_r <- Py.mul plant_spacing (VFloat 0.35) ;;
  Ok {| fh_parts :=
          [ "  <g " ++ Py.attr "class" "tooltip-target" ++ " " ++ data_attrs ++ ">";
            "    <path " ++ Py.attr "d" d ++ " " ++ Py.attr "fill" (_esc color)
            ++ " " ++ Py.attr "fill-opacity" "0" ++ " "
            ++ Py.attr "stroke" "none" ++ "/>" ];
        fh_color := color;
        fh_initial := initial;
        fh_spacing := plant_spacing;
        fh_outer := VFloat outer_r;
        fh_inner := inner_r |}.

Definition _render_formation (formation : value) : M string :=
  shape <~ lift (Py.get formation "shape" (VDict [])) ;;
  d <~ _shape_to_path shape ;;
  if negb (Py.truthy (VStr d)) then mret ""
  else
    h <~ lift (render_formation_head formation d) ;;
    cl <~ lift (Py.get formation "clusters" (VList [])) ;;
    clusters <~ lift (Py.iter cl) ;;
    parts <~ clusters_loop clusters (fh_spacing h) (fh_outer h) (fh_inner h)
               (fh_color h) (fh_parts h) ;;
    parts <~ lift (if Py.truthy (fh_initial h)
                   then t <- formation_label shape (fh_initial h) ;;
                        Ok (parts ++ [t])%list
                   else Ok parts) ;;
    mret (Py.join Py.nl (parts ++ ["  </g>"])%list).

(** [not f.get("draft") and f.get("gardenCrop")], as a truth value. *)
Definition is_drawn (f : value) : result bool :=
  dr <- Py.get f "draft" VNone ;;
  if Py.truthy dr then Ok false
  else gc <- Py.get f "gardenCrop" VNone ;; Ok (Py.truthy gc).

(** [[f for f in all_formations if ...]] *)
Fixpoint select_formations (all_formations : list value) : result (list value) :=
  match all_formations with
  | [] => Ok []
  | f :: rest =>
      keep <- is_drawn f ;;
      fs <- select_formations rest ;;
      Ok (if keep then f :: fs else fs)
  end.

(** The [for formation in formations] loop. *)
Fixpoint formations_loop (formations : list value) (parts : list string)
    : M (list string) :=
  match formations with
  | [] => mret parts
  | formation :: rest =>
      s <~ _render_formation formation ;;
      formations_loop rest (parts ++ [s])%list
  end.

Definition _render_planting_location (loc : value) : M string :=
  shape <~ lift (Py.get loc "shape" (VDict [])) ;;
  d <~ _shape_to_path shape ;;
  if negb (Py.truthy (VStr d)) then mret ""
  else
    fill <~ lift (Py.get loc "fillColor" (VStr "#d4e6b5")) ;;
    n <~ lift (Py.get loc "name" (VStr "")) ;;
    let name := _esc n in
    pf <~ lift (Py.get loc "plantingFormations" VNone) ;;
    all_formations <~ lift (Py.get (Py.or_ pf (VDict [])) "nodes" (VList [])) ;;
    items <~ lift (Py.iter all_formations) ;;
    formations <~ lift (select_formations items) ;;
    let parts :=
      [ "<g " ++ Py.attr "class" "planting-location" ++ " "
        ++ Py.attr "data-name" name ++ ">";
        "  <path " ++ Py.attr "d" d ++ " " ++ Py.attr "fill" (_esc fill) ++ " "
        ++ Py.attr "stroke" "#8faa6e" ++ " " ++ Py.attr "stroke-width" "1" ++ "/>" ] in
    parts <~ formations_loop formations parts ;;
    mret (Py.join Py.nl (parts ++ ["</g>"])%list).

(** ** Scene composer *)

Definition _empty_svg (message : string) : string :=
  "<svg " ++ Py.attr "xmlns" "http://www.w3.org/2000/svg" ++ " "
  ++ Py.attr "viewBox" "0 0 400 200" ++ " "
  ++ Py.attr "width" "400" ++ " " ++ Py.attr "height" "200" ++ ">"
  ++ "<rect " ++ Py.attr "width" "400" ++ " " ++ Py.attr "height" "200" ++ " "
  ++ Py.attr "fill" "#f5f0e8" ++ "/>"
  ++ "<text " ++ Py.attr "x" "200" ++ " " ++ Py.attr "y" "100" ++ " "
  ++ Py.attr "text-anchor" "middle" ++ " "
  ++ Py.attr "font-family" "sans-serif" ++ " " ++ Py.attr "font-size" "14" ++ " "
  ++ Py.attr "fill" "#999" ++ ">"
  ++ Py.html_escape message ++ "</text>"
  ++ "</svg>".

(** [(plan.get(k) or {}).get("nodes", [])] *)
Definition nodes_of (plan : value) (k : string) : result value :=
  c <- Py.get plan k VNone ;;
  Py.get (Py.or_ c (VDict [])) "nodes" (VList []).

Definition svg_open (width height : value) : string :=
  "<svg " ++ Py.attr "xmlns" "http://www.w3.org/2000/svg" ++ " "
  ++ Py.attr "viewBox" ("0 0 " ++ Py.str B width ++ " " ++ Py.str B height) ++ " "
  ++ Py.attr "width" (Py.str B width) ++ " "
  ++ Py.attr "height" (Py.str B height) ++ " "
  ++ Py.attr "style" "background:#f5f0e8" ++ ">".

Definition svg_defs : string :=
  "<defs>"
  ++ "<style " ++ Py.attr "type" "text/css" ++ ">"
  ++ ".crop-initial { font-family: sans-serif; font-weight: 600; "
  ++ "fill: #fff; text-anchor: middle; dominant-baseline: central; "
  ++ "pointer-events: none; }"
  ++ ".tooltip-target { cursor: pointer; }"
  ++ ".text-label { font-family: sans-serif; fill: #333; "
  ++ "dominant-baseline: hanging; pointer-events: none; }"
  ++ "</style>"
  ++ "</defs>".

(** The [for item_type, item in render_list] loop. *)
Fixpoint render_items (render_list : list item) (svg_parts : list string)
    : M (list string) :=
  match render_list with
  | [] => mret svg_parts
  | (Landmark, it) :: rest =>
      s <~ _render_landmark it ;;
      render_items rest (svg_parts ++ [s])%list
  | (Location, it) :: rest =>
      s <~ _render_planting_location it ;;
      render_items rest (svg_parts ++ [s])%list
  end.

(** The [for txt in texts] loop. *)
Fixpoint render_texts (texts : list value) (svg_parts : list string)
    : result (list string) :=
  match texts with
  | [] => Ok svg_parts
  | txt :: rest =>
      h <- Py.get txt "hidden" VNone ;;
      if negb (Py.truthy h) then
        s <- _render_text txt ;;
        render_texts rest (svg_parts ++ [s])%list
      else render_texts rest svg_parts
  end.

Definition render_garden_svg (garden_data : value) : M string :=
  plan <~ lift (Py.get garden_data "gardenPlan" VNone) ;;
  if negb (Py.truthy plan) then mret (_empty_svg "No garden plan data")
  else
    w <~ lift (Py.get plan "width" VNone) ;;
    let width := Py.or_ w (VInt 800) in
    h <~ lift (Py.get plan "height" VNone) ;;
    let height := Py.or_ h (VInt 600) in
    locations <~ lift (nodes_of plan "plantingLocations") ;;
    landmarks <~ lift (nodes_of plan "landmarks") ;;
    groups <~ lift (nodes_of plan "groups") ;;
    texts <~ lift (nodes_of plan "texts") ;;
    render_list <~ lift (_build_render_order landmarks locations groups) ;;
    let svg_parts := [svg_open width height; svg_defs] in
    svg_parts <~ render_items render_list svg_parts ;;
    txts <~ lift (Py.iter texts) ;;
    svg_parts <~ lift (render_texts txts svg_parts) ;;
    mret (Py.join Py.nl (svg_parts ++ ["</svg>"])%list).

End Renderers.

(** * The image entity: [image.py]

    [SeedtimeGardenImage] serves the rendered plan and a summary of it.  Its
    two methods read [self.coordinator.data], here the argument [data];
    [async_image] also reads and writes three fields of the entity. *)

(** ** Attribute keys, from [const.py] *)

Definition ATTR_GARDEN_TITLE : string := "garden_title".
Definition ATTR_PLAN_WIDTH : string := "plan_width".
Definition ATTR_PLAN_HEIGHT : string := "plan_height".
Definition ATTR_LOCATION_COUNT : string := "location_count".
Definition ATTR_CROP_COUNT : string := "crop_count".

(** ** State attributes *)

(** [s.add(x)] on a set kept in insertion order; members are told apart by
    [==]. *)
Definition set_add (x : value) (s : list value) : result (list value) :=
  if Py.hashable x
  then Ok (if existsb (Py.key_eqb x) s then s else (s ++ [x])%list)
  else Raise TypeError.

(** The inner loop of [extra_state_attributes], over the formations of one
    location. *)
Fixpoint formations_titles (fs : list value) (crop_titles : list value)
    : result (list value) :=
  match fs with
  | [] => Ok crop_titles
  | f :: rest =>
      gc <- Py.get f "gardenCrop" VNone ;;
      crop_titles' <-
        (if Py.truthy gc then
           t <- Py.get gc "title" VNone ;;
           if Py.truthy t then
             t' <- Py.getitem gc (VStr "title") ;;
             set_add t' crop_titles
           else Ok crop_titles
         else Ok crop_titles) ;;
      formations_titles rest crop_titles'
  end.

(** The outer loop, over the locations. *)
Fixpoint locations_titles (locations : list value) (crop_titles : list value)
    : result (list value) :=
  match locations with
  | [] => Ok crop_titles
  | loc :: rest =>
      pf <- Py.get loc "plantingFormations" VNone ;;
      nodes <- Py.get (Py.or_ pf (VDict [])) "nodes" (VList []) ;;
      fs <- Py.iter nodes ;;
      crop_titles' <- formations_titles fs crop_titles ;;
      locations_titles rest crop_titles'
  end.

(** [SeedtimeGardenImage.extra_state_attributes] *)
Definition extra_state_attributes (data : value) : result value :=
  garden <- (if Py.truthy data then Py.get data "garden" (VDict [])
             else Ok (VDict [])) ;;
  p <- Py.get garden "gardenPlan" VNone ;;
  let plan := Py.or_ p (VDict []) in
  locations <- nodes_of plan "plantingLocations" ;;
  locs <- Py.iter locations ;;
  crop_titles <- locations_titles locs [] ;;
  title <- Py.get garden "title" VNone ;;
  width <- Py.get plan "width" VNone ;;
  height <- Py.get plan "height" VNone ;;
  n <- Py.len locations ;;
  Ok (VDict [ (ATTR_GARDEN_TITLE, title);
              (ATTR_PLAN_WIDTH, width);
              (ATTR_PLAN_HEIGHT, height);
              (ATTR_LOCATION_COUNT, VInt n);
              (ATTR_CROP_COUNT, VInt (Z.of_nat (length crop_titles))) ]).

(** ** The cached image *)

(** The fields of the entity that [async_image] reads and writes; the time
    of the last update is a timestamp. *)
Record image_state : Type := {
  _cached_svg : option string;
  _cached_hash : option string;
  _attr_image_last_updated : option Z
}.

(** The fields as [__init__] leaves them. *)
Definition new_image : image_state :=
  {| _cached_svg := None; _cached_hash := None; _attr_image_last_updated := None |}.

(** [plan_hash != self._cached_hash] *)
Definition hash_differs (plan_hash : string) (cached : option string) : bool :=
  match cached with
  | Some h => negb (String.eqb plan_hash h)
  | None => true
  end.

Section ImageEntity.

Variable B : Py.builtins.

(** [hashlib.md5(b).hexdigest()] of bytes, left open like the built-ins. *)
Variable md5_hexdigest : string -> string.

(** [SeedtimeGardenImage.async_image], one call run to its end with no
    other call in between: the awaited executor job is the call of
    [render_garden_svg], and [now] is what [dt_util.utcnow()] returns.  The
    three assignments follow the render and the encoding of its document,
    so a call that raises has assigned nothing. *)
Definition async_image (data : value) (now : Z) (st : image_state) (l : log)
    : result (option string) * image_state * log :=
  if negb (Py.truthy data) then (Ok None, st, l)
  else
    match Py.get data "garden" (VDict []) with
    | Raise e => (Raise e, st, l)
    | Ok garden =>
        match Py.get garden "gardenPlan" VNone with
        | Raise e => (Raise e, st, l)
        | Ok p =>
            if negb (Py.truthy p) then (Ok None, st, l)
            else
              let plan_str := Py.str B p in
              match Py.encode_utf8 plan_str with
              | Raise e => (Raise e, st, l)
              | Ok plan_bytes =>
                  let plan_hash := md5_hexdigest plan_bytes in
                  if hash_differs plan_hash (_cached_hash st) then
                    match render_garden_svg B garden l with
                    | (Raise e, l') => (Raise e, st, l')
                    | (Ok svg, l') =>
                        match Py.encode_utf8 svg with
                        | Raise e => (Raise e, st, l')
                        | Ok image =>
                            (Ok (Some image),
                             {| _cached_svg := Some image;
                                _cached_hash := Some plan_hash;
                                _attr_image_last_updated := Some now |},
                             l')
                        end
                    end
                  else (Ok (_cached_svg st), st, l)
              end
        end
    end.

End ImageEntity.

(** * Specification

    The vocabulary of the properties: what the spec calls well-formed
    input, the values it promises, the invariants of the loops, and sample
    data. *)

(** ** Well-formed geometry and the text of a path *)

(** [v[k]] for a dict that has [k]; [None] stands for anything else. *)
Definition field (k : string) (v : value) : value :=
  match v with
  | VDict d => match Py.lookup k d with Some x => x | None => VNone end
  | _ => VNone
  end.

(** A coordinate that [:.2f] accepts: a float, or an int (or bool) that
    converts to one. *)
Definition is_coord (v : value) : bool :=
  match v with
  | VFloat _ => true
  | VInt z => Z.abs z <? Py.float_limit
  | VBool _ => true
  | _ => false
  end.

Definition is_point (p : value) : bool :=
  match p with
  | VDict d =>
      match Py.lookup "x" d, Py.lookup "y" d with
      | Some x, Some y => is_coord x && is_coord y
      | _, _ => false
      end
  | _ => false
  end.

(** A segment: a dict with a start point and absent, null or listed
    control points, of which the first two are read. *)
Definition is_segment (seg : value) : bool :=
  match seg with
  | VDict d =>
      match Py.lookup "start" d with
      | Some p => is_point p
      | None => false
      end
      && match Py.lookup "bezierControlPoints" d with
         | None | Some VNone => true
         | Some (VList l) => forallb is_point (firstn 2 l)
         | Some _ => false
         end
  | _ => false
  end.

Definition control_points (seg : value) : list value :=
  match field "bezierControlPoints" seg with
  | VList l => l
  | _ => []
  end.

(** The text of a coordinate and of a point, as the path shows them. *)
Definition coord_text (v : value) : string :=
  match fmt2 v with
  | Ok s => s
  | Raise _ => ""
  end.

Definition point_text (p : value) : string :=
  coord_text (field "x" p) ++ " " ++ coord_text (field "y" p).

(** The draw command of a segment, in the spec's words: cubic with two
    control points, quadratic with one, a line with none, ending at the
    start of [next]. *)
Definition draw_text (seg next : value) : string :=
  match control_points seg with
  | c0 :: c1 :: _ =>
      "C " ++ point_text c0 ++ ", " ++ point_text c1 ++ ", "
      ++ point_text (field "start" next)
  | [c0] => "Q " ++ point_text c0 ++ ", " ++ point_text (field "start" next)
  | [] => "L " ++ point_text (field "start" next)
  end.

Definition move_text (segs : list value) : string :=
  "M " ++ point_text (field "start" (nth 0 segs VNone)).

(** One draw command per segment, each to the start of the next, the last
    one back to the first. *)
Definition draw_texts (segs : list value) : list string :=
  map (fun i => draw_text (nth i segs VNone)
                  (nth (S i mod length segs) segs VNone))
      (seq 0 (length segs)).

(** The path text of a well-formed list of segments. *)
Definition path_text (segs : list value) : string :=
  Py.join " " (move_text segs :: draw_texts segs ++ ["Z"])%list.

(** ** The render order, in the spec's words *)

Definition is_dict (v : value) : bool :=
  match v with
  | VDict _ => true
  | _ => false
  end.

(** An entity whose [hidden] flag is set. *)
Definition hidden (v : value) : bool := Py.truthy (field "hidden" v).

Definition shown (nodes : list value) : list value :=
  filter (fun v => negb (hidden v)) nodes.

(** The index of an entity, 0 when absent. *)
Definition index_of (v : value) : Z :=
  match field "index" v with
  | VInt z => z
  | _ => 0
  end.

(** The index of the non-hidden group with id [g]; a later group of the
    same id replaces an earlier one. *)
Definition group_index (groups : list value) (g : string) : option Z :=
  option_map index_of
    (find (fun grp => negb (hidden grp) && Py.eq_str (field "id" grp) g)
          (rev groups)).

(** The group an entity is rendered with: its [groupId], when that names a
    non-hidden group. *)
Definition group_of (groups : list value) (x : value) : option string :=
  match field "groupId" x with
  | VStr g =>
      if negb (String.eqb g "")
      then match group_index groups g with Some _ => Some g | None => None end
      else None
  | _ => None
  end.

Definition in_group_named (groups : list value) (g : string) (it : item) : bool :=
  match group_of groups (snd it) with
  | Some g' => String.eqb g' g
  | None => false
  end.

Definition is_single (groups : list value) (it : item) : bool :=
  match group_of groups (snd it) with
  | Some _ => false
  | None => true
  end.

(** The non-hidden landmarks, then the non-hidden locations. *)
Definition candidates (landmarks locations : list value) : list item :=
  (map (pair Landmark) (shown landmarks) ++ map (pair Location) (shown locations))%list.

(** Each string once, at its first occurrence. *)
Fixpoint dedup (l : list string) : list string :=
  match l with
  | [] => []
  | x :: r => x :: filter (fun y => negb (String.eqb y x)) (dedup r)
  end.

Fixpoint group_names (groups : list value) (its : list item) : list string :=
  match its with
  | [] => []
  | it :: r =>
      match group_of groups (snd it) with
      | Some g => g :: group_names groups r
      | None => group_names groups r
      end
  end.

(** One unit per group that has members: the members in collection order,
    keyed by the group's index. *)
Definition group_units (groups : list value) (its : list item) : list unit_ :=
  map (fun g => (VInt (match group_index groups g with Some z => z | None => 0 end),
                 filter (in_group_named groups g) its))
      (dedup (group_names groups its)).

(** One unit per ungrouped item, keyed by its own index. *)
Definition single_units (groups : list value) (its : list item) : list unit_ :=
  map (fun it => (VInt (index_of (snd it)), [it])) (filter (is_single groups) its).

Definition planned_units (landmarks locations groups : list value) : list unit_ :=
  (group_units groups (candidates landmarks locations)
   ++ single_units groups (candidates landmarks locations))%list.

Definition unit_key (u : unit_) : Z :=
  match fst u with
  | VInt z => z
  | _ => 0
  end.

(** Stable insertion into descending key order. *)
Fixpoint place (u : unit_) (sorted : list unit_) : list unit_ :=
  match sorted with
  | [] => [u]
  | v :: r => if unit_key u <? unit_key v then v :: place u r else u :: v :: r
  end.

Definition order_units (units : list unit_) : list unit_ :=
  fold_right place [] units.

(** Inputs as the data model types them: nodes are dicts; a non-hidden
    node has an int (or no) index and a string (or no) group id; a
    non-hidden group has a string id. *)
Definition index_ok (v : value) : bool :=
  match field "index" v with
  | VNone | VInt _ => true
  | _ => false
  end.

Definition node_ok (v : value) : bool :=
  is_dict v
  && (hidden v
      || (index_ok v
          && match field "groupId" v with VNone | VStr _ => true | _ => false end)).

Definition group_ok (v : value) : bool :=
  is_dict v
  && (hidden v
      || (index_ok v && match field "id" v with VStr _ => true | _ => false end)).


(** ** Plans and planting locations *)

(** A plan with the four collections given as lists. *)
Definition plan_of (width height : value)
    (landmarks locations groups texts : list value) : value :=
  VDict [("gardenPlan",
          VDict [("width", width); ("height", height);
                 ("plantingLocations", VDict [("nodes", VList locations)]);
                 ("landmarks", VDict [("nodes", VList landmarks)]);
                 ("groups", VDict [("nodes", VList groups)]);
                 ("texts", VDict [("nodes", VList texts)])])].

(** [render_garden_svg] once the plan is read. *)
Definition scene (B : Py.builtins) (width height : value)
    (landmarks locations groups texts : list value) : M string :=
  render_list <~ lift (_build_render_order (VList landmarks) (VList locations)
                         (VList groups)) ;;
  svg_parts <~ render_items B render_list [svg_open B width height; svg_defs] ;;
  svg_parts <~ lift (render_texts B texts svg_parts) ;;
  mret (Py.join Py.nl (svg_parts ++ ["</svg>"])%list).

(** A formation is drawn when it is not a draft and has a garden crop. *)
Definition drawn (f : value) : bool :=
  negb (Py.truthy (field "draft" f)) && Py.truthy (field "gardenCrop" f).

(** The location [d] with [fs] as its formations. *)
Definition with_formations (d : list (string * value)) (fs : list value) : value :=
  VDict (("plantingFormations", VDict [("nodes", VList fs)]) :: d).

(** [_render_planting_location] from the point where [formations] is known. *)
Definition location_body (B : Py.builtins) (d : list (string * value))
    (path : string) (formations : list value) : M string :=
  parts <~ formations_loop B formations
      [ "<g " ++ Py.attr "class" "planting-location" ++ " "
        ++ Py.attr "data-name"
             (_esc B (match Py.lookup "name" d with Some v => v | None => VStr "" end))
        ++ ">";
        "  <path " ++ Py.attr "d" path ++ " "
        ++ Py.attr "fill"
             (_esc B (match Py.lookup "fillColor" d with
                      | Some v => v | None => VStr "#d4e6b5" end))
        ++ " " ++ Py.attr "stroke" "#8faa6e" ++ " "
        ++ Py.attr "stroke-width" "1" ++ "/>" ] ;;
  mret (Py.join Py.nl (parts ++ ["</g>"])%list).

(** ** Landmarks *)

(** A bound on integer coordinates and on the number of segments that keeps
    every sum and difference the renderer takes inside binary64. *)
Definition coord_bound : Z := 2 ^ 64.

Definition small_coord (v : value) : bool :=
  match v with
  | VFloat _ => true
  | VInt z => Z.abs z <=? coord_bound
  | _ => false
  end.

(** A segment of C1 whose start coordinates are floats or ints within
    [coord_bound]. *)
Definition plain_segment (seg : value) : bool :=
  is_segment seg
  && small_coord (field "x" (field "start" seg))
  && small_coord (field "y" (field "start" seg)).

Definition is_number (v : value) : bool :=
  match v with
  | VInt _ | VFloat _ => true
  | _ => false
  end.

Definition fill_color (d : list (string * value)) : value :=
  match Py.lookup "fillColor" d with Some v => v | None => VStr "#cccccc" end.
Definition stroke_color (d : list (string * value)) : value :=
  match Py.lookup "strokeColor" d with Some v => v | None => VStr "#999999" end.
Definition stroke_width (d : list (string * value)) : value :=
  match Py.lookup "strokeWidth" d with Some v => v | None => VInt 1 end.

(** The lines of a landmark by icon: a house has a badge and no outline, a
    tree the outline and a badge, any other icon the outline and an empty
    line where the badge would be, no icon the outline alone. *)
Definition landmark_lines (icon : value) (opening outline : string)
    (badge : string -> string -> string) : list string :=
  if Py.eq_str icon "house" then [opening; badge "#44739e" _MDI_HOME; "</g>"]
  else if Py.eq_str icon "tree" then [opening; outline; badge "#4a7c3f" _MDI_TREE; "</g>"]
  else if Py.truthy icon then [opening; outline; ""; "</g>"]
  else [opening; outline; "</g>"].

(** ** The layout of a row, in the spec's words *)

(** The value of a number as a float. *)
Definition fl (v : value) : float :=
  match v with
  | VInt z => SF2Prim (binary_normalize 53 1024 z 0 false)
  | VFloat f => f
  | _ => 0%float
  end.

(** Python's arithmetic on two numbers that are in range: exact on two
    ints, in binary64 otherwise. *)
Definition exact (fz : Z -> Z -> Z) (ff : float -> float -> float)
    (a b : value) : value :=
  match a, b with
  | VInt x, VInt y => VInt (fz x y)
  | _, _ => VFloat (ff (fl a) (fl b))
  end.

Definition vadd : value -> value -> value := exact Z.add PrimFloat.add.
Definition vsub : value -> value -> value := exact Z.sub PrimFloat.sub.
Definition vmul : value -> value -> value := exact Z.mul PrimFloat.mul.

(** [v < 1] *)
Definition below_one (v : value) : bool :=
  match v with
  | VInt z => z <? 1
  | VFloat f => Py.float_lt_Z f 1
  | _ => false
  end.

Definition finite (f : float) : bool :=
  match Prim2SF f with
  | S754_finite _ _ _ | S754_zero _ => true
  | _ => false
  end.

(** [floor] of a finite float that is not negative. *)
Definition trunc (f : float) : Z :=
  match Py.int_of_float f with
  | Ok z => z
  | Raise _ => 0
  end.

Definition row_sx (row : value) : value := field "x" (field "start" row).
Definition row_sy (row : value) : value := field "y" (field "start" row).
Definition row_ex (row : value) : value := field "x" (field "end" row).
Definition row_ey (row : value) : value := field "y" (field "end" row).
Definition row_dx (row : value) : value := vsub (row_ex row) (row_sx row).
Definition row_dy (row : value) : value := vsub (row_ey row) (row_sy row).

(** The sum of the squares of [dx] and [dy], and the length L of the row. *)
Definition row_squares (row : value) : value :=
  vadd (vmul (row_dx row) (row_dx row)) (vmul (row_dy row) (row_dy row)).
Definition row_length (row : value) : float := PrimFloat.sqrt (fl (row_squares row)).

(** L < 1 or plantSpacing < 1 *)
Definition degenerate (plant_spacing row : value) : bool :=
  below_one (VFloat (row_length row)) || below_one plant_spacing.

(** floor(L / plantSpacing) + 1 *)
Definition plant_count (plant_spacing row : value) : Z :=
  trunc (row_length row / fl plant_spacing) + 1.

(** start + i * plantSpacing * unitDirection *)
Definition plant_position (plant_spacing row : value) (i : Z) : value * value :=
  (vadd (row_sx row)
     (vmul (vmul (VInt i) plant_spacing)
        (VFloat (fl (row_dx row) / row_length row))),
   vadd (row_sy row)
     (vmul (vmul (VInt i) plant_spacing)
        (VFloat (fl (row_dy row) / row_length row)))).

Definition row_layout (plant_spacing row : value) : list (value * value) :=
  if degenerate plant_spacing row then [(row_sx row, row_sy row)]
  else map (plant_position plant_spacing row) (Py.range (plant_count plant_spacing row)).

(** An int that converts to a float without overflow; floats always fit. *)
Definition fits (v : value) : bool :=
  match v with
  | VInt z => Z.abs z <? Py.float_limit
  | _ => true
  end.

(** The row and the spacing are numbers, every int the layout converts to a
    float is in range, and, unless the row is degenerate, L / plantSpacing
    is finite. *)
Definition row_in_range (plant_spacing row : value) : bool :=
  forallb is_number [row_sx row; row_sy row; row_ex row; row_ey row; plant_spacing]
  && forallb fits
       [ row_sx row; row_sy row; row_ex row; row_ey row; row_dx row; row_dy row;
         vmul (row_dx row) (row_dx row); vmul (row_dy row) (row_dy row);
         row_squares row ]
  && (degenerate plant_spacing row
      || (fits plant_spacing
          && finite (row_length row / fl plant_spacing)
          && fits (VInt (plant_count plant_spacing row))
          && fits (vmul (VInt (plant_count plant_spacing row)) plant_spacing))).

(** ** Invariants used in the proofs *)

(** The map holds string keys and int values, and answers as
    [group_index] does on the groups read so far. *)
Definition map_of (m : list (value * value)) (groups : list value) : Prop :=
  Forall (fun kv => exists g z, kv = (VStr g, VInt z)) m
  /\ forall g, kfind (VStr g) m = option_map VInt (group_index groups g).

(** The two accumulators of the categorising loops after the items [done]. *)
Definition buckets (groups : list value) (done : list item)
    : list (value * list item) :=
  map (fun g => (VStr g, filter (in_group_named groups g) done))
      (dedup (group_names groups done)).

Definition singles (groups : list value) (done : list item)
    : list (value * item) :=
  map (fun it => (VInt (index_of (snd it)), it)) (filter (is_single groups) done).

Definition int_key (u : unit_) : Prop := exists z, fst u = VInt z.

(** A computation whose result and log records do not depend on the log
    it starts from. *)
Definition oblivious {A} (m : M A) : Prop :=
  exists (r : result A) (records : log), forall l, m l = (r, (l ++ records)%list).

(** A float, or an int of magnitude at most [b]. *)
Definition numv (b : Z) (v : value) : Prop :=
  match v with
  | VInt z => Z.abs z <= b
  | VFloat _ => True
  | _ => False
  end.

Definition sf_nonneg (x : spec_float) : bool :=
  match x with
  | S754_finite s _ _ | S754_infinity s => negb s
  | _ => true
  end.

(** ** Outcomes of a call *)

(** [r] raises, if at all, an exception of the set [P]. *)
Definition raises_in {A} (P : exn -> bool) (r : result A) : Prop :=
  match r with
  | Ok _ => True
  | Raise e => P e = true
  end.

(** What the reads and the formatting of a path can raise. *)
Definition path_exn (e : exn) : bool :=
  match e with
  | ZeroDivisionError | UnicodeEncodeError => false
  | _ => true
  end.

(** What arithmetic on two values can raise. *)
Definition arith_exn (e : exn) : bool :=
  match e with
  | TypeError | OverflowError => true
  | _ => false
  end.

(** The exceptions that leave [_shape_to_path], [_shape_centroid] and
    [_plant_positions_from_rows]. *)
Definition escapes_shape_to_path (e : exn) : bool :=
  match e with
  | AttributeError | ValueError | OverflowError => true
  | _ => false
  end.

Definition escapes_shape_centroid (e : exn) : bool :=
  match e with
  | AttributeError | TypeError | OverflowError => true
  | _ => false
  end.

Definition escapes_plant_positions (e : exn) : bool :=
  match e with
  | TypeError | OverflowError | ValueError => true
  | _ => false
  end.

(** [m] only appends to the log, and only records of the set [P]. *)
Definition logs_only {A} (P : exn -> bool) (m : M A) : Prop :=
  forall l, exists records,
    snd (m l) = (l ++ records)%list /\ forallb P records = true.

(** ** Markup *)

(** A draw command names its kind first. *)
Definition is_draw_command (c : string) : Prop :=
  exists rest, c = "C " ++ rest \/ c = "Q " ++ rest \/ c = "L " ++ rest.

(** The characters that open or close a tag or an attribute value:
    [<], [>], the double and the single quote. *)
Definition markup_char (c : ascii) : bool :=
  let n := nat_of_ascii c in
  (Nat.eqb n 60 || Nat.eqb n 62 || Nat.eqb n 34 || Nat.eqb n 39)%bool.

(** A character [html.escape] leaves alone: none of those, nor [&]. *)
Definition plain_char (c : ascii) : bool :=
  negb (markup_char c) && negb (Nat.eqb (nat_of_ascii c) 38).

Definition markup_free (s : string) : bool :=
  forallb (fun c => negb (markup_char c)) (list_ascii_of_string s).

Definition plain_text (s : string) : bool :=
  forallb plain_char (list_ascii_of_string s).

(** ** Rows and clamped sizes *)

Definition has_xy (p : value) : bool :=
  match p with
  | VDict d =>
      match Py.lookup "x" d, Py.lookup "y" d with
      | Some _, Some _ => true
      | _, _ => false
      end
  | _ => false
  end.

(** A row that has both end points, each with both coordinates. *)
Definition has_endpoints (row : value) : bool :=
  match row with
  | VDict d =>
      match Py.lookup "start" d, Py.lookup "end" d with
      | Some s, Some e => has_xy s && has_xy e
      | _, _ => false
      end
  | _ => false
  end.


(** ** The centre and the extent of a shape *)

(** The start coordinates of the segments, in order. *)
Definition starts (k : string) (segs : list value) : list value :=
  map (fun s => field k (field "start" s)) segs.

(** A segment whose start point has both coordinates, and one whose
    coordinates are floats or ints within [coord_bound]. *)
Definition has_start (seg : value) : bool := has_xy (field "start" seg).

Definition numeric_start (seg : value) : bool :=
  has_start seg
  && small_coord (field "x" (field "start" seg))
  && small_coord (field "y" (field "start" seg)).


(** The sum of numbers in range, taken from the int 0 and left to right:
    exact while all are ints, in binary64 from the first float on. *)
Definition total (xs : list value) : value := fold_left vadd xs (VInt 0).

(** The arithmetic mean, the sum over the count: an int sum is divided
    exactly and the quotient rounded once, a float sum is divided in
    binary64. *)
Definition average (xs : list value) : float :=
  let n := Z.of_nat (length xs) in
  match total xs with
  | VInt z => match Py.int_truediv z n with Ok q => q | Raise _ => 0%float end
  | s => (fl s / fl (VInt n))%float
  end.

(** [a < b] on two numbers. *)
Definition less (a b : value) : bool :=
  match Py.as_num a, Py.as_num b with
  | Some x, Some y => Py.num_lt x y
  | _, _ => false
  end.

(** The smaller and the larger of two numbers, the first of equals, and the
    least and the greatest of a list. *)
Definition smaller (a b : value) : value := if less b a then b else a.
Definition larger (a b : value) : value := if less a b then b else a.

Definition least (xs : list value) : value :=
  match xs with
  | [] => VNone
  | x :: r => fold_left smaller r x
  end.
Definition greatest (xs : list value) : value :=
  match xs with
  | [] => VNone
  | x :: r => fold_left larger r x
  end.

(** The extent of a shape: the smaller of its width and its height over
    the start points. *)
Definition extent (segs : list value) : value :=
  smaller (vsub (greatest (starts "x" segs)) (least (starts "x" segs)))
          (vsub (greatest (starts "y" segs)) (least (starts "y" segs))).

(** A size brought into the range from [lo] to [hi]: the size itself when
    it lies between the two, [lo] when it is not above [lo], [hi] when it is
    not below [hi] or is a NaN. *)
Definition clamp_size (lo hi : Z) (v : value) : value :=
  if less v (VInt hi) then (if less (VInt lo) v then v else VInt lo) else VInt hi.

(** The radius of a landmark's badge: 0.15 of the extent, between 30 and
    80. *)
Definition badge_radius (segs : list value) : value :=
  clamp_size 30 80 (vmul (extent segs) (VFloat 0.15)).

(** The stroke width a landmark is drawn with: the width itself when it
    lies between 3 and 60, 60 when it is larger, 3 when it is smaller or a
    NaN. *)
Definition stroke_clamp (stroke_w : value) : value :=
  match stroke_w with
  | VInt z => VInt (Z.max 3 (Z.min z 60))
  | VFloat f =>
      if Py.Z_lt_float 60 f then VInt 60
      else if Py.Z_lt_float 3 f then VFloat f
      else VInt 3
  | _ => stroke_w
  end.

(** ** The markup of a landmark, in the spec's words *)

Definition quoted (s : string) : string := Py.dq ++ s ++ Py.dq.

(** A value as it stands in an attribute: its text with [&], [<], [>] and
    the two quotes escaped. *)
Definition escaped (B : Py.builtins) (v : value) : string :=
  Py.html_escape (Py.str B v).

(** A number with the given count of decimals. *)
Definition decimal (digits : nat) (f : float) : string := Py.format_float digits f.

Definition landmark_name (d : list (string * value)) : value :=
  match Py.lookup "name" d with Some v => v | None => VStr "" end.

(** The opening tag: a landmark with an icon and a name carries what the
    tooltip shows, any other its name alone. *)
Definition opening_text (B : Py.builtins) (d : list (string * value)) : string :=
  if Py.truthy (field "iconName" (VDict d)) && Py.truthy (landmark_name d)
  then "<g class=" ++ quoted "landmark tooltip-target"
       ++ " data-name=" ++ quoted (escaped B (landmark_name d))
       ++ " data-crop=" ++ quoted (escaped B (landmark_name d))
       ++ " data-color=" ++ quoted (escaped B (fill_color d)) ++ ">"
  else "<g class=" ++ quoted "landmark"
       ++ " data-name=" ++ quoted (escaped B (landmark_name d)) ++ ">".

(** The filled outline: fill opacity 0.55 and an opaque stroke of width
    [w]. *)
Definition outline_text (B : Py.builtins) (d : list (string * value))
    (path : string) (w : value) : string :=
  "  <path d=" ++ quoted path
  ++ " fill=" ++ quoted (escaped B (fill_color d))
  ++ " fill-opacity=" ++ quoted "0.55"
  ++ " stroke=" ++ quoted (escaped B (stroke_color d))
  ++ " stroke-width=" ++ quoted (Py.str B w) ++ "/>".

(** The badge: a disc of the given colour, centre and radius with a white
    rim, and the 24 by 24 glyph in white, scaled to 0.6 of the diameter and
    centred. *)
Definition badge_text (cx cy : float) (r : value) (color glyph : string) : string :=
  let scale := (fl r * 1.2 / 24)%float in
  "<circle cx=" ++ quoted (decimal 1 cx) ++ " cy=" ++ quoted (decimal 1 cy)
  ++ " r=" ++ quoted (decimal 1 (fl r)) ++ " fill=" ++ quoted color
  ++ " stroke=" ++ quoted "#fff" ++ " stroke-width=" ++ quoted "4" ++ "/>"
  ++ "<path d=" ++ quoted glyph ++ " fill=" ++ quoted "#fff"
  ++ " transform="
  ++ quoted ("translate(" ++ decimal 1 (cx - 12 * scale)%float ++ ","
             ++ decimal 1 (cy - 12 * scale)%float
             ++ ") scale(" ++ decimal 3 scale ++ ")")
  ++ "/>".

(** The markup of a landmark with the outline [segs]. *)
Definition landmark_text (B : Py.builtins) (d : list (string * value))
    (segs : list value) : string :=
  Py.join Py.nl
    (landmark_lines (field "iconName" (VDict d)) (opening_text B d)
       (outline_text B d (path_text segs) (stroke_clamp (stroke_width d)))
       (badge_text (average (starts "x" segs)) (average (starts "y" segs))
          (badge_radius segs))).

(** ** The markup of a planting location and of the document *)

(** The shape of an entity, the empty dict when it has none. *)
Definition shape_in (d : list (string * value)) : value :=
  match Py.lookup "shape" d with Some v => v | None => VDict [] end.

(** The lines of a planting location: its opening tag, its outline, the
    markup of its formations and the closing tag. *)
Definition location_lines (B : Py.builtins) (d : list (string * value))
    (path : string) (formations : list string) : list string :=
  let opening :=
    "<g class=" ++ quoted "planting-location" ++ " data-name="
    ++ quoted (escaped B (landmark_name d)) ++ ">" in
  let outline :=
    "  <path d=" ++ quoted path ++ " fill="
    ++ quoted (escaped B (match Py.lookup "fillColor" d with
                          | Some v => v | None => VStr "#d4e6b5" end))
    ++ " stroke=" ++ quoted "#8faa6e" ++ " stroke-width=" ++ quoted "1" ++ "/>" in
  ([opening; outline] ++ formations ++ ["</g>"])%list.

(** The markup of one formation, of one landmark or location, rendered on
    its own. *)
Definition formation_markup (B : Py.builtins) (f : value) : result string :=
  fst (_render_formation B f []).

Definition element_markup (B : Py.builtins) (it : item) : result string :=
  match fst it with
  | Landmark => fst (_render_landmark B (snd it) [])
  | Location => fst (_render_planting_location B (snd it) [])
  end.

(** The opening tag of the document and its style sheet. *)
Definition header_text (B : Py.builtins) (width height : value) : string :=
  "<svg xmlns=" ++ quoted "http://www.w3.org/2000/svg"
  ++ " viewBox=" ++ quoted ("0 0 " ++ Py.str B width ++ " " ++ Py.str B height)
  ++ " width=" ++ quoted (Py.str B width)
  ++ " height=" ++ quoted (Py.str B height)
  ++ " style=" ++ quoted "background:#f5f0e8" ++ ">".

Definition style_sheet : string :=
  "<defs><style type=" ++ quoted "text/css" ++ ">"
  ++ ".crop-initial { font-family: sans-serif; font-weight: 600; fill: #fff; "
  ++ "text-anchor: middle; dominant-baseline: central; pointer-events: none; }"
  ++ ".tooltip-target { cursor: pointer; }"
  ++ ".text-label { font-family: sans-serif; fill: #333; "
  ++ "dominant-baseline: hanging; pointer-events: none; }"
  ++ "</style></defs>".

(** The lines of the document. *)
Definition document_lines (B : Py.builtins) (width height : value)
    (elements labels : list string) : list string :=
  ([ header_text B (Py.or_ width (VInt 800)) (Py.or_ height (VInt 600));
     style_sheet ] ++ elements ++ labels ++ ["</svg>"])%list.

(** ** The image entity *)

(** Coordinator data holding a garden with the given title, plan size and
    planting locations. *)
Definition coordinator_data (title width height : value) (locations : list value)
    : value :=
  VDict [("garden",
          VDict [("title", title);
                 ("gardenPlan",
                  VDict [("width", width); ("height", height);
                         ("plantingLocations", VDict [("nodes", VList locations)])])])].

Definition formations_of (loc : value) : list value :=
  match field "plantingFormations" loc with
  | VDict pf =>
      match Py.lookup "nodes" pf with
      | Some (VList fs) => fs
      | _ => []
      end
  | _ => []
  end.

(** The title a formation contributes: that of its garden crop, when it has
    one that is not empty. *)
Definition crop_title (f : value) : list string :=
  match field "gardenCrop" f with
  | VDict gc =>
      match Py.lookup "title" gc with
      | Some (VStr t) => if String.eqb t "" then [] else [t]
      | _ => []
      end
  | _ => []
  end.

Definition crop_titles_of (locations : list value) : list string :=
  flat_map (fun loc => flat_map crop_title (formations_of loc)) locations.

(** Formations and locations as the data model types them: a garden crop is
    absent, null or a dict whose title is absent, null or a string; the
    formations of a location are absent, null or a dict whose nodes are
    absent or a list of such formations. *)
Definition formation_typed (f : value) : bool :=
  is_dict f
  && match field "gardenCrop" f with
     | VNone => true
     | VDict gc =>
         match Py.lookup "title" gc with
         | None | Some VNone | Some (VStr _) => true
         | _ => false
         end
     | _ => false
     end.

Definition location_typed (loc : value) : bool :=
  is_dict loc
  && match field "plantingFormations" loc with
     | VNone => true
     | VDict pf =>
         match Py.lookup "nodes" pf with
         | None => true
         | Some (VList fs) => forallb formation_typed fs
         | _ => false
         end
     | _ => false
     end.

(** The plan of the coordinator's data, when there is one to render. *)
Definition current_plan (data : value) : option value :=
  if Py.truthy data then
    match Py.get data "garden" (VDict []) with
    | Ok garden =>
        match Py.get garden "gardenPlan" VNone with
        | Ok p => if Py.truthy p then Some p else None
        | Raise _ => None
        end
    | Raise _ => None
    end
  else None.

(** The cache holds no hash, or the hash of a plan together with the
    document the renderer returns for that plan. *)
Definition cache_sound (B : Py.builtins) (md5_hexdigest : string -> string)
    (st : image_state) : Prop :=
  match _cached_hash st with
  | None => True
  | Some h =>
      exists p svg,
        md5_hexdigest (Py.str B p) = h
        /\ _cached_svg st = Some svg
        /\ forall l, fst (render_garden_svg B (VDict [("gardenPlan", p)]) l) = Ok svg
  end.

(** ** Samples *)

(** Sample geometry. *)
Definition pt (x y : value) : value := VDict [("x", x); ("y", y)].
Definition corner (x y : Z) : value := VDict [("start", pt (VInt x) (VInt y))].
Definition curve (x y : Z) (cps : list value) : value :=
  VDict [("start", pt (VInt x) (VInt y)); ("bezierControlPoints", VList cps)].
Definition shape_of (segs : list value) : value := VDict [("segments", VList segs)].
Definition square : list value := [corner 0 0; corner 10 0; corner 10 10; corner 0 10].
Definition leaf : list value :=
  [ curve 0 0 [pt (VInt 1) (VFloat 2.5); pt (VInt 3) (VInt 4)];
    curve 5 5 [pt (VFloat 0.125) (VInt 6)];
    corner 0 9 ].

(** Sample entities. *)
Definition node (name : string) (index : Z) : value :=
  VDict [("name", VStr name); ("index", VInt index)].
Definition member (name : string) (index : Z) (group_id : string) : value :=
  VDict [("name", VStr name); ("index", VInt index); ("groupId", VStr group_id)].
Definition group (id : string) (index : Z) : value :=
  VDict [("id", VStr id); ("index", VInt index)].
Definition hidden_group (id : string) (index : Z) : value :=
  VDict [("id", VStr id); ("index", VInt index); ("hidden", VBool true)].

(** A stand-in for the built-ins left open, to run the renderer on samples. *)
Definition sample_builtins : Py.builtins :=
  {| Py.float_repr := Py.format_float 1;
     Py.container_repr := fun _ => "";
     Py.str_upper := fun s => s |}.

Definition crop (title : string) : value := VDict [("title", VStr title)].
Definition formation (draft : bool) (garden_crop : value) : value :=
  VDict [("draft", VBool draft); ("gardenCrop", garden_crop);
         ("shape", shape_of square)].
Definition bed : list (string * value) :=
  [("name", VStr "bed"); ("shape", shape_of square)].

Definition house : list (string * value) :=
  [("name", VStr "home"); ("iconName", VStr "house"); ("shape", shape_of square)].

Definition row (x0 y0 x1 y1 : value) : value :=
  VDict [("start", pt x0 y0); ("end", pt x1 y1)].

(** A text element with the given other fields and shape segments. *)
Definition text_node (others : list (string * value)) (segs : list value) : value :=
  VDict (("shape", shape_of segs) :: others).

(** Sample texts, plans and coordinator data. *)
Definition label (s : string) (x y : Z) : value :=
  text_node [("text", VStr s)] [corner x y].


Definition sample_plan : value :=
  plan_of VNone VNone [VDict house] [VDict bed] [] [label "north" 1 2].

Definition sample_data : value := VDict [("garden", sample_plan)].

(** A lone surrogate, U+D800, and coordinator data whose only text holds
    it. *)
Definition lone_surrogate : string :=
  String (ascii_of_nat 237) (String (ascii_of_nat 160) (String (ascii_of_nat 128) "")).

Definition surrogate_data : value :=
  VDict [("garden", plan_of VNone VNone [] [] [] [label lone_surrogate 1 2])].

Definition planting (title : string) : value :=
  VDict [("gardenCrop", VDict [("title", VStr title)])].
Definition plot (fs : list value) : value :=
  VDict [("plantingFormations", VDict [("nodes", VList fs)])].

(** * Properties *)

Arguments Py.float_limit : simpl never.

(** ** Monad facts *)

Lemma rbind_ok {A B} (a : A) (k : A -> result B) : rbind (Ok a) k = k a.
Proof. reflexivity. Qed.

Lemma mbind_lift_ok {A B} (a : A) (k : A -> M B) (l : log) :
  mbind (lift (Ok a)) k l = k a l.
Proof. reflexivity. Qed.

Lemma mbind_ok {A B} (m : M A) (k : A -> M B) (l l' : log) (a : A) :
  m l = (Ok a, l') -> mbind m k l = k a l'.
Proof. intros H. unfold mbind. now rewrite H. Qed.

Lemma mbind_raise {A B} (m : M A) (k : A -> M B) (l l' : log) (e : exn) :
  m l = (Raise e, l') -> mbind m k l = (Raise e, l').
Proof. intros H. unfold mbind. now rewrite H. Qed.

Lemma mbind_ext {A B} (m : M A) (k1 k2 : A -> M B) (l : log) :
  (forall a l', k1 a l' = k2 a l') -> mbind m k1 l = mbind m k2 l.
Proof.
  intros H. unfold mbind. destruct (m l) as [[a|e] l']; [apply H | reflexivity].
Qed.

(** ** Comparing with an int *)

Lemma lt_int (a : value) (z : Z) :
  Py.lt a (VInt z)
  = match Py.as_num a with
    | Some x => Ok (Py.num_lt x (Py.NInt z))
    | None => Raise TypeError
    end.
Proof. destruct a; reflexivity. Qed.

(** ** Lists and indices *)

Lemma nth_wrap_nat {A} (l : list A) (j : nat) :
  (j < length l)%nat -> Py.nth_wrap l (Z.of_nat j) = nth_error l j.
Proof.
  intros H. unfold Py.nth_wrap.
  destruct (Z.ltb_spec (Z.of_nat j) 0) as [H0|_]; [lia|].
  destruct (Z.leb_spec 0 (Z.of_nat j)) as [_|H0]; [|lia].
  destruct (Z.ltb_spec (Z.of_nat j) (Z.of_nat (length l))) as [_|H0]; [|lia].
  simpl. now rewrite Nat2Z.id.
Qed.

Lemma getitem_list_nat (l : list value) (j : nat) :
  (j < length l)%nat ->
  Py.getitem (VList l) (VInt (Z.of_nat j)) = Ok (nth j l VNone).
Proof.
  intros H. unfold Py.getitem. rewrite (nth_wrap_nat l j H).
  now rewrite (nth_error_nth' l VNone H).
Qed.

Lemma forallb_nth (p : value -> bool) (l : list value) (j : nat) :
  forallb p l = true -> (j < length l)%nat -> p (nth j l VNone) = true.
Proof.
  intros H Hj. rewrite forallb_forall in H. apply H. now apply nth_In.
Qed.

(** ** C1: the path of a well-formed shape *)

Lemma fmt2_coord (v : value) :
  is_coord v = true -> fmt2 v = Ok (coord_text v).
Proof.
  intros H. unfold coord_text.
  destruct v as [| b | z | f | s | l | d]; try discriminate; unfold fmt2, Py.format_f.
  - destruct b; reflexivity.
  - unfold Py.float_of_Z. simpl in H. now rewrite H.
  - reflexivity.
Qed.

Lemma xy2_point (p : value) :
  is_point p = true -> xy2 p = Ok (point_text p).
Proof.
  intros H. destruct p as [| | | | | | d]; try discriminate.
  unfold is_point in H. unfold xy2, point_text, field, Py.getitem.
  destruct (Py.lookup "x" d) as [x|]; [|discriminate].
  destruct (Py.lookup "y" d) as [y|]; [|discriminate].
  apply andb_prop in H. destruct H as [Hx Hy].
  rewrite rbind_ok, (fmt2_coord x Hx), rbind_ok, rbind_ok, (fmt2_coord y Hy).
  reflexivity.
Qed.

Lemma segment_start (seg : value) :
  is_segment seg = true ->
  Py.getitem seg (VStr "start") = Ok (field "start" seg)
  /\ is_point (field "start" seg) = true.
Proof.
  intros H. destruct seg as [| | | | | | d]; try discriminate.
  unfold is_segment in H. apply andb_prop in H. destruct H as [H _].
  unfold Py.getitem, field.
  destruct (Py.lookup "start" d) as [p|]; [|discriminate]. now split.
Qed.

Lemma start_at_segment (segs : list value) (j : nat) :
  forallb is_segment segs = true -> (j < length segs)%nat ->
  start_at (VList segs) (Z.of_nat j) = Ok (field "start" (nth j segs VNone)).
Proof.
  intros Hs Hj. unfold start_at.
  rewrite (getitem_list_nat segs j Hj), rbind_ok.
  apply (segment_start _ (forallb_nth _ _ _ Hs Hj)).
Qed.

Lemma next_index (n i : nat) :
  (i < n)%nat -> (S i mod n = if S i <? n then S i else 0)%nat.
Proof.
  intros H. destruct (Nat.ltb_spec (S i) n) as [H1|H1].
  - now apply Nat.mod_small.
  - assert (S i = n) as -> by lia. apply Nat.Div0.mod_same.
Qed.

Lemma draw_command_segment (segs : list value) (i : nat) :
  forallb is_segment segs = true -> (i < length segs)%nat ->
  draw_command (VList segs) (Z.of_nat i) (nth i segs VNone)
  = Ok (draw_text (nth i segs VNone) (nth (S i mod length segs) segs VNone)).
Proof.
  intros Hs Hi.
  pose proof (forallb_nth _ _ _ Hs Hi) as Hseg.
  assert (Hend : (if Z.of_nat i + 1 <? Z.of_nat (length segs)
                  then start_at (VList segs) (Z.of_nat i + 1)
                  else start_at (VList segs) 0)
                 = Ok (field "start" (nth (S i mod length segs) segs VNone))).
  { rewrite (next_index _ _ Hi).
    destruct (Z.ltb_spec (Z.of_nat i + 1) (Z.of_nat (length segs))) as [H1|H1];
      destruct (Nat.ltb_spec (S i) (length segs)) as [H2|H2]; try lia.
    - replace (Z.of_nat i + 1) with (Z.of_nat (S i)) by lia.
      now apply start_at_segment.
    - apply (start_at_segment segs 0 Hs). lia. }
  assert (Hp : is_point (field "start" (nth (S i mod length segs) segs VNone)) = true).
  { apply segment_start, forallb_nth; [assumption|].
    apply Nat.mod_upper_bound. lia. }
  pose proof (xy2_point _ Hp) as He.
  unfold draw_command, draw_text, control_points.
  destruct (nth i segs VNone) as [| | | | | | d]; try discriminate.
  unfold is_segment in Hseg. apply andb_prop in Hseg. destruct Hseg as [_ Hc].
  unfold Py.get, field. rewrite rbind_ok. unfold Py.len at 1. rewrite rbind_ok.
  rewrite Hend, rbind_ok.
  destruct (Py.lookup "bezierControlPoints" d) as [c|].
  - destruct c as [| | | | | cps |]; try discriminate.
    + simpl. now rewrite He.
    + destruct cps as [|c0 [|c1 cps]].
      * simpl. now rewrite He.
      * simpl in Hc. rewrite andb_true_r in Hc.
        simpl. rewrite (xy2_point _ Hc). simpl. now rewrite He.
      * simpl in Hc. rewrite andb_true_r in Hc.
        apply andb_prop in Hc. destruct Hc as [H0 H1].
        unfold Py.or_, Py.truthy, Py.len. rewrite rbind_ok.
        destruct (Z.leb_spec 2 (Z.of_nat (length (c0 :: c1 :: cps)))) as [_|Hl];
          [|simpl length in Hl; lia].
        pose proof (getitem_list_nat (c0 :: c1 :: cps) 0) as G0.
        pose proof (getitem_list_nat (c0 :: c1 :: cps) 1) as G1.
        change (Z.of_nat 0) with 0 in G0. change (Z.of_nat 1) with 1 in G1.
        rewrite G0, G1 by (simpl; lia).
        change (nth 0 (c0 :: c1 :: cps) VNone) with c0.
        change (nth 1 (c0 :: c1 :: cps) VNone) with c1.
        rewrite !rbind_ok, (xy2_point _ H0), !rbind_ok, (xy2_point _ H1), !rbind_ok, He.
        reflexivity.
  - simpl. now rewrite He.
Qed.

Lemma draw_loop_segments (segs : list value) :
  forallb is_segment segs = true ->
  forall (rest : list value) (i : nat) (parts : list string),
    skipn i segs = rest ->
    draw_loop (VList segs) (Z.of_nat i) rest parts
    = Ok (parts
          ++ map (fun j => draw_text (nth j segs VNone)
                             (nth (S j mod length segs) segs VNone))
                 (seq i (length rest)))%list.
Proof.
  intros Hs rest. induction rest as [|seg rest IH]; intros i parts Hk.
  - simpl. now rewrite app_nil_r.
  - assert (Hi : (i < length segs)%nat).
    { destruct (Nat.lt_ge_cases i (length segs)) as [H|H]; [assumption|].
      rewrite (skipn_all2 segs H) in Hk. discriminate. }
    assert (Hseg : seg = nth i segs VNone).
    { rewrite <- (firstn_skipn i segs) at 1. rewrite Hk.
      rewrite app_nth2; rewrite firstn_length_le by lia; [|lia].
      now rewrite Nat.sub_diag. }
    assert (Hrest : skipn (S i) segs = rest).
    { replace (S i) with (1 + i)%nat by lia.
      rewrite <- skipn_skipn, Hk. reflexivity. }
    simpl draw_loop. rewrite Hseg, (draw_command_segment segs i Hs Hi), rbind_ok.
    replace (Z.of_nat i + 1) with (Z.of_nat (S i)) by lia.
    rewrite (IH (S i) _ Hrest). simpl. now rewrite <- app_assoc.
Qed.

Lemma shape_to_path_segments (d : list (string * value)) (segs : list value)
    (l : log) :
  Py.lookup "segments" d = Some (VList segs) ->
  segs <> [] ->
  forallb is_segment segs = true ->
  _shape_to_path (VDict d) l = (Ok (path_text segs), l).
Proof.
  intros Hd Hne Hs.
  assert (H0 : (0 < length segs)%nat) by (destruct segs; [congruence | simpl; lia]).
  unfold _shape_to_path, Py.get. rewrite Hd, mbind_lift_ok.
  assert (Ht : Py.truthy (VList segs) = true) by (destruct segs; [congruence | reflexivity]).
  rewrite Ht. cbn [negb].
  unfold shape_to_path_try.
  pose proof (start_at_segment segs 0 Hs H0) as S0.
  pose proof (draw_loop_segments segs Hs segs 0 [move_text segs] eq_refl) as L0.
  change (Z.of_nat 0) with 0 in S0, L0.
  rewrite S0, rbind_ok.
  rewrite (xy2_point _ (proj2 (segment_start _ (forallb_nth _ _ _ Hs H0)))), rbind_ok.
  unfold Py.iter. rewrite rbind_ok.
  fold (move_text segs). rewrite L0, rbind_ok.
  reflexivity.
Qed.

(** C1.  A shape with N >= 1 segments whose coordinates are all numbers
    yields one move command, then N draw commands (cubic, quadratic or line
    by the count of control points, each to the next start and the last one
    back to the first), then one close command; nothing is logged. *)
Theorem shape_to_path_commands :
  forall (d : list (string * value)) (segs : list value) (l : log),
    Py.lookup "segments" d = Some (VList segs) ->
    segs <> [] ->
    forallb is_segment segs = true ->
    _shape_to_path (VDict d) l
    = (Ok (Py.join " " (move_text segs :: draw_texts segs ++ ["Z"])%list), l)
    /\ length (draw_texts segs) = length segs.
Proof.
  intros d segs l Hd Hne Hs. split.
  - now apply shape_to_path_segments.
  - unfold draw_texts. now rewrite length_map, length_seq.
Qed.

Lemma shape_to_path_commands_witness :
  Py.lookup "segments" [("segments", VList leaf)] = Some (VList leaf)
  /\ leaf <> []
  /\ forallb is_segment leaf = true
  /\ _shape_to_path (shape_of leaf) []
     = (Ok ("M 0.00 0.00 C 1.00 2.50, 3.00 4.00, 5.00 5.00 "
            ++ "Q 0.12 6.00, 0.00 9.00 L 0.00 0.00 Z"), []).
Proof.
  split; [reflexivity|]. split; [discriminate|]. split; [reflexivity|].
  exact (proj1 (shape_to_path_commands [("segments", VList leaf)] leaf []
                  eq_refl ltac:(discriminate) eq_refl)).
Defined.

(** ** C2: exceptions that escape [_shape_to_path] *)

(** What the handler does catch: a missing key is logged and the path is
    empty. *)
Lemma shape_to_path_missing_key :
  _shape_to_path (shape_of [VDict [("start", VDict [("x", VInt 1)])]]) []
  = (Ok "", [KeyError]).
Proof. reflexivity. Qed.

Lemma shape_to_path_null_coordinate :
  _shape_to_path (shape_of [VDict [("start", pt VNone (VInt 0))]]) []
  = (Ok "", [TypeError]).
Proof. reflexivity. Qed.

Lemma shape_to_path_no_segments (d : list (string * value)) (l : log) :
  Py.lookup "segments" d = None -> _shape_to_path (VDict d) l = (Ok "", l).
Proof. intros H. unfold _shape_to_path, Py.get. now rewrite H. Qed.

(** An int too large for a float makes [:.2f] raise [OverflowError], which
    the handler does not list either: hence the bound in [is_coord]. *)
Lemma shape_to_path_huge_int_raises :
  _shape_to_path (shape_of [VDict [("start", pt (VInt (2 ^ 1024)) (VInt 0))]]) []
  = (Raise OverflowError, []).
Proof. vm_compute. reflexivity. Qed.

(** C2.  A coordinate that is a string makes [:.2f] raise [ValueError],
    which the handler of [_shape_to_path] does not list: the exception
    leaves the function and nothing is logged. *)
Theorem shape_to_path_string_coordinate_raises :
  _shape_to_path (shape_of [VDict [("start", pt (VStr "1") (VInt 0))]]) []
  = (Raise ValueError, []).
Proof. reflexivity. Qed.

(** ** The centroid of sample shapes *)

Lemma shape_centroid_square :
  _shape_centroid (shape_of square) = Ok (VFloat 5, VFloat 5).
Proof. reflexivity. Qed.

Lemma shape_centroid_no_segments (d : list (string * value)) :
  Py.lookup "segments" d = None \/ Py.lookup "segments" d = Some (VList []) ->
  _shape_centroid (VDict d) = Ok (VFloat 0, VFloat 0).
Proof.
  intros [H|H]; unfold _shape_centroid, Py.get; now rewrite H.
Qed.

Lemma shape_centroid_missing_start :
  _shape_centroid (shape_of [corner 0 0; VDict []]) = Ok (VFloat 0, VFloat 0).
Proof. reflexivity. Qed.


(** ** Reading entities *)

Lemma get_field (v : value) (k : string) :
  is_dict v = true -> Py.get v k VNone = Ok (field k v).
Proof.
  destruct v; try discriminate. intros _. unfold Py.get, field.
  now destruct (Py.lookup k d).
Qed.

Lemma index_or_zero_ok (v : value) :
  is_dict v = true -> index_ok v = true ->
  index_or_zero v = Ok (VInt (index_of v)).
Proof.
  intros Hd Hi. unfold index_or_zero. rewrite (get_field v "index" Hd), rbind_ok.
  unfold index_ok in Hi. unfold index_of.
  destruct (field "index" v); try discriminate; reflexivity.
Qed.

(** ** The group index map *)

Lemma kfind_kset (m : list (value * value)) (i g : string) (v : value) :
  Forall (fun kv => exists g z, kv = (VStr g, VInt z)) m ->
  kfind (VStr g) (kset (VStr i) v m)
  = if String.eqb i g then Some v else kfind (VStr g) m.
Proof.
  intros Hm. induction Hm as [|kv m [k [z ->]] _ IH].
  - simpl. change (Py.key_eqb (VStr i) (VStr g)) with (String.eqb i g).
    reflexivity.
  - simpl. change (Py.key_eqb (VStr k) (VStr i)) with (String.eqb k i).
    destruct (String.eqb_spec k i) as [->|Hki].
    + simpl. change (Py.key_eqb (VStr i) (VStr g)) with (String.eqb i g).
      now destruct (String.eqb i g).
    + simpl. change (Py.key_eqb (VStr k) (VStr g)) with (String.eqb k g).
      rewrite IH. destruct (String.eqb_spec k g) as [->|Hkg]; [|reflexivity].
      destruct (String.eqb_spec i g) as [->|_]; [congruence|reflexivity].
Qed.

Lemma kset_typed (m : list (value * value)) (i : string) (z : Z) :
  Forall (fun kv => exists g z, kv = (VStr g, VInt z)) m ->
  Forall (fun kv => exists g z, kv = (VStr g, VInt z)) (kset (VStr i) (VInt z) m).
Proof.
  intros Hm. induction Hm as [|kv m [k [z' ->]] Hm IH].
  - simpl. constructor; [now exists i, z | constructor].
  - simpl. destruct (String.eqb k i).
    + constructor; [now exists k, z | assumption].
    + constructor; [now exists k, z' | assumption].
Qed.

Lemma group_index_snoc (groups : list value) (grp : value) (g : string) :
  group_index (groups ++ [grp]) g
  = if negb (hidden grp) && Py.eq_str (field "id" grp) g
    then Some (index_of grp) else group_index groups g.
Proof.
  unfold group_index. rewrite rev_app_distr. simpl.
  now destruct (negb (hidden grp) && Py.eq_str (field "id" grp) g).
Qed.

Lemma group_index_loop_spec (rest : list value) :
  forallb group_ok rest = true ->
  forall (done : list value) (m : list (value * value)),
    map_of m done ->
    exists m', group_index_loop rest m = Ok m' /\ map_of m' (done ++ rest).
Proof.
  induction rest as [|grp rest IH]; intros Hok done m Hm.
  - exists m. rewrite app_nil_r. now split.
  - simpl in Hok. apply andb_prop in Hok. destruct Hok as [Hg Hrest].
    unfold group_ok in Hg. apply andb_prop in Hg. destruct Hg as [Hd Hg].
    replace (done ++ grp :: rest)%list with ((done ++ [grp]) ++ rest)%list
      by (now rewrite <- app_assoc).
    simpl group_index_loop. rewrite (get_field grp "hidden" Hd), rbind_ok.
    fold (hidden grp).
    destruct (hidden grp) eqn:Hh.
    + apply (IH Hrest). destruct Hm as [Hm1 Hm2]. split; [assumption|].
      intros g. rewrite group_index_snoc, Hh. simpl. apply Hm2.
    + simpl in Hg. apply andb_prop in Hg. destruct Hg as [Hi Hid].
      rewrite (index_or_zero_ok grp Hd Hi), rbind_ok.
      destruct grp as [| | | | | | d]; try discriminate.
      unfold field in Hid. unfold Py.getitem.
      destruct (Py.lookup "id" d) as [id|] eqn:Hl; [|discriminate].
      destruct id as [| | | | i | |]; try discriminate.
      rewrite rbind_ok. simpl Py.hashable. cbv iota.
      apply (IH Hrest). destruct Hm as [Hm1 Hm2]. split.
      * now apply kset_typed.
      * intros g. rewrite (kfind_kset m i g _ Hm1), group_index_snoc, Hh.
        unfold field at 1. rewrite Hl. simpl.
        destruct (String.eqb i g); [reflexivity | apply Hm2].
Qed.

(** ** Categorising the nodes *)

Lemma dedup_in (l : list string) (x : string) : In x (dedup l) <-> In x l.
Proof.
  induction l as [|a l IH]; [reflexivity|]. simpl. rewrite filter_In, IH.
  split.
  - intros [H|[H _]]; auto.
  - intros [H|H]; [now left|].
    destruct (String.eqb_spec x a) as [->|Hn]; [now left|]. right. split; [assumption|].
    now destruct (String.eqb_spec x a).
Qed.

Lemma dedup_nodup (l : list string) : NoDup (dedup l).
Proof.
  induction l as [|a l IH]; simpl; constructor.
  - rewrite filter_In. intros [_ H]. now rewrite String.eqb_refl in H.
  - now apply NoDup_filter.
Qed.

Lemma dedup_snoc (l : list string) (x : string) :
  dedup (l ++ [x])
  = if existsb (String.eqb x) l then dedup l else (dedup l ++ [x])%list.
Proof.
  induction l as [|a l IH]; [reflexivity|].
  simpl. rewrite IH. destruct (String.eqb_spec x a) as [->|Hn]; simpl.
  - destruct (existsb (String.eqb a) l); [reflexivity|].
    rewrite filter_app. simpl. rewrite String.eqb_refl. simpl. now rewrite app_nil_r.
  - destruct (existsb (String.eqb x) l); [reflexivity|].
    rewrite filter_app. simpl. now destruct (String.eqb_spec x a).
Qed.

Lemma group_names_snoc (groups : list value) (its : list item) (it : item) :
  group_names groups (its ++ [it])
  = (group_names groups its
     ++ match group_of groups (snd it) with Some g => [g] | None => [] end)%list.
Proof.
  induction its as [|a its IH]; simpl.
  - destruct (group_of groups (snd it)); reflexivity.
  - rewrite IH. destruct (group_of groups (snd a)); reflexivity.
Qed.

Lemma no_member_no_name (groups : list value) (its : list item) (g : string) :
  ~ In g (group_names groups its) -> filter (in_group_named groups g) its = [].
Proof.
  induction its as [|a its IH]; [reflexivity|]. simpl. unfold in_group_named at 1.
  destruct (group_of groups (snd a)) as [g'|].
  - simpl. intros H. destruct (String.eqb_spec g' g) as [->|_]; [tauto|]. apply IH. tauto.
  - apply IH.
Qed.

Lemma existsb_eqb_in (l : list string) (x : string) :
  existsb (String.eqb x) l = true <-> In x l.
Proof.
  rewrite existsb_exists. split.
  - intros [y [Hy He]]. apply String.eqb_eq in He. now subst.
  - intros H. exists x. split; [assumption | apply String.eqb_refl].
Qed.

Lemma kappend_named (g : string) (it : item) (body : string -> list item)
    (ids : list string) :
  NoDup ids ->
  kappend (VStr g) it (map (fun g' => (VStr g', body g')) ids)
  = if existsb (String.eqb g) ids
    then map (fun g' => (VStr g', if String.eqb g' g
                                  then (body g' ++ [it])%list else body g')) ids
    else (map (fun g' => (VStr g', body g')) ids ++ [(VStr g, [it])])%list.
Proof.
  intros Hn. induction Hn as [|a ids Ha Hn IH]; [reflexivity|].
  simpl. change (Py.key_eqb (VStr a) (VStr g)) with (String.eqb a g).
  rewrite (String.eqb_sym g a).
  destruct (String.eqb_spec a g) as [->|Hag]; simpl.
  - f_equal. apply map_ext_in. intros g' Hg'.
    destruct (String.eqb_spec g' g) as [->|_]; [contradiction | reflexivity].
  - rewrite IH. destruct (existsb (String.eqb g) ids); reflexivity.
Qed.

Lemma buckets_snoc_grouped (groups : list value) (done : list item)
    (it : item) (g : string) :
  group_of groups (snd it) = Some g ->
  kappend (VStr g) it (buckets groups done) = buckets groups (done ++ [it]).
Proof.
  intros Hg. unfold buckets.
  rewrite (kappend_named g it _ _ (dedup_nodup _)).
  rewrite group_names_snoc, Hg, dedup_snoc.
  assert (Hin : forall g', filter (in_group_named groups g') (done ++ [it])
                = (filter (in_group_named groups g') done
                   ++ if String.eqb g g' then [it] else [])%list).
  { intros g'. rewrite filter_app. simpl. unfold in_group_named at 2. now rewrite Hg. }
  destruct (existsb (String.eqb g) (group_names groups done)) eqn:He.
  - assert (He' : existsb (String.eqb g) (dedup (group_names groups done)) = true).
    { rewrite existsb_eqb_in, dedup_in, <- existsb_eqb_in. exact He. }
    rewrite He'. apply map_ext. intros g'. rewrite Hin, (String.eqb_sym g g').
    destruct (String.eqb g' g); [reflexivity | now rewrite app_nil_r].
  - assert (Hni : ~ In g (group_names groups done)).
    { intros H. apply existsb_eqb_in in H. congruence. }
    assert (He' : existsb (String.eqb g) (dedup (group_names groups done)) = false).
    { destruct (existsb _ (dedup _)) eqn:E; [|reflexivity].
      rewrite existsb_eqb_in, dedup_in in E. contradiction. }
    rewrite He', map_app. simpl. f_equal.
    + apply map_ext_in. intros g' Hg'. rewrite Hin.
      destruct (String.eqb_spec g g') as [->|_]; [|now rewrite app_nil_r].
      rewrite dedup_in in Hg'. contradiction.
    + rewrite Hin, String.eqb_refl, (no_member_no_name _ _ _ Hni). reflexivity.
Qed.

Lemma buckets_snoc_single (groups : list value) (done : list item) (it : item) :
  group_of groups (snd it) = None ->
  buckets groups (done ++ [it]) = buckets groups done.
Proof.
  intros Hg. unfold buckets. rewrite group_names_snoc, Hg, app_nil_r.
  apply map_ext. intros g. rewrite filter_app. simpl.
  unfold in_group_named at 2. rewrite Hg. now rewrite app_nil_r.
Qed.

Lemma singles_snoc (groups : list value) (done : list item) (it : item) :
  singles groups (done ++ [it])
  = (singles groups done
     ++ if is_single groups it then [(VInt (index_of (snd it)), it)] else [])%list.
Proof.
  unfold singles. rewrite filter_app, map_app. simpl.
  now destruct (is_single groups it).
Qed.

Lemma in_group_spec (groups : list value) (m : list (value * value)) (x : value) :
  (forall g, kfind (VStr g) m = option_map VInt (group_index groups g)) ->
  match field "groupId" x with VNone | VStr _ => true | _ => false end = true ->
  in_group (field "groupId" x) m
  = Ok (match group_of groups x with Some _ => true | None => false end)
  /\ forall g, group_of groups x = Some g -> field "groupId" x = VStr g.
Proof.
  intros Hm Hx. unfold group_of, in_group.
  destruct (field "groupId" x) as [| | | | g | |]; try discriminate.
  - split; [reflexivity | discriminate].
  - simpl Py.truthy. destruct (negb (String.eqb g "")).
    + simpl Py.hashable. cbv iota. rewrite Hm.
      destruct (group_index groups g); simpl; split; try reflexivity; try discriminate.
      now intros g' [= ->].
    + split; [reflexivity | discriminate].
Qed.

Lemma categorize_spec (groups : list value) (m : list (value * value))
    (kind : item_kind) (nodes : list value) :
  (forall g, kfind (VStr g) m = option_map VInt (group_index groups g)) ->
  forallb node_ok nodes = true ->
  forall done : list item,
    categorize kind nodes m (buckets groups done) (singles groups done)
    = Ok (buckets groups (done ++ map (pair kind) (shown nodes)),
          singles groups (done ++ map (pair kind) (shown nodes))).
Proof.
  intros Hm. induction nodes as [|x nodes IH]; intros Hok done.
  - simpl. now rewrite app_nil_r.
  - simpl in Hok. apply andb_prop in Hok. destruct Hok as [Hx Hrest].
    unfold node_ok in Hx. apply andb_prop in Hx. destruct Hx as [Hd Hx].
    simpl categorize. rewrite (get_field x "hidden" Hd), rbind_ok. fold (hidden x).
    unfold shown. simpl filter. fold (shown nodes).
    destruct (hidden x) eqn:Hh; cbn [negb].
    + now apply IH.
    + simpl in Hx. apply andb_prop in Hx. destruct Hx as [Hi Hg].
      rewrite (get_field x "groupId" Hd), rbind_ok.
      destruct (in_group_spec groups m x Hm Hg) as [Hin Hid].
      rewrite Hin, rbind_ok. simpl map.
      replace (done ++ (kind, x) :: map (pair kind) (shown nodes))%list
        with ((done ++ [(kind, x)]) ++ map (pair kind) (shown nodes))%list
        by (now rewrite <- app_assoc).
      destruct (group_of groups x) as [g|] eqn:Hgo.
      * rewrite (Hid g eq_refl), (buckets_snoc_grouped groups done (kind, x) g Hgo).
        assert (Hs : singles groups (done ++ [(kind, x)]) = singles groups done).
        { rewrite singles_snoc. unfold is_single. simpl snd. rewrite Hgo.
          now rewrite app_nil_r. }
        rewrite <- Hs. now apply IH.
      * rewrite (index_or_zero_ok x Hd Hi), rbind_ok.
        rewrite <- (buckets_snoc_single groups done (kind, x) Hgo).
        assert (Hs : singles groups (done ++ [(kind, x)])
                     = (singles groups done ++ [(VInt (index_of x), (kind, x))])%list).
        { rewrite singles_snoc. unfold is_single. simpl snd. now rewrite Hgo. }
        rewrite <- Hs. now apply IH.
Qed.

(** ** Building and sorting the units *)

Lemma rmap_map {A B C} (f : B -> result C) (h : A -> B) (k : A -> C) (l : list A) :
  (forall a, In a l -> f (h a) = Ok (k a)) ->
  rmap f (map h l) = Ok (map k l).
Proof.
  induction l as [|a l IH]; intros H; [reflexivity|].
  simpl. rewrite (H a (or_introl eq_refl)), rbind_ok, IH; [reflexivity|].
  intros b Hb. apply H. now right.
Qed.

Lemma group_names_index (groups : list value) (its : list item) (g : string) :
  In g (group_names groups its) -> exists z, group_index groups g = Some z.
Proof.
  induction its as [|it its IH]; [contradiction|]. simpl.
  destruct (group_of groups (snd it)) as [g'|] eqn:Hg; [|exact IH].
  intros [<-|H]; [|now apply IH].
  unfold group_of in Hg. destruct (field "groupId" (snd it)); try discriminate.
  destruct (negb (String.eqb s "")); [|discriminate].
  destruct (group_index groups s) as [z|] eqn:Hz; [|discriminate].
  injection Hg as <-. now exists z.
Qed.

Lemma build_units_spec (groups : list value) (m : list (value * value))
    (its : list item) :
  (forall g, kfind (VStr g) m = option_map VInt (group_index groups g)) ->
  build_units m (buckets groups its) (singles groups its)
  = Ok (group_units groups its ++ single_units groups its)%list.
Proof.
  intros Hm. unfold build_units, buckets, group_units.
  rewrite (rmap_map _ _
             (fun g => (VInt (match group_index groups g with Some z => z | None => 0 end),
                        filter (in_group_named groups g) its))).
  - rewrite rbind_ok. unfold singles, single_units. now rewrite map_map.
  - intros g Hg. rewrite dedup_in in Hg.
    destruct (group_names_index _ _ _ Hg) as [z Hz]. now rewrite Hm, Hz.
Qed.

Lemma place_int_key (u : unit_) (l : list unit_) :
  int_key u -> Forall int_key l -> Forall int_key (place u l).
Proof.
  intros Hu Hl. induction Hl as [|v l Hv Hl IH]; simpl.
  - now constructor.
  - destruct (unit_key u <? unit_key v); repeat constructor; assumption.
Qed.

Lemma order_units_int_key (l : list unit_) :
  Forall int_key l -> Forall int_key (order_units l).
Proof.
  intros H. induction H as [|u l Hu Hl IH]; simpl; [constructor|].
  now apply place_int_key.
Qed.

Lemma insert_desc_place (u : unit_) (l : list unit_) :
  int_key u -> Forall int_key l -> insert_desc u l = Ok (place u l).
Proof.
  intros [a Ha] Hl. induction Hl as [|v l [b Hb] Hl IH]; [reflexivity|].
  simpl. rewrite IH. unfold unit_key. rewrite Ha, Hb.
  change (Py.lt (VInt a) (VInt b)) with (Ok (a <? b)). rewrite rbind_ok.
  now destruct (a <? b).
Qed.

Lemma sort_desc_order (l : list unit_) :
  Forall int_key l -> sort_desc l = Ok (order_units l).
Proof.
  intros H. induction H as [|u l Hu Hl IH]; [reflexivity|].
  simpl. rewrite IH, rbind_ok.
  apply insert_desc_place; [assumption | now apply order_units_int_key].
Qed.

Lemma place_perm (u : unit_) (l : list unit_) : Permutation (place u l) (u :: l).
Proof.
  induction l as [|v l IH]; simpl; [reflexivity|].
  destruct (unit_key u <? unit_key v); [|reflexivity].
  rewrite IH. apply perm_swap.
Qed.

Lemma order_units_perm (l : list unit_) : Permutation (order_units l) l.
Proof.
  induction l as [|u l IH]; simpl; [reflexivity|].
  rewrite place_perm. now constructor.
Qed.





Lemma planned_units_int_key (landmarks locations groups : list value) :
  Forall int_key (planned_units landmarks locations groups).
Proof.
  unfold planned_units, group_units, single_units.
  apply Forall_app. split; apply Forall_forall; intros u Hu;
    apply in_map_iff in Hu; destruct Hu as [a [<- _]]; eexists; reflexivity.
Qed.

Lemma map_of_nil : map_of [] [].
Proof. split; [constructor | reflexivity]. Qed.

Lemma render_units_spec (landmarks locations groups : list value) :
  forallb node_ok landmarks = true ->
  forallb node_ok locations = true ->
  forallb group_ok groups = true ->
  render_units (VList landmarks) (VList locations) (VList groups)
  = Ok (order_units (planned_units landmarks locations groups)).
Proof.
  intros Hl Ho Hg. unfold render_units, Py.iter. rewrite rbind_ok.
  destruct (group_index_loop_spec groups Hg [] [] map_of_nil) as [m [Hm [_ Hf]]].
  simpl app in Hf. rewrite Hm, !rbind_ok.
  pose proof (categorize_spec groups m Landmark landmarks Hf Hl []) as H1.
  change (buckets groups []) with (@nil (value * list item)) in H1.
  change (singles groups []) with (@nil (value * item)) in H1.
  rewrite H1, rbind_ok. simpl app. cbv beta iota. rewrite rbind_ok.
  rewrite (categorize_spec groups m Location locations Hf Ho), rbind_ok.
  cbv beta iota. fold (candidates landmarks locations).
  rewrite (build_units_spec groups m _ Hf), rbind_ok.
  apply sort_desc_order, planned_units_int_key.
Qed.


(** A landmark at index 5 comes before a location at index 2. *)
Lemma render_order_higher_index_first :
  _build_render_order (VList [node "shed" 5]) (VList [node "bed" 2]) (VList [])
  = Ok [(Landmark, node "shed" 5); (Location, node "bed" 2)].
Proof. reflexivity. Qed.



(** ** C10: members of hidden or unknown groups *)

Lemma find_all_false {A} (f : A -> bool) (l : list A) :
  (forall a, In a l -> f a = false) -> find f l = None.
Proof.
  intros H. destruct (find f l) as [a|] eqn:E; [|reflexivity].
  apply find_some in E. destruct E as [Hin Hf]. rewrite (H a Hin) in Hf. discriminate.
Qed.

Lemma group_index_none (groups : list value) (g : string) :
  (forall grp, In grp groups -> Py.eq_str (field "id" grp) g = true -> hidden grp = true) ->
  group_index groups g = None.
Proof.
  intros H. unfold group_index. rewrite find_all_false; [reflexivity|].
  intros grp Hin. apply in_rev in Hin.
  destruct (Py.eq_str (field "id" grp) g) eqn:E.
  - now rewrite (H grp Hin E).
  - apply andb_false_r.
Qed.

(** C10.  A non-hidden landmark or location whose [groupId] names a hidden
    group, or no group at all, is planned as a unit of its own, keyed by its
    own index (0 when absent), and is part of the render sequence. *)
Theorem orphan_member_is_own_unit :
  forall (landmarks locations groups : list value) (kind : item_kind)
         (x : value) (g : string),
    forallb node_ok landmarks = true ->
    forallb node_ok locations = true ->
    forallb group_ok groups = true ->
    (kind = Landmark /\ In x landmarks) \/ (kind = Location /\ In x locations) ->
    hidden x = false ->
    field "groupId" x = VStr g ->
    (forall grp, In grp groups ->
                 Py.eq_str (field "id" grp) g = true -> hidden grp = true) ->
    exists sorted out,
      render_units (VList landmarks) (VList locations) (VList groups) = Ok sorted
      /\ In (VInt (index_of x), [(kind, x)]) sorted
      /\ _build_render_order (VList landmarks) (VList locations) (VList groups) = Ok out
      /\ In (kind, x) out.
Proof.
  intros landmarks locations groups kind x g Hl Ho Hg Hin Hh Hx Hgrp.
  pose proof (render_units_spec landmarks locations groups Hl Ho Hg) as Hu.
  pose proof (order_units_perm (planned_units landmarks locations groups)) as Hp.
  set (sorted := order_units (planned_units landmarks locations groups)) in *.
  assert (Hb : _build_render_order (VList landmarks) (VList locations) (VList groups)
               = Ok (concat (map snd sorted))).
  { unfold _build_render_order. now rewrite Hu. }
  assert (Hs : is_single groups (kind, x) = true).
  { unfold is_single, group_of. simpl snd. rewrite Hx, (group_index_none groups g Hgrp).
    now destruct (negb (String.eqb g "")). }
  assert (Hc : In (kind, x) (candidates landmarks locations)).
  { unfold candidates, shown. apply in_or_app.
    destruct Hin as [[-> Hi]|[-> Hi]]; [left | right];
      apply in_map, filter_In; (split; [assumption | now rewrite Hh]). }
  assert (Hunit : In (VInt (index_of x), [(kind, x)]) sorted).
  { apply (Permutation_in _ (Permutation_sym Hp)).
    unfold planned_units. apply in_or_app. right. unfold single_units.
    apply (in_map (fun it : item => (VInt (index_of (snd it)), [it])) _ (kind, x)).
    apply filter_In. now split. }
  exists sorted, (concat (map snd sorted)).
  split; [exact Hu|]. split; [exact Hunit|]. split; [exact Hb|].
  apply in_concat. exists [(kind, x)]. split; [|now left].
  apply (in_map snd _ _ Hunit).
Qed.

Lemma orphan_member_is_own_unit_witness :
  forallb node_ok [member "pond" 9 "g1"] = true
  /\ forallb node_ok [] = true
  /\ forallb group_ok [hidden_group "g1" 3] = true
  /\ hidden (member "pond" 9 "g1") = false
  /\ field "groupId" (member "pond" 9 "g1") = VStr "g1"
  /\ exists sorted out,
       render_units (VList [member "pond" 9 "g1"]) (VList []) (VList [hidden_group "g1" 3])
       = Ok sorted
       /\ In (VInt 9, [(Landmark, member "pond" 9 "g1")]) sorted
       /\ _build_render_order (VList [member "pond" 9 "g1"]) (VList [])
            (VList [hidden_group "g1" 3]) = Ok out
       /\ In (Landmark, member "pond" 9 "g1") out.
Proof.
  repeat (split; [reflexivity|]).
  apply (orphan_member_is_own_unit [member "pond" 9 "g1"] [] [hidden_group "g1" 3]
           Landmark (member "pond" 9 "g1") "g1" eq_refl eq_refl eq_refl).
  - left. split; [reflexivity | now left].
  - reflexivity.
  - reflexivity.
  - intros grp [<-|[]] _. reflexivity.
Defined.

(** ** C6: hidden entities *)

Lemma get_hidden (v : value) :
  Py.get v "hidden" VNone
  = if is_dict v then Ok (field "hidden" v) else Raise AttributeError.
Proof.
  destruct v; reflexivity.
Qed.

Lemma not_dict_shown (v : value) : is_dict v = false -> hidden v = false.
Proof. destruct v; try reflexivity. discriminate. Qed.

Lemma group_index_loop_shown (groups : list value) :
  forall m, group_index_loop groups m = group_index_loop (shown groups) m.
Proof.
  induction groups as [|grp groups IH]; intros m; [reflexivity|].
  unfold shown. simpl filter. fold (shown groups).
  destruct (hidden grp) eqn:Hh; cbn [negb].
  - simpl. rewrite get_hidden.
    destruct (is_dict grp) eqn:Hd; [|now rewrite (not_dict_shown grp Hd) in Hh].
    rewrite rbind_ok. fold (hidden grp). rewrite Hh. apply IH.
  - simpl. destruct (Py.get grp "hidden" VNone) as [h|e]; [|reflexivity].
    rewrite !rbind_ok. destruct (Py.truthy h); [apply IH|].
    destruct (index_or_zero grp) as [idx|e]; [|reflexivity]. rewrite !rbind_ok.
    destruct (Py.getitem grp (VStr "id")) as [id|e]; [|reflexivity]. rewrite !rbind_ok.
    destruct (Py.hashable id); [apply IH | reflexivity].
Qed.

Lemma categorize_shown (kind : item_kind) (m : list (value * value))
    (nodes : list value) :
  forall grouped ungrouped,
    categorize kind nodes m grouped ungrouped
    = categorize kind (shown nodes) m grouped ungrouped.
Proof.
  induction nodes as [|x nodes IH]; intros grouped ungrouped; [reflexivity|].
  unfold shown. simpl filter. fold (shown nodes).
  destruct (hidden x) eqn:Hh; cbn [negb].
  - simpl. rewrite get_hidden.
    destruct (is_dict x) eqn:Hd; [|now rewrite (not_dict_shown x Hd) in Hh].
    rewrite rbind_ok. fold (hidden x). rewrite Hh. apply IH.
  - simpl. destruct (Py.get x "hidden" VNone) as [h|e]; [|reflexivity].
    rewrite !rbind_ok. destruct (Py.truthy h); [apply IH|].
    destruct (Py.get x "groupId" VNone) as [gid|e]; [|reflexivity]. rewrite !rbind_ok.
    destruct (in_group gid m) as [b|e]; [|reflexivity]. rewrite !rbind_ok.
    destruct b; [apply IH|].
    destruct (index_or_zero x) as [idx|e]; [|reflexivity]. rewrite !rbind_ok.
    apply IH.
Qed.

(** Hidden landmarks, locations and groups are dropped when the planner
    partitions its input. *)
Lemma render_units_shown (landmarks locations groups : list value) :
  render_units (VList landmarks) (VList locations) (VList groups)
  = render_units (VList (shown landmarks)) (VList (shown locations))
      (VList (shown groups)).
Proof.
  unfold render_units, Py.iter. rewrite !rbind_ok.
  rewrite (group_index_loop_shown groups).
  destruct (group_index_loop (shown groups) []) as [m|e]; [|reflexivity].
  rewrite !rbind_ok. rewrite (categorize_shown Landmark m landmarks).
  destruct (categorize Landmark (shown landmarks) m [] []) as [[g u]|e]; [|reflexivity].
  rewrite !rbind_ok. now rewrite (categorize_shown Location m locations).
Qed.

(** Every item the planner emits comes from a node that is not hidden. *)

Lemma kappend_in {A} (k : value) (x : A) (g : list (value * list A)) (it : A) :
  In it (concat (map snd (kappend k x g))) -> it = x \/ In it (concat (map snd g)).
Proof.
  induction g as [|[k' xs] g IH]; simpl.
  - intros [H|[]]. now left.
  - destruct (Py.key_eqb k' k); simpl; rewrite !in_app_iff.
    + intros [[H|[H|[]]]|H]; auto.
    + intros [H|H]; [auto|]. destruct (IH H); auto.
Qed.

Lemma categorize_visible (kind : item_kind) (m : list (value * value))
    (nodes : list value) :
  forall g u g' u',
    categorize kind nodes m g u = Ok (g', u') ->
    (forall it, In it (concat (map snd g)) -> hidden (snd it) = false) ->
    (forall it, In it (map snd u) -> hidden (snd it) = false) ->
    (forall it, In it (concat (map snd g')) -> hidden (snd it) = false)
    /\ (forall it, In it (map snd u') -> hidden (snd it) = false).
Proof.
  induction nodes as [|x nodes IH]; intros g u g' u' H Hg Hu.
  - injection H as <- <-. now split.
  - simpl in H. rewrite get_hidden in H.
    destruct (is_dict x); [|discriminate]. rewrite rbind_ok in H.
    fold (hidden x) in H. destruct (hidden x) eqn:Hh; [now apply (IH g u)|].
    destruct (Py.get x "groupId" VNone) as [gid|]; [|discriminate].
    rewrite rbind_ok in H.
    destruct (in_group gid m) as [b|]; [|discriminate]. rewrite rbind_ok in H.
    destruct b.
    + apply (IH _ _ _ _ H); [|assumption].
      intros it Hin. destruct (kappend_in _ _ _ _ Hin) as [->|Hin']; auto.
    + destruct (index_or_zero x) as [idx|]; [|discriminate]. rewrite rbind_ok in H.
      apply (IH _ _ _ _ H); [assumption|].
      intros it Hin. rewrite map_app, in_app_iff in Hin.
      destruct Hin as [Hin|[<-|[]]]; auto.
Qed.

Lemma build_units_items (m : list (value * value))
    (g : list (value * list item)) (u : list (value * item)) (units : list unit_) :
  build_units m g u = Ok units ->
  forall it, In it (concat (map snd units)) ->
             In it (concat (map snd g)) \/ In it (map snd u).
Proof.
  unfold build_units. intros H.
  destruct (rmap _ g) as [gs|] eqn:Hgs; [|discriminate].
  rewrite rbind_ok in H. injection H as <-.
  assert (Hsnd : map snd gs = map snd g).
  { revert gs Hgs. induction g as [|[k xs] g IH]; intros gs Hgs.
    - now injection Hgs as <-.
    - simpl in Hgs. destruct (kfind k m); [|discriminate]. rewrite rbind_ok in Hgs.
      destruct (rmap _ g) as [gs'|]; [|discriminate]. rewrite rbind_ok in Hgs.
      injection Hgs as <-. simpl. f_equal. now apply IH. }
  intros it. rewrite map_app, concat_app, in_app_iff, Hsnd.
  intros [Hin|Hin]; [now left | right].
  clear -Hin. induction u as [|[idx x] u IH]; [contradiction|].
  simpl in Hin |- *. destruct Hin as [Hin|Hin]; auto.
Qed.

Lemma insert_desc_perm (x : unit_) (l r : list unit_) :
  insert_desc x l = Ok r -> Permutation r (x :: l).
Proof.
  revert r. induction l as [|v l IH]; intros r H.
  - injection H as <-. reflexivity.
  - simpl in H. destruct (Py.lt (fst x) (fst v)) as [c|]; [|discriminate].
    rewrite rbind_ok in H. destruct c.
    + destruct (insert_desc x l) as [r'|]; [|discriminate]. rewrite rbind_ok in H.
      injection H as <-. rewrite (IH r' eq_refl). apply perm_swap.
    + injection H as <-. reflexivity.
Qed.

Lemma sort_desc_perm (l s : list unit_) : sort_desc l = Ok s -> Permutation s l.
Proof.
  revert s. induction l as [|x l IH]; intros s H.
  - injection H as <-. reflexivity.
  - simpl in H. destruct (sort_desc l) as [s'|]; [|discriminate].
    rewrite rbind_ok in H. rewrite (insert_desc_perm _ _ _ H).
    constructor. now apply IH.
Qed.

Lemma render_order_visible (landmarks locations groups : value) (out : list item) :
  _build_render_order landmarks locations groups = Ok out ->
  forall it, In it out -> hidden (snd it) = false.
Proof.
  unfold _build_render_order, render_units. intros H it Hin.
  destruct (Py.iter groups) as [gl|]; [|discriminate]. rewrite rbind_ok in H.
  destruct (group_index_loop gl []) as [m|]; [|discriminate]. rewrite rbind_ok in H.
  destruct (Py.iter landmarks) as [lms|]; [|discriminate]. rewrite rbind_ok in H.
  destruct (categorize Landmark lms m [] []) as [[g u]|] eqn:H1; [|discriminate].
  rewrite rbind_ok in H.
  destruct (Py.iter locations) as [locs|]; [|discriminate]. rewrite rbind_ok in H.
  destruct (categorize Location locs m g u) as [[g' u']|] eqn:H2; [|discriminate].
  rewrite rbind_ok in H.
  destruct (build_units m g' u') as [units|] eqn:H3; [|discriminate].
  rewrite rbind_ok in H.
  destruct (sort_desc units) as [sorted|] eqn:H4; [|discriminate].
  rewrite rbind_ok in H. injection H as <-.
  destruct (categorize_visible _ _ _ _ _ _ _ H1) as [Vg Vu]; try (intros ? []).
  destruct (categorize_visible _ _ _ _ _ _ _ H2 Vg Vu) as [Vg' Vu'].
  assert (Hin' : In it (concat (map snd units))).
  { apply in_concat in Hin. destruct Hin as [xs [Hxs Hit]].
    apply in_concat. exists xs. split; [|assumption].
    apply (Permutation_in _ (Permutation_map snd (sort_desc_perm _ _ H4)) Hxs). }
  destruct (build_units_items _ _ _ _ H3 it Hin'); auto.
Qed.

Section HiddenEntities.

Variable B : Py.builtins.

Lemma render_texts_shown (texts : list value) :
  forall parts, render_texts B texts parts = render_texts B (shown texts) parts.
Proof.
  induction texts as [|txt texts IH]; intros parts; [reflexivity|].
  unfold shown. simpl filter. fold (shown texts).
  destruct (hidden txt) eqn:Hh; cbn [negb].
  - simpl. rewrite get_hidden.
    destruct (is_dict txt) eqn:Hd; [|now rewrite (not_dict_shown txt Hd) in Hh].
    rewrite rbind_ok. fold (hidden txt). rewrite Hh. apply IH.
  - simpl. destruct (Py.get txt "hidden" VNone) as [h|e]; [|reflexivity].
    rewrite !rbind_ok. destruct (Py.truthy h); cbn [negb]; [apply IH|].
    destruct (_render_text B txt) as [s|e]; [|reflexivity]. rewrite !rbind_ok.
    apply IH.
Qed.

Lemma render_garden_svg_plan_of (width height : value)
    (landmarks locations groups texts : list value) (l : log) :
  render_garden_svg B (plan_of width height landmarks locations groups texts) l
  = scene B (Py.or_ width (VInt 800)) (Py.or_ height (VInt 600))
      landmarks locations groups texts l.
Proof. reflexivity. Qed.

(** C6.  Whatever their other fields hold, hidden entities leave no trace:
    the planner's units are those of the input without its hidden landmarks,
    locations and groups, no item of the render sequence is hidden, and the
    document rendered from a plan is the document rendered from the plan
    without its hidden landmarks, locations, groups and texts. *)
Theorem hidden_entities_leave_no_trace :
  forall (width height : value) (landmarks locations groups texts : list value)
         (l : log),
    render_units (VList landmarks) (VList locations) (VList groups)
    = render_units (VList (shown landmarks)) (VList (shown locations))
        (VList (shown groups))
    /\ (forall out,
          _build_render_order (VList landmarks) (VList locations) (VList groups)
          = Ok out ->
          forall it, In it out -> hidden (snd it) = false)
    /\ render_garden_svg B (plan_of width height landmarks locations groups texts) l
       = render_garden_svg B
           (plan_of width height (shown landmarks) (shown locations)
              (shown groups) (shown texts)) l.
Proof.
  intros width height landmarks locations groups texts l.
  split; [apply render_units_shown|].
  split; [intros out; apply render_order_visible|].
  rewrite !render_garden_svg_plan_of. unfold scene, _build_render_order.
  rewrite (render_units_shown landmarks locations groups).
  unfold mbind, lift.
  destruct (render_units _ _ _) as [sorted|e]; [|reflexivity].
  rewrite rbind_ok.
  destruct (render_items B _ _ l) as [[parts|e] l']; [|reflexivity].
  now rewrite (render_texts_shown texts).
Qed.

End HiddenEntities.

(** ** Selecting the formations of a planting location *)

Section Formations.

Variable B : Py.builtins.

Lemma is_drawn_spec (f : value) :
  is_dict f = true -> is_drawn f = Ok (drawn f).
Proof.
  intros Hd. unfold is_drawn, drawn.
  rewrite (get_field f "draft" Hd), rbind_ok.
  destruct (Py.truthy (field "draft" f)); [reflexivity|].
  now rewrite (get_field f "gardenCrop" Hd), rbind_ok.
Qed.

Lemma select_formations_spec (fs : list value) :
  forallb is_dict fs = true -> select_formations fs = Ok (filter drawn fs).
Proof.
  induction fs as [|f fs IH]; intros H; [reflexivity|].
  simpl in H. apply andb_prop in H. destruct H as [Hf Hfs].
  simpl. rewrite (is_drawn_spec f Hf), rbind_ok, (IH Hfs), rbind_ok.
  now destruct (drawn f).
Qed.

Lemma filter_drawn_dicts (fs : list value) :
  forallb is_dict fs = true -> forallb is_dict (filter drawn fs) = true.
Proof.
  intros H. apply forallb_forall. intros f Hf. apply filter_In in Hf.
  rewrite forallb_forall in H. now apply H.
Qed.

Lemma filter_drawn_twice (fs : list value) :
  filter drawn (filter drawn fs) = filter drawn fs.
Proof.
  induction fs as [|f fs IH]; [reflexivity|]. simpl.
  destruct (drawn f) eqn:E; [|exact IH]. simpl. now rewrite E, IH.
Qed.

Lemma render_planting_location_body (d : list (string * value))
    (fs : list value) (l : log) :
  forallb is_dict fs = true ->
  _render_planting_location B (with_formations d fs) l
  = (path <~ _shape_to_path
               (match Py.lookup "shape" d with Some v => v | None => VDict [] end) ;;
     if negb (Py.truthy (VStr path)) then mret ""
     else location_body B d path (filter drawn fs)) l.
Proof.
  intros Hfs. unfold _render_planting_location, with_formations.
  change (Py.get (VDict (("plantingFormations", VDict [("nodes", VList fs)]) :: d))
            "shape" (VDict []))
    with (Ok (match Py.lookup "shape" d with Some v => v | None => VDict [] end)).
  rewrite mbind_lift_ok. apply mbind_ext. intros path l'.
  destruct (negb (Py.truthy (VStr path))); [reflexivity|].
  unfold location_body, mbind, lift. simpl Py.get at 1 2 3. cbv beta iota.
  change (Py.get (Py.or_ (VDict [("nodes", VList fs)]) (VDict [])) "nodes" (VList []))
    with (Ok (VList fs)).
  cbv beta iota. simpl Py.iter. cbv beta iota.
  now rewrite (select_formations_spec fs Hfs).
Qed.

End Formations.

(** ** The renderer and the log *)

Lemma oblivious_ret {A} (a : A) : oblivious (mret a).
Proof. exists (Ok a), []. intros l. unfold mret. now rewrite app_nil_r. Qed.

Lemma oblivious_lift {A} (r : result A) : oblivious (lift r).
Proof. exists r, []. intros l. unfold lift. now rewrite app_nil_r. Qed.

Lemma oblivious_raise {A} (e : exn) : oblivious (fun l : log => (@Raise A e, l)).
Proof. exists (Raise e), []. intros l. now rewrite app_nil_r. Qed.

Lemma oblivious_log (e : exn) : oblivious (log_debug e).
Proof. exists (Ok tt), [e]. reflexivity. Qed.

Lemma oblivious_bind {A B} (m : M A) (k : A -> M B) :
  oblivious m -> (forall a, oblivious (k a)) -> oblivious (mbind m k).
Proof.
  intros [r [ms Hm]] Hk. destruct r as [a|e].
  - destruct (Hk a) as [r' [ms' Hk']]. exists r', (ms ++ ms')%list.
    intros l. unfold mbind. now rewrite Hm, Hk', app_assoc.
  - exists (Raise e), ms. intros l. unfold mbind. now rewrite Hm.
Qed.

Lemma oblivious_if {A} (b : bool) (m1 m2 : M A) :
  oblivious m1 -> oblivious m2 -> oblivious (if b then m1 else m2).
Proof. now destruct b. Qed.

Ltac obl :=
  repeat lazymatch goal with
    | |- oblivious (mret _) => apply oblivious_ret
    | |- oblivious (lift _) => apply oblivious_lift
    | |- oblivious (log_debug _) => apply oblivious_log
    | |- oblivious (mbind _ _) => apply oblivious_bind; [|intros ?]
    | |- oblivious (if _ then _ else _) => apply oblivious_if
    end.

Lemma oblivious_shape_to_path (shape : value) : oblivious (_shape_to_path shape).
Proof.
  unfold _shape_to_path. obl.
  destruct (shape_to_path_try a) as [d|e].
  - exact (oblivious_ret d).
  - destruct (caught_by_shape_to_path e).
    + change (oblivious (mbind (log_debug e) (fun _ => mret ""))). obl.
    + apply oblivious_raise.
Qed.

Section Determinism.

Variable B : Py.builtins.

Lemma oblivious_render_landmark (lm : value) : oblivious (_render_landmark B lm).
Proof. unfold _render_landmark. obl. apply oblivious_shape_to_path. Qed.

Lemma oblivious_render_cluster (cluster sp outer inner color : value)
    (parts : list string) :
  oblivious (render_cluster B cluster sp outer inner color parts).
Proof. unfold render_cluster. obl. apply oblivious_shape_to_path. Qed.

Lemma oblivious_clusters_loop (clusters : list value) (sp outer inner color : value) :
  forall parts, oblivious (clusters_loop B clusters sp outer inner color parts).
Proof.
  induction clusters as [|c clusters IH]; intros parts; simpl.
  - apply oblivious_ret.
  - apply oblivious_bind; [apply oblivious_render_cluster | intros parts'; apply IH].
Qed.

Lemma oblivious_render_formation (f : value) : oblivious (_render_formation B f).
Proof.
  unfold _render_formation. obl;
    first [apply oblivious_shape_to_path | apply oblivious_clusters_loop].
Qed.

Lemma oblivious_formations_loop (fs : list value) :
  forall parts, oblivious (formations_loop B fs parts).
Proof.
  induction fs as [|f fs IH]; intros parts; simpl.
  - apply oblivious_ret.
  - apply oblivious_bind; [apply oblivious_render_formation | intros s; apply IH].
Qed.

Lemma oblivious_render_planting_location (loc : value) :
  oblivious (_render_planting_location B loc).
Proof.
  unfold _render_planting_location. obl;
    first [apply oblivious_shape_to_path | apply oblivious_formations_loop].
Qed.

Lemma oblivious_render_items (items : list item) :
  forall parts, oblivious (render_items B items parts).
Proof.
  induction items as [|[kind it] items IH]; intros parts; simpl.
  - apply oblivious_ret.
  - destruct kind; (apply oblivious_bind; [|intros s; apply IH]).
    + apply oblivious_render_landmark.
    + apply oblivious_render_planting_location.
Qed.

Lemma oblivious_render_garden_svg (garden_data : value) :
  oblivious (render_garden_svg B garden_data).
Proof.
  unfold render_garden_svg. obl. apply oblivious_render_items.
Qed.

End Determinism.

(** The result of a computation that is oblivious of the log, followed by
    another. *)
Lemma fst_mbind {A C} (m : M A) (k : A -> M C) (l : log) :
  oblivious m ->
  exists l', fst (mbind m k l)
             = match fst (m []) with
               | Ok a => fst (k a l')
               | Raise e => Raise e
               end.
Proof.
  intros [r [records H]]. exists (l ++ records)%list. unfold mbind.
  rewrite !H. simpl. now destruct r.
Qed.

(** ** C8: the formations of a planting location *)

Section FormationsRendered.

Variable B : Py.builtins.

(** The loop appends the markup of each formation, in order. *)
Lemma formations_loop_markup (fs : list value) :
  forall parts l,
    fst (formations_loop B fs parts l)
    = (xs <- rmap (formation_markup B) fs ;; Ok (parts ++ xs)%list).
Proof.
  induction fs as [|f fs IH]; intros parts l.
  - simpl. now rewrite app_nil_r.
  - simpl formations_loop.
    destruct (fst_mbind (_render_formation B f)
                (fun s => formations_loop B fs (parts ++ [s])%list) l
                (oblivious_render_formation B f)) as [l' ->].
    simpl rmap. unfold formation_markup at 1.
    destruct (fst (_render_formation B f [])) as [s|e]; [|reflexivity].
    rewrite rbind_ok, IH.
    destruct (rmap (formation_markup B) fs) as [xs|e]; [|reflexivity].
    rewrite !rbind_ok. now rewrite <- app_assoc.
Qed.

Lemma location_markup (d : list (string * value)) (fs : list value) (l : log)
    (path : string) :
  forallb is_dict fs = true ->
  fst (_shape_to_path (shape_in d) l) = Ok path -> path <> "" ->
  fst (_render_planting_location B (with_formations d fs) l)
  = (formations <- rmap (formation_markup B) (filter drawn fs) ;;
     Ok (Py.join Py.nl (location_lines B d path formations))).
Proof.
  intros Hfs Hpath Hne. rewrite (render_planting_location_body B d fs l Hfs).
  fold (shape_in d). unfold mbind.
  destruct (_shape_to_path (shape_in d) l) as [[p|e] l1]; [|discriminate].
  simpl in Hpath. injection Hpath as ->.
  assert (Ht : Py.truthy (VStr path) = true).
  { simpl. destruct path; [congruence | reflexivity]. }
  rewrite Ht. cbn [negb]. unfold location_body, mbind.
  pose proof (formations_loop_markup (filter drawn fs)) as Hloop.
  match goal with
  | |- context [formations_loop B _ ?parts l1] => specialize (Hloop parts l1)
  end.
  destruct (formations_loop B (filter drawn fs) _ l1) as [[parts|e] l2];
    destruct (rmap (formation_markup B) (filter drawn fs)) as [xs|e'];
    cbn [fst rbind] in Hloop |- *; try discriminate.
  - injection Hloop as ->. unfold mret. cbn [fst].
    unfold location_lines, landmark_name, _esc, escaped, Py.attr, quoted. cbv zeta.
    repeat rewrite <- app_assoc. repeat rewrite append_assoc. reflexivity.
  - now injection Hloop as ->.
Qed.

(** C8.  Of the formations of a location, those with [draft] false and a
    garden crop are selected for rendering, in order; the location's markup
    is what it would be without the others; and, the location having an
    outline, that markup is the opening tag, the outline, the markup of each
    selected formation in order, and the closing tag, or the exception of
    the first selected formation that raises one. *)
Theorem undrawn_formations_leave_no_trace :
  forall (d : list (string * value)) (fs : list value) (l : log),
    forallb is_dict fs = true ->
    select_formations fs = Ok (filter drawn fs)
    /\ _render_planting_location B (with_formations d fs) l
       = _render_planting_location B (with_formations d (filter drawn fs)) l
    /\ (forall path : string,
          fst (_shape_to_path (shape_in d) l) = Ok path -> path <> "" ->
          fst (_render_planting_location B (with_formations d fs) l)
          = (formations <- rmap (formation_markup B) (filter drawn fs) ;;
             Ok (Py.join Py.nl (location_lines B d path formations)))).
Proof.
  intros d fs l Hfs. split; [now apply select_formations_spec|]. split.
  - rewrite (render_planting_location_body B d fs l Hfs).
    rewrite (render_planting_location_body B d _ l (filter_drawn_dicts fs Hfs)).
    now rewrite filter_drawn_twice.
  - intros path. now apply location_markup.
Qed.

End FormationsRendered.

Lemma undrawn_formations_leave_no_trace_witness :
  forallb is_dict
    [formation true (crop "kale"); formation false VNone; formation false (crop "leek")]
  = true
  /\ select_formations
       [formation true (crop "kale"); formation false VNone; formation false (crop "leek")]
     = Ok [formation false (crop "leek")]
  /\ _render_planting_location sample_builtins
       (with_formations bed
          [formation true (crop "kale"); formation false VNone;
           formation false (crop "leek")]) []
     = _render_planting_location sample_builtins
         (with_formations bed [formation false (crop "leek")]) []
  /\ fst (_render_planting_location sample_builtins
            (with_formations bed
               [formation true (crop "kale"); formation false VNone;
                formation false (crop "leek")]) [])
     = (formations <- rmap (formation_markup sample_builtins)
                        [formation false (crop "leek")] ;;
        Ok (Py.join Py.nl
              (location_lines sample_builtins bed (path_text square) formations))).
Proof.
  split; [reflexivity|].
  destruct (undrawn_formations_leave_no_trace sample_builtins bed
              [formation true (crop "kale"); formation false VNone;
               formation false (crop "leek")] [] eq_refl) as [H1 [H2 H3]].
  split; [exact H1|]. split; [exact H2|].
  exact (H3 (path_text square) eq_refl ltac:(vm_compute; discriminate)).
Defined.

(** ** Numbers that stay in range *)

Lemma coord_bound_room :
  0 < coord_bound /\ coord_bound * coord_bound + 2 * coord_bound + 100 < Py.float_limit.
Proof. split; reflexivity. Qed.

Lemma numv_weaken (b b' : Z) (v : value) : b <= b' -> numv b v -> numv b' v.
Proof. destruct v; simpl; try tauto. lia. Qed.

Lemma float_of_Z_ok (z : Z) :
  Z.abs z < Py.float_limit -> exists f, Py.float_of_Z z = Ok f.
Proof.
  intros H. unfold Py.float_of_Z.
  destruct (Z.ltb_spec (Z.abs z) Py.float_limit); [eexists; reflexivity | lia].
Qed.

Lemma binop_numv (fz : Z -> Z -> Z) (ff : float -> float -> float)
    (b1 b2 b : Z) (x y : value) :
  (forall a c, Z.abs a <= b1 -> Z.abs c <= b2 -> Z.abs (fz a c) <= b) ->
  numv b1 x -> numv b2 y -> b1 < Py.float_limit -> b2 < Py.float_limit ->
  exists r, Py.binop (Py.arith fz ff) x y = Ok r /\ numv b r.
Proof.
  intros Hfz Hx Hy H1 H2.
  destruct x as [| | a | f | | |]; try contradiction;
    destruct y as [| | c | g | | |]; try contradiction;
    unfold Py.binop, Py.as_num, Py.arith, Py.to_float.
  - eexists. split; [reflexivity|]. simpl. now apply Hfz.
  - destruct (float_of_Z_ok a) as [f Hf]; [simpl in Hx; lia|].
    rewrite Hf. eexists. split; [reflexivity | exact I].
  - destruct (float_of_Z_ok c) as [g Hg]; [simpl in Hy; lia|].
    rewrite Hg. eexists. split; [reflexivity | exact I].
  - eexists. split; [reflexivity | exact I].
Qed.

Lemma truediv_count (c n : Z) (s : value) :
  numv c s -> c < Py.float_limit -> 0 < n < Py.float_limit ->
  exists f, Py.truediv s (VInt n) = Ok f.
Proof.
  intros Hs Hc Hn. destruct s as [| | a | f | | |]; try contradiction;
    unfold Py.truediv, Py.as_num, Py.num_truediv.
  - unfold Py.int_truediv. simpl in Hs.
    destruct (Z.eqb_spec n 0); [lia|].
    destruct (Z.abs a =? 0); [eexists; reflexivity|].
    destruct (Z.leb_spec (Py.float_limit * Z.abs n) (Z.abs a)); [nia|].
    eexists. reflexivity.
  - unfold Py.to_float. destruct (float_of_Z_ok n) as [g Hg]; [lia|].
    rewrite Hg, !rbind_ok. unfold Py.num_is_zero.
    destruct (Z.eqb_spec n 0); [lia|]. eexists. reflexivity.
Qed.

(** ** Plain shapes *)

Lemma small_coord_numv (v : value) : small_coord v = true -> numv coord_bound v.
Proof.
  destruct v; try discriminate; simpl; [|trivial].
  intros H. now apply Z.leb_le.
Qed.

Lemma plain_segments_are_segments (segs : list value) :
  forallb plain_segment segs = true -> forallb is_segment segs = true.
Proof.
  rewrite !forallb_forall. intros H s Hs. specialize (H s Hs).
  unfold plain_segment in H. now rewrite !andb_true_iff in H.
Qed.

Lemma path_text_truthy (segs : list value) : Py.truthy (VStr (path_text segs)) = true.
Proof.
  unfold path_text, Py.join, move_text.
  destruct (draw_texts segs ++ ["Z"])%list as [|c rest] eqn:E.
  - destruct (draw_texts segs); discriminate.
  - reflexivity.
Qed.

(** ** C4: plant positions *)

(** *** Signs of binary64 results *)

Lemma binary_round_aux_nonneg (m e : Z) (l : location) :
  sf_nonneg (binary_round_aux prec emax false m e l) = true.
Proof.
  unfold binary_round_aux.
  destruct (shr_fexp prec emax m e l) as [mrs e'].
  destruct (shr_fexp prec emax _ e' loc_Exact) as [mrs' e''].
  destruct (shr_m mrs'); try reflexivity.
  now destruct (e'' <=? emax - prec).
Qed.

Lemma binary_round_nonneg (m : positive) (e : Z) :
  sf_nonneg (binary_round prec emax false m e) = true.
Proof.
  unfold binary_round. destruct (shl_align _ _ _). apply binary_round_aux_nonneg.
Qed.

Lemma binary_normalize_nonneg (z e : Z) :
  0 <= z -> sf_nonneg (binary_normalize prec emax z e false) = true.
Proof.
  intros H. destruct z; [reflexivity | apply binary_round_nonneg | lia].
Qed.

Lemma fl_int_nonneg (z : Z) : 0 <= z -> sf_nonneg (Prim2SF (fl (VInt z))) = true.
Proof.
  intros H. pose proof (binary_normalize_nonneg z 0 H) as Hn.
  unfold fl. change 53 with prec. change 1024 with emax.
  destruct (binary_normalize prec emax z 0 false) as [s | s | | s m e];
    try (destruct s; try discriminate; reflexivity).
  - reflexivity.
  - simpl in Hn. destruct s; [discriminate|].
    unfold SF2Prim. rewrite Z_ldexp_spec, of_uint63_spec.
    pose proof (Uint63.to_Z_bounded (Uint63.of_Z (Z.pos m))) as Hb.
    pose proof (binary_normalize_nonneg _ 0 (proj1 Hb)) as Hn'.
    destruct (binary_normalize prec emax _ 0 false) as [s | s | | s m' e'];
      try exact Hn'.
    simpl in Hn'. destruct s; [discriminate|]. simpl. apply binary_round_nonneg.
Qed.

Lemma float_square_nonneg (f : float) : sf_nonneg (Prim2SF (f * f)) = true.
Proof.
  rewrite FloatAxioms.mul_spec. unfold SF64mul, SFmul.
  destruct (Prim2SF f) as [s | s | | s m e]; try reflexivity.
  - now destruct s.
  - rewrite xorb_nilpotent. apply binary_round_aux_nonneg.
Qed.

Lemma float_add_nonneg (f g : float) :
  sf_nonneg (Prim2SF f) = true -> sf_nonneg (Prim2SF g) = true ->
  sf_nonneg (Prim2SF (f + g)) = true.
Proof.
  rewrite FloatAxioms.add_spec. unfold SF64add, SFadd.
  destruct (Prim2SF f) as [s | s | | s m e], (Prim2SF g) as [s' | s' | | s' m' e'];
    simpl; intros H1 H2; try reflexivity; try assumption;
    try (destruct s; try discriminate); try (destruct s'; try discriminate);
    try reflexivity.
  apply binary_normalize_nonneg. unfold cond_Zopp. lia.
Qed.

Lemma nonneg_not_below_zero (f : float) :
  sf_nonneg (Prim2SF f) = true -> Py.float_lt_Z f 0 = false.
Proof.
  unfold Py.float_lt_Z. destruct (Prim2SF f) as [s | s | | s m e]; simpl;
    try reflexivity.
  - now destruct s.
  - destruct s; [discriminate|]. intros _.
    destruct (0 <=? e); [|reflexivity].
    apply Z.ltb_ge. pose proof (Z.pow_nonneg 2 e). lia.
Qed.

Lemma not_below_one_not_zero (f : float) :
  Py.float_lt_Z f 1 = false -> Py.float_is_zero f = false.
Proof.
  unfold Py.float_lt_Z, Py.float_is_zero.
  destruct (Prim2SF f); try reflexivity. discriminate.
Qed.

Lemma finite_trunc (f : float) : finite f = true -> Py.int_of_float f = Ok (trunc f).
Proof.
  unfold finite, trunc, Py.int_of_float.
  destruct (Prim2SF f); try discriminate; reflexivity.
Qed.

(** *** Arithmetic in range *)

Lemma fits_float_of_Z (z : Z) :
  fits (VInt z) = true -> Py.float_of_Z z = Ok (fl (VInt z)).
Proof. intros H. unfold Py.float_of_Z. simpl in H. now rewrite H. Qed.

Lemma exact_ok (fz : Z -> Z -> Z) (ff : float -> float -> float) (a b : value) :
  is_number a = true -> is_number b = true -> fits a = true -> fits b = true ->
  Py.binop (Py.arith fz ff) a b = Ok (exact fz ff a b).
Proof.
  intros Ha Hb Fa Fb.
  destruct a as [| | x | f | | |]; try discriminate;
    destruct b as [| | y | g | | |]; try discriminate;
    unfold Py.binop, Py.as_num, Py.arith, Py.to_float, exact; try reflexivity.
  - now rewrite (fits_float_of_Z x Fa).
  - now rewrite (fits_float_of_Z y Fb).
Qed.

Lemma exact_number (fz : Z -> Z -> Z) (ff : float -> float -> float) (a b : value) :
  is_number a = true -> is_number b = true -> is_number (exact fz ff a b) = true.
Proof.
  destruct a; try discriminate; destruct b; try discriminate; reflexivity.
Qed.

Lemma exact_by_float (fz : Z -> Z -> Z) (ff : float -> float -> float)
    (a : value) (f : float) :
  exact fz ff a (VFloat f) = VFloat (ff (fl a) f).
Proof. destruct a; reflexivity. Qed.

Lemma square_not_negative (d : value) :
  is_number d = true -> sf_nonneg (Prim2SF (fl (vmul d d))) = true.
Proof.
  destruct d as [| | x | f | | |]; try discriminate; intros _.
  - apply fl_int_nonneg. nia.
  - apply float_square_nonneg.
Qed.

Lemma squares_not_negative (dx dy : value) :
  is_number dx = true -> is_number dy = true ->
  exists n, Py.as_num (vadd (vmul dx dx) (vmul dy dy)) = Some n
            /\ Py.num_lt n (Py.NInt 0) = false.
Proof.
  intros Hx Hy.
  pose proof (square_not_negative dx Hx) as Sx.
  pose proof (square_not_negative dy Hy) as Sy.
  destruct dx as [| | x | f | | |]; try discriminate;
    destruct dy as [| | y | g | | |]; try discriminate;
    eexists; (split; [reflexivity|]).
  - apply Z.ltb_ge. nia.
  - apply nonneg_not_below_zero, float_add_nonneg; assumption.
  - apply nonneg_not_below_zero, float_add_nonneg; assumption.
  - apply nonneg_not_below_zero, float_add_nonneg; assumption.
Qed.

Lemma truediv_by_float (a : value) (f : float) :
  is_number a = true -> fits a = true -> Py.float_is_zero f = false ->
  Py.truediv a (VFloat f) = Ok (fl a / f)%float.
Proof.
  intros Ha Fa Hz. destruct a as [| | x | g | | |]; try discriminate;
    unfold Py.truediv, Py.as_num, Py.num_truediv, Py.to_float, Py.num_is_zero.
  - rewrite (fits_float_of_Z x Fa), !rbind_ok. now rewrite Hz.
  - rewrite !rbind_ok. now rewrite Hz.
Qed.

Lemma truediv_float_by (f : float) (b : value) :
  is_number b = true -> fits b = true -> below_one b = false ->
  Py.truediv (VFloat f) b = Ok (f / fl b)%float.
Proof.
  intros Hb Fb Hone. destruct b as [| | y | g | | |]; try discriminate;
    unfold Py.truediv, Py.as_num, Py.num_truediv, Py.to_float, Py.num_is_zero.
  - rewrite (fits_float_of_Z y Fb), !rbind_ok. simpl in Hone.
    destruct (Z.eqb_spec y 0); [subst; discriminate | reflexivity].
  - rewrite !rbind_ok. simpl in Hone. now rewrite (not_below_one_not_zero g Hone).
Qed.

Lemma lt_one (v : value) :
  is_number v = true -> Py.lt v (VInt 1) = Ok (below_one v).
Proof. destruct v; try discriminate; reflexivity. Qed.

Lemma range_bounds (k i : Z) : In i (Py.range k) -> 0 <= i < k.
Proof.
  unfold Py.range. intros H. apply in_map_iff in H. destruct H as [n [<- Hn]].
  apply in_seq in Hn. lia.
Qed.

Lemma fits_smaller_index (k i : Z) :
  0 <= i < k -> fits (VInt k) = true -> fits (VInt i) = true.
Proof. unfold fits. rewrite !Z.ltb_lt. lia. Qed.

Lemma fits_smaller_product (k i : Z) (sp : value) :
  0 <= i < k -> fits (vmul (VInt k) sp) = true -> fits (vmul (VInt i) sp) = true.
Proof.
  intros Hi. destruct sp; try reflexivity. unfold vmul, exact, fits.
  rewrite !Z.ltb_lt. nia.
Qed.

(** *** The loops *)

Lemma field_number_read (v : value) (j k : string) :
  is_number (field k (field j v)) = true ->
  (s <- Py.getitem v (VStr j) ;; Py.getitem s (VStr k)) = Ok (field k (field j v)).
Proof.
  intros H. destruct v as [| | | | | | d]; try discriminate.
  unfold field at 2 in H. unfold field at 2. unfold Py.getitem at 1.
  destruct (Py.lookup j d) as [p|]; [|discriminate]. rewrite rbind_ok.
  destruct p as [| | | | | | d']; try discriminate.
  unfold field in *. unfold Py.getitem.
  destruct (Py.lookup k d') as [x|]; [reflexivity | discriminate].
Qed.

Lemma row_endpoints_read (row : value) :
  forallb is_number [row_sx row; row_sy row; row_ex row; row_ey row] = true ->
  row_endpoints row = Ok (row_sx row, row_sy row, row_ex row, row_ey row).
Proof.
  intros H. simpl in H. rewrite !andb_true_iff in H.
  destruct H as [H1 [H2 [H3 [H4 _]]]].
  pose proof (field_number_read row "start" "x" H1) as R1.
  pose proof (field_number_read row "start" "y" H2) as R2.
  pose proof (field_number_read row "end" "x" H3) as R3.
  pose proof (field_number_read row "end" "y" H4) as R4.
  unfold row_endpoints.
  destruct (Py.getitem row (VStr "start")) as [s|]; [|discriminate].
  destruct (Py.getitem row (VStr "end")) as [e|]; [|discriminate].
  cbn [rbind] in *. rewrite R1. cbn [rbind]. rewrite R2. cbn [rbind].
  rewrite R3. cbn [rbind]. rewrite R4. reflexivity.
Qed.

Lemma plants_loop_map (sx sy sp : value) (ux uy : float)
    (pos : Z -> value * value) (idxs : list Z) :
  (forall i, In i idxs -> plant_at sx sy sp ux uy i = Ok (pos i)) ->
  forall positions,
    plants_loop sx sy sp ux uy idxs positions = Ok (positions ++ map pos idxs)%list.
Proof.
  induction idxs as [|i idxs IH]; intros H positions.
  - simpl. now rewrite app_nil_r.
  - simpl. rewrite (H i (or_introl eq_refl)), rbind_ok.
    rewrite IH by (intros j Hj; apply H; now right).
    now rewrite <- app_assoc.
Qed.

Lemma plant_at_position (sp row : value) (i : Z) :
  is_number (row_sx row) = true -> is_number (row_sy row) = true ->
  is_number sp = true ->
  fits (row_sx row) = true -> fits (row_sy row) = true -> fits sp = true ->
  fits (VInt i) = true -> fits (vmul (VInt i) sp) = true ->
  plant_at (row_sx row) (row_sy row) sp
    (fl (row_dx row) / row_length row) (fl (row_dy row) / row_length row) i
  = Ok (plant_position sp row i).
Proof.
  intros Nx Ny Ns Fx Fy Fs Fi Fp.
  assert (Hm : Py.mul (VInt i) sp = Ok (vmul (VInt i) sp)).
  { now apply exact_ok. }
  assert (Hn : is_number (vmul (VInt i) sp) = true) by now apply exact_number.
  assert (Hu : forall u, Py.mul (vmul (VInt i) sp) (VFloat u)
                         = Ok (vmul (vmul (VInt i) sp) (VFloat u))).
  { intros u. now apply exact_ok. }
  assert (Ha : forall s u, is_number s = true -> fits s = true ->
                 Py.add s (vmul (vmul (VInt i) sp) (VFloat u))
                 = Ok (vadd s (vmul (vmul (VInt i) sp) (VFloat u)))).
  { intros s u Hs Fs'. apply exact_ok; try assumption;
      unfold vmul; now rewrite exact_by_float. }
  unfold plant_at, plant_position.
  rewrite Hm. cbn [rbind]. rewrite Hu. cbn [rbind]. rewrite (Ha _ _ Nx Fx).
  cbn [rbind]. rewrite Hu. cbn [rbind]. rewrite (Ha _ _ Ny Fy). reflexivity.
Qed.

Lemma row_plants_layout (sp row : value) (positions : list (value * value)) :
  row_in_range sp row = true ->
  row_plants (row_sx row) (row_sy row) (row_ex row) (row_ey row) sp positions
  = Ok (positions ++ row_layout sp row)%list.
Proof.
  intros H. unfold row_in_range in H. rewrite !andb_true_iff in H.
  destruct H as [[Hnum Hfit] Hrest].
  simpl in Hnum. rewrite !andb_true_iff in Hnum.
  destruct Hnum as [Nsx [Nsy [Nex [Ney [Nsp _]]]]].
  simpl in Hfit. rewrite !andb_true_iff in Hfit.
  destruct Hfit as [Fsx [Fsy [Fex [Fey [Fdx [Fdy [Fxx [Fyy [Fsq _]]]]]]]]].
  assert (Ndx : is_number (row_dx row) = true) by now apply exact_number.
  assert (Ndy : is_number (row_dy row) = true) by now apply exact_number.
  unfold row_plants.
  change (Py.sub (row_ex row) (row_sx row))
    with (Py.binop (Py.arith Z.sub PrimFloat.sub) (row_ex row) (row_sx row)).
  rewrite (exact_ok _ _ _ _ Nex Nsx Fex Fsx). cbn [rbind].
  change (Py.sub (row_ey row) (row_sy row))
    with (Py.binop (Py.arith Z.sub PrimFloat.sub) (row_ey row) (row_sy row)).
  rewrite (exact_ok _ _ _ _ Ney Nsy Fey Fsy). cbn [rbind].
  fold vsub. fold (row_dx row) (row_dy row).
  change (Py.mul (row_dx row) (row_dx row))
    with (Py.binop (Py.arith Z.mul PrimFloat.mul) (row_dx row) (row_dx row)).
  rewrite (exact_ok _ _ _ _ Ndx Ndx Fdx Fdx). cbn [rbind].
  change (Py.mul (row_dy row) (row_dy row))
    with (Py.binop (Py.arith Z.mul PrimFloat.mul) (row_dy row) (row_dy row)).
  rewrite (exact_ok _ _ _ _ Ndy Ndy Fdy Fdy). cbn [rbind]. fold vmul.
  change (Py.add (vmul (row_dx row) (row_dx row)) (vmul (row_dy row) (row_dy row)))
    with (Py.binop (Py.arith Z.add PrimFloat.add)
            (vmul (row_dx row) (row_dx row)) (vmul (row_dy row) (row_dy row))).
  rewrite exact_ok; try assumption; try (now apply exact_number).
  cbn [rbind]. fold vadd. fold (row_squares row).
  assert (Hsqrt : Py.math_sqrt (row_squares row) = Ok (row_length row)).
  { destruct (squares_not_negative _ _ Ndx Ndy) as [n [Hn Hlt]].
    fold (row_squares row) in Hn. unfold Py.math_sqrt. rewrite Hn.
    assert (Nsq : is_number (row_squares row) = true)
      by (apply exact_number; now apply exact_number).
    assert (Hf : Py.to_float n = Ok (fl (row_squares row))).
    { destruct (row_squares row) as [| | z | f | | |]; try discriminate;
        injection Hn as <-; [now apply fits_float_of_Z | reflexivity]. }
    rewrite Hf, rbind_ok, Hlt. reflexivity. }
  rewrite Hsqrt. cbn [rbind].
  change (Py.lt (VFloat (row_length row)) (VInt 1))
    with (Ok (below_one (VFloat (row_length row)))).
  cbn [rbind]. unfold row_layout, degenerate in *.
  destruct (below_one (VFloat (row_length row))) eqn:Hshort; cbn [rbind orb].
  - reflexivity.
  - rewrite (lt_one sp Nsp). cbn [rbind].
    destruct (below_one sp) eqn:Htight; [reflexivity|].
    cbn [orb] in Hrest. rewrite !andb_true_iff in Hrest. destruct Hrest as [[[Fsp Hfin] Fcount] Fprod].
    rewrite (truediv_by_float _ _ Ndx Fdx (not_below_one_not_zero _ Hshort)).
    cbn [rbind].
    rewrite (truediv_by_float _ _ Ndy Fdy (not_below_one_not_zero _ Hshort)).
    cbn [rbind].
    rewrite (truediv_float_by _ _ Nsp Fsp Htight). cbn [rbind].
    rewrite (finite_trunc _ Hfin). cbn [rbind].
    fold (plant_count sp row).
    apply plants_loop_map. intros i Hi. apply range_bounds in Hi.
    apply plant_at_position; try assumption.
    + exact (fits_smaller_index _ _ Hi Fcount).
    + exact (fits_smaller_product _ _ _ Hi Fprod).
Qed.

Lemma rows_loop_layout (sp : value) (rows : list value) :
  forallb (row_in_range sp) rows = true ->
  forall positions,
    rows_loop rows sp positions
    = Ok (positions ++ concat (map (row_layout sp) rows))%list.
Proof.
  induction rows as [|row rows IH]; intros H positions.
  - simpl. now rewrite app_nil_r.
  - simpl in H. apply andb_prop in H. destruct H as [Hrow Hrows].
    assert (Hread : row_endpoints row
                    = Ok (row_sx row, row_sy row, row_ex row, row_ey row)).
    { apply row_endpoints_read. unfold row_in_range in Hrow.
      rewrite !andb_true_iff in Hrow. destruct Hrow as [[Hn _] _].
      simpl in Hn |- *. rewrite !andb_true_iff in Hn |- *. tauto. }
    simpl. rewrite Hread, (row_plants_layout sp row positions Hrow), rbind_ok.
    rewrite (IH Hrows). now rewrite <- app_assoc.
Qed.

Lemma row_layout_length (sp row : value) :
  length (row_layout sp row)
  = if degenerate sp row then 1%nat else Z.to_nat (plant_count sp row).
Proof.
  unfold row_layout. destruct (degenerate sp row); [reflexivity|].
  unfold Py.range. now rewrite !length_map, length_seq.
Qed.

(** C4.  For rows and a spacing that are numbers in the range of binary64,
    the positions are the layouts of the rows one after the other: a row with
    L < 1 or plantSpacing < 1 gives its start point alone, any other row the
    floor(L / plantSpacing) + 1 points start + i * plantSpacing * unit
    direction. *)
Theorem plant_positions_layout :
  forall (rows : list value) (plant_spacing : value),
    forallb (row_in_range plant_spacing) rows = true ->
    _plant_positions_from_rows (VList rows) plant_spacing
    = Ok (concat (map (row_layout plant_spacing) rows))
    /\ Forall (fun row =>
                 length (row_layout plant_spacing row)
                 = if degenerate plant_spacing row then 1%nat
                   else Z.to_nat (trunc (row_length row / fl plant_spacing) + 1))
              rows.
Proof.
  intros rows sp H. split.
  - unfold _plant_positions_from_rows, Py.iter. rewrite rbind_ok.
    now rewrite (rows_loop_layout sp rows H []).
  - apply Forall_forall. intros row _. apply row_layout_length.
Qed.

(** A row from (0, 0) to (100, 0) with spacing 25 has plants at x = 0, 25,
    50, 75 and 100; a row of length 5 with spacing 80 has one, at its start. *)
Lemma plant_positions_samples :
  _plant_positions_from_rows
    (VList [row (VInt 0) (VInt 0) (VInt 100) (VInt 0)]) (VInt 25)
  = Ok [ (VFloat 0, VFloat 0); (VFloat 25, VFloat 0); (VFloat 50, VFloat 0);
         (VFloat 75, VFloat 0); (VFloat 100, VFloat 0) ]
  /\ _plant_positions_from_rows
       (VList [row (VInt 2) (VInt 3) (VInt 5) (VInt 7)]) (VInt 80)
     = Ok [(VFloat 2, VFloat 3)].
Proof. split; reflexivity. Qed.

Lemma plant_positions_layout_witness :
  forallb (row_in_range (VInt 25))
    [ row (VInt 0) (VInt 0) (VInt 100) (VInt 0);
      row (VFloat 1.5) (VInt 0) (VFloat 1.5) (VFloat 0.5) ] = true
  /\ _plant_positions_from_rows
       (VList [ row (VInt 0) (VInt 0) (VInt 100) (VInt 0);
                row (VFloat 1.5) (VInt 0) (VFloat 1.5) (VFloat 0.5) ]) (VInt 25)
     = Ok [ (VFloat 0, VFloat 0); (VFloat 25, VFloat 0); (VFloat 50, VFloat 0);
            (VFloat 75, VFloat 0); (VFloat 100, VFloat 0); (VFloat 1.5, VInt 0) ].
Proof.
  split; [vm_compute; reflexivity|].
  exact (proj1 (plant_positions_layout
                  [ row (VInt 0) (VInt 0) (VInt 100) (VInt 0);
                    row (VFloat 1.5) (VInt 0) (VFloat 1.5) (VFloat 0.5) ]
                  (VInt 25) ltac:(vm_compute; reflexivity))).
Defined.

(** ** Strings and joins *)

Lemma append_assoc (a b c : string) : ((a ++ b) ++ c = a ++ (b ++ c))%string.
Proof. induction a as [|x a IH]; simpl; [reflexivity | now rewrite IH]. Qed.

Lemma list_ascii_app (a b : string) :
  list_ascii_of_string (a ++ b)
  = (list_ascii_of_string a ++ list_ascii_of_string b)%list.
Proof. induction a as [|x a IH]; simpl; [reflexivity | now rewrite IH]. Qed.

Lemma join_snoc (sep : string) (l : list string) (z : string) :
  l <> [] -> Py.join sep (l ++ [z]) = (Py.join sep l ++ sep ++ z)%string.
Proof.
  unfold Py.join. induction l as [|x l IH]; [congruence|]. intros _.
  destruct l as [|y l]; [reflexivity|].
  change (String.concat sep ((x :: y :: l) ++ [z]))
    with (x ++ sep ++ String.concat sep ((y :: l) ++ [z]))%string.
  rewrite IH by discriminate.
  change (String.concat sep (x :: y :: l))
    with (x ++ sep ++ String.concat sep (y :: l))%string.
  now rewrite !append_assoc.
Qed.

Lemma join_framed (sep first : string) (body : list string) (last : string) :
  exists mid,
    Py.join sep ((first :: body) ++ [last]) = (first ++ mid ++ last)%string.
Proof.
  rewrite join_snoc by discriminate.
  destruct body as [|y body].
  - exists sep. simpl. reflexivity.
  - exists (sep ++ Py.join sep (y :: body) ++ sep)%string.
    change (Py.join sep (first :: y :: body))
      with (first ++ sep ++ Py.join sep (y :: body))%string.
    now rewrite !append_assoc.
Qed.

(** ** Sets of exceptions *)

Lemma raises_in_bind {A B} (P : exn -> bool) (m : result A) (k : A -> result B) :
  raises_in P m -> (forall a, m = Ok a -> raises_in P (k a)) -> raises_in P (rbind m k).
Proof.
  destruct m as [a|e]; simpl; intros Hm Hk; [now apply Hk | exact Hm].
Qed.

Lemma raises_in_weaken {A} (P Q : exn -> bool) (r : result A) :
  (forall e, P e = true -> Q e = true) -> raises_in P r -> raises_in Q r.
Proof. destruct r; simpl; auto. Qed.

Lemma raises_rmap {A B} (P : exn -> bool) (f : A -> result B) (l : list A) :
  (forall a, raises_in P (f a)) -> raises_in P (rmap f l).
Proof.
  intros H. induction l as [|a l IH]; simpl; [exact I|].
  apply raises_in_bind; [apply H | intros].
  apply raises_in_bind; [apply IH | intros; exact I].
Qed.

Ltac raises :=
  repeat lazymatch goal with
    | |- raises_in _ (rbind _ _) => apply raises_in_bind; [|intros ? ?]
    | |- raises_in _ (Ok _) => exact I
    | |- raises_in _ (if ?b then _ else _) => destruct b
    end.

Lemma raises_getitem (o i : value) : raises_in path_exn (Py.getitem o i).
Proof.
  unfold Py.getitem.
  destruct o, i;
    repeat match goal with
      | |- context [match ?x with _ => _ end] => destruct x
      end; first [reflexivity | exact I].
Qed.

Lemma raises_get (o : value) (k : string) (d : value) :
  raises_in path_exn (Py.get o k d).
Proof. destruct o; first [reflexivity | exact I]. Qed.

Lemma raises_fmt2 (v : value) : raises_in path_exn (fmt2 v).
Proof.
  unfold fmt2, Py.format_f, Py.float_of_Z.
  destruct v; try destruct (_ <? _); first [reflexivity | exact I].
Qed.

Lemma raises_len (o : value) : raises_in path_exn (Py.len o).
Proof. destruct o; first [reflexivity | exact I]. Qed.

Lemma raises_iter (o : value) : raises_in path_exn (Py.iter o).
Proof. destruct o; first [reflexivity | exact I]. Qed.

Lemma raises_to_float (n : Py.num) : raises_in arith_exn (Py.to_float n).
Proof.
  destruct n; simpl; [|exact I]. unfold Py.float_of_Z.
  destruct (_ <? _); [exact I | reflexivity].
Qed.

Lemma raises_binop (fz : Z -> Z -> Z) (ff : float -> float -> float) (a b : value) :
  raises_in arith_exn (Py.binop (Py.arith fz ff) a b).
Proof.
  unfold Py.binop.
  destruct (Py.as_num a) as [x|]; [|reflexivity].
  destruct (Py.as_num b) as [y|]; [|reflexivity].
  apply raises_in_bind; [|intros; exact I].
  unfold Py.arith. destruct x, y; try exact I;
    (apply raises_in_bind; [apply raises_to_float | intros]);
    (apply raises_in_bind; [apply raises_to_float | intros; exact I]).
Qed.

(** ** What leaves the path builder *)

Lemma raises_xy2 (p : value) : raises_in path_exn (xy2 p).
Proof.
  unfold xy2. raises; first [apply raises_getitem | apply raises_fmt2].
Qed.

Lemma raises_start_at (segments : value) (i : Z) :
  raises_in path_exn (start_at segments i).
Proof. unfold start_at. raises; apply raises_getitem. Qed.

Lemma raises_draw_command (segments : value) (i : Z) (seg : value) :
  raises_in path_exn (draw_command segments i seg).
Proof.
  unfold draw_command.
  raises;
    first [apply raises_getitem | apply raises_get | apply raises_len
          | apply raises_start_at | apply raises_xy2].
Qed.

Lemma raises_draw_loop (segments : value) (items : list value) :
  forall i parts, raises_in path_exn (draw_loop segments i items parts).
Proof.
  induction items as [|seg items IH]; intros i parts; simpl; [exact I|].
  apply raises_in_bind; [apply raises_draw_command | intros; apply IH].
Qed.

Lemma raises_shape_to_path_try (segments : value) :
  raises_in path_exn (shape_to_path_try segments).
Proof.
  unfold shape_to_path_try.
  raises;
    first [apply raises_start_at | apply raises_xy2 | apply raises_iter
          | apply raises_draw_loop].
Qed.

(** X1.  A call of [_shape_to_path] ends in one of three ways.  It returns
    a path and logs nothing; or it returns the empty string after logging
    one record, of a [KeyError], [TypeError] or [IndexError]; or it raises
    and logs nothing, and then the exception is an [AttributeError] (the
    shape is not a dict), a [ValueError] or an [OverflowError] (a
    coordinate cannot be formatted).  The three exceptions the handler
    lists never leave the function. *)
Theorem shape_to_path_outcomes :
  forall (shape : value) (l : log),
    match _shape_to_path shape l with
    | (Ok s, l') =>
        l' = l
        \/ (s = "" /\ exists e, caught_by_shape_to_path e = true /\ l' = (l ++ [e])%list)
    | (Raise e, l') => l' = l /\ escapes_shape_to_path e = true
    end.
Proof.
  intros shape l. unfold _shape_to_path.
  destruct shape as [| | | | | | d]; try (split; reflexivity).
  unfold Py.get. rewrite mbind_lift_ok.
  set (segments := match Py.lookup "segments" d with Some v => v | None => VList [] end).
  destruct (negb (Py.truthy segments)); [now left|].
  pose proof (raises_shape_to_path_try segments) as Hr.
  destruct (shape_to_path_try segments) as [s|e]; [now left|].
  simpl in Hr.
  destruct (caught_by_shape_to_path e) eqn:Hc.
  - right. split; [reflexivity|]. now exists e.
  - split; [reflexivity|]. now destruct e.
Qed.

(** ** The structure of every path *)

Lemma draw_command_kind (segments : value) (i : Z) (seg : value) (c : string) :
  draw_command segments i seg = Ok c -> is_draw_command c.
Proof.
  unfold draw_command, is_draw_command. intros H. cbv zeta in H.
  repeat match type of H with
    | rbind ?m _ = Ok _ => destruct m; [rewrite rbind_ok in H | discriminate]
    | (if ?b then _ else _) = Ok _ => destruct b
    end;
    injection H as <-; eexists;
    first [left; reflexivity | right; left; reflexivity | right; right; reflexivity].
Qed.

(** The draw loop appends one command per item. *)
Lemma draw_loop_appends (segments : value) (items : list value) :
  forall i parts out,
    draw_loop segments i items parts = Ok out ->
    exists cmds, out = (parts ++ cmds)%list
                 /\ length cmds = length items
                 /\ Forall is_draw_command cmds.
Proof.
  induction items as [|seg items IH]; intros i parts out H.
  - injection H as <-. exists []. now rewrite app_nil_r.
  - simpl in H. destruct (draw_command segments i seg) as [c|] eqn:Hc; [|discriminate].
    rewrite rbind_ok in H. destruct (IH _ _ _ H) as [cmds [-> [Hlen Hk]]].
    exists (c :: cmds). rewrite <- app_assoc. split; [reflexivity|].
    split; [simpl; now rewrite Hlen|].
    constructor; [exact (draw_command_kind _ _ _ _ Hc) | assumption].
Qed.

(** Only a list has a first element with a ["start"]. *)
Lemma start_at_list (segments : value) (i : Z) (p : value) :
  start_at segments i = Ok p -> exists segs, segments = VList segs.
Proof.
  unfold start_at. destruct segments as [| | | | s | segs | d]; try discriminate.
  - unfold Py.getitem at 1.
    destruct (Py.nth_wrap (Py.chars s) i); discriminate.
  - intros _. now exists segs.
Qed.

Lemma shape_to_path_try_structure (segments : value) (s : string) :
  shape_to_path_try segments = Ok s ->
  exists segs m cmds,
    segments = VList segs
    /\ s = Py.join " " (("M " ++ m)%string :: cmds ++ ["Z"])%list
    /\ length cmds = length segs
    /\ Forall is_draw_command cmds.
Proof.
  unfold shape_to_path_try. intros H.
  destruct (start_at segments 0) as [first|] eqn:Hs; [|discriminate].
  destruct (start_at_list _ _ _ Hs) as [segs ->].
  rewrite rbind_ok in H. destruct (xy2 first) as [m|]; [|discriminate].
  rewrite rbind_ok in H. simpl Py.iter in H. rewrite rbind_ok in H.
  destruct (draw_loop (VList segs) 0 segs ["M " ++ m]) as [parts|] eqn:Hl; [|discriminate].
  rewrite rbind_ok in H. injection H as <-.
  destruct (draw_loop_appends _ _ _ _ _ Hl) as [cmds [-> [Hlen Hk]]].
  exists segs, m, cmds. repeat split; assumption.
Qed.

(** X2.  Whatever the shape holds, a path that [_shape_to_path] returns and
    that is not empty has the structure of C1: the segments are a list, the
    path is its move command, one draw command per segment, each a [C], [Q]
    or [L] command, and [Z], joined by spaces; and nothing was logged. *)
Theorem shape_to_path_structure :
  forall (shape : value) (l l' : log) (s : string),
    _shape_to_path shape l = (Ok s, l') ->
    s <> "" ->
    exists segs m cmds,
      Py.get shape "segments" (VList []) = Ok (VList segs)
      /\ l' = l
      /\ s = Py.join " " (("M " ++ m)%string :: cmds ++ ["Z"])%list
      /\ length cmds = length segs
      /\ Forall is_draw_command cmds.
Proof.
  intros shape l l' s H Hs. unfold _shape_to_path in H.
  destruct (Py.get shape "segments" (VList [])) as [segments|e] eqn:Hg;
    [|discriminate].
  rewrite mbind_lift_ok in H.
  destruct (negb (Py.truthy segments)).
  - injection H as <- <-. contradiction.
  - destruct (shape_to_path_try segments) as [d|e] eqn:Ht.
    + injection H as <- <-.
      destruct (shape_to_path_try_structure _ _ Ht) as [segs [m [cmds [-> [Hd [Hn Hk]]]]]].
      exists segs, m, cmds. repeat split; assumption.
    + destruct (caught_by_shape_to_path e).
      * injection H as <- <-. contradiction.
      * discriminate.
Qed.

Lemma shape_to_path_structure_witness :
  _shape_to_path (shape_of leaf) []
  = (Ok ("M 0.00 0.00 C 1.00 2.50, 3.00 4.00, 5.00 5.00 "
         ++ "Q 0.12 6.00, 0.00 9.00 L 0.00 0.00 Z"), [])
  /\ exists segs m cmds,
       Py.get (shape_of leaf) "segments" (VList []) = Ok (VList segs)
       /\ ([] : log) = []
       /\ ("M 0.00 0.00 C 1.00 2.50, 3.00 4.00, 5.00 5.00 "
           ++ "Q 0.12 6.00, 0.00 9.00 L 0.00 0.00 Z")%string
          = Py.join " " (("M " ++ m)%string :: cmds ++ ["Z"])%list
       /\ length cmds = length segs
       /\ Forall is_draw_command cmds.
Proof.
  split; [reflexivity|].
  apply (shape_to_path_structure (shape_of leaf) [] []); [reflexivity | discriminate].
Defined.

(** ** What leaves the centroid *)

Lemma rmap_length {A B} (f : A -> result B) (l : list A) (r : list B) :
  rmap f l = Ok r -> length r = length l.
Proof.
  revert r. induction l as [|a l IH]; intros r H.
  - now injection H as <-.
  - simpl in H. destruct (f a); [|discriminate]. rewrite rbind_ok in H.
    destruct (rmap f l); [|discriminate]. rewrite rbind_ok in H.
    injection H as <-. simpl. now rewrite (IH _ eq_refl).
Qed.

Lemma getitem_key (o : value) (k : string) :
  Py.getitem o (VStr k)
  = match o with
    | VDict d => match Py.lookup k d with Some v => Ok v | None => Raise KeyError end
    | _ => Raise TypeError
    end.
Proof. destruct o; reflexivity. Qed.

Lemma raises_getitem_key (o : value) (k : string) :
  raises_in caught_by_shape_centroid (Py.getitem o (VStr k)).
Proof.
  rewrite getitem_key. destruct o; try reflexivity.
  destruct (Py.lookup k d); [exact I | reflexivity].
Qed.

Lemma raises_start_coords (k : string) (segments : value) :
  raises_in caught_by_shape_centroid (start_coords k segments).
Proof.
  unfold start_coords. apply raises_in_bind.
  - destruct segments; first [reflexivity | exact I].
  - intros items _. apply raises_rmap. intros s.
    apply raises_in_bind; [apply raises_getitem_key | intros; apply raises_getitem_key].
Qed.

Lemma chars_aux_nonempty (s cur : string) : Py.chars_aux cur s <> [].
Proof.
  revert cur. induction s as [|c s IH]; intros cur; simpl; [discriminate|].
  destruct (Py.is_cont c); [apply IH | discriminate].
Qed.

(** Iterating over a truthy value meets at least one item. *)
Lemma iter_truthy (o : value) (items : list value) :
  Py.truthy o = true -> Py.iter o = Ok items -> items <> [].
Proof.
  destruct o as [| | | | s | l | d]; try discriminate; simpl; intros Ht H;
    injection H as <-.
  - destruct s as [|c s]; [discriminate|]. simpl.
    intros E. apply map_eq_nil in E. now apply chars_aux_nonempty in E.
  - destruct l; [discriminate | discriminate].
  - destruct d as [|[k v] d]; [discriminate | discriminate].
Qed.

Lemma start_coords_nonempty (k : string) (segments : value) (xs : list value) :
  Py.truthy segments = true -> start_coords k segments = Ok xs -> xs <> [].
Proof.
  unfold start_coords. intros Ht H.
  destruct (Py.iter segments) as [items|] eqn:Hi; [|discriminate].
  rewrite rbind_ok in H. apply rmap_length in H.
  pose proof (iter_truthy _ _ Ht Hi) as Hn.
  destruct xs; [|discriminate]. destruct items; [congruence | discriminate].
Qed.

Lemma arith_in_centroid (e : exn) :
  arith_exn e = true -> escapes_shape_centroid e = true.
Proof. now destruct e. Qed.

Lemma raises_sum_from (l : list value) :
  forall acc, raises_in escapes_shape_centroid (Py.sum_from acc l).
Proof.
  induction l as [|x l IH]; intros acc; simpl; [exact I|].
  apply raises_in_bind; [|intros; apply IH].
  apply (raises_in_weaken _ _ _ arith_in_centroid), raises_binop.
Qed.

(** Dividing by a count that is not zero. *)
Lemma raises_truediv_count (s : value) (n : nat) :
  n <> O -> raises_in escapes_shape_centroid (Py.truediv s (VInt (Z.of_nat n))).
Proof.
  intros Hn. unfold Py.truediv.
  destruct (Py.as_num s) as [x|]; [|reflexivity]. simpl Py.as_num. cbv iota.
  assert (Hz : (Z.of_nat n =? 0) = false) by (apply Z.eqb_neq; lia).
  destruct x as [z|f]; simpl.
  - unfold Py.int_truediv. rewrite Hz.
    destruct (Z.abs z =? 0); [exact I|].
    destruct (_ <=? _); [reflexivity | exact I].
  - unfold Py.float_of_Z. destruct (_ <? _); [|reflexivity].
    rewrite rbind_ok, Hz. exact I.
Qed.

Lemma raises_mean (xs : list value) :
  xs <> [] -> raises_in escapes_shape_centroid (mean xs).
Proof.
  intros Hn. unfold mean, Py.sum.
  apply raises_in_bind; [apply raises_sum_from | intros s _].
  apply raises_truediv_count. destruct xs; [congruence | discriminate].
Qed.

(** X3.  [_shape_centroid] returns a pair of floats or raises; what it
    raises is an [AttributeError] (the shape is not a dict), a [TypeError]
    (a coordinate is not a number) or an [OverflowError] (an int too large
    for a float).  It never divides by zero, the empty list of segments
    being answered before the division, and a [KeyError] never leaves it. *)
Theorem shape_centroid_outcomes :
  forall shape : value,
    match _shape_centroid shape with
    | Ok (VFloat _, VFloat _) => True
    | Ok _ => False
    | Raise e => escapes_shape_centroid e = true
    end.
Proof.
  intros shape. unfold _shape_centroid.
  destruct shape as [| | | | | | d]; try reflexivity.
  unfold Py.get. rewrite rbind_ok.
  set (segments := match Py.lookup "segments" d with Some v => v | None => VList [] end).
  destruct (Py.truthy segments) eqn:Ht; cbn [negb]; [|exact I].
  pose proof (raises_start_coords "x" segments) as Rx.
  pose proof (raises_start_coords "y" segments) as Ry.
  destruct (start_coords "x" segments) as [xs|e] eqn:Hx.
  - rewrite rbind_ok.
    destruct (start_coords "y" segments) as [ys|e] eqn:Hy.
    + rewrite rbind_ok.
      pose proof (raises_mean xs (start_coords_nonempty _ _ _ Ht Hx)) as Mx.
      pose proof (raises_mean ys (start_coords_nonempty _ _ _ Ht Hy)) as My.
      destruct (mean xs) as [cx|e]; [|exact Mx]. rewrite rbind_ok.
      destruct (mean ys) as [cy|e]; [|exact My]. exact I.
    + simpl in Ry |- *. now rewrite Ry.
  - simpl in Rx |- *. now rewrite Rx.
Qed.

(** ** Escaped text *)

Lemma html_escape_markup_free (s : string) : markup_free (Py.html_escape s) = true.
Proof.
  unfold markup_free. induction s as [|c s IH]; [reflexivity|].
  simpl Py.html_escape. rewrite list_ascii_app, forallb_app, IH, andb_true_r.
  destruct (Nat.eqb (nat_of_ascii c) 38); [reflexivity|].
  destruct (Nat.eqb (nat_of_ascii c) 60) eqn:E1; [reflexivity|].
  destruct (Nat.eqb (nat_of_ascii c) 62) eqn:E2; [reflexivity|].
  destruct (Nat.eqb (nat_of_ascii c) 34) eqn:E3; [reflexivity|].
  destruct (Nat.eqb (nat_of_ascii c) 39) eqn:E4; [reflexivity|].
  simpl. unfold markup_char. now rewrite E1, E2, E3, E4.
Qed.

Lemma html_escape_plain (s : string) : plain_text s = true -> Py.html_escape s = s.
Proof.
  unfold plain_text. induction s as [|c s IH]; [reflexivity|].
  simpl. intros H. apply andb_prop in H. destruct H as [Hc Hs].
  unfold plain_char, markup_char in Hc.
  apply andb_prop in Hc. destruct Hc as [Hm Ha].
  apply negb_true_iff in Hm, Ha.
  apply orb_false_iff in Hm. destruct Hm as [Hm E4].
  apply orb_false_iff in Hm. destruct Hm as [Hm E3].
  apply orb_false_iff in Hm. destruct Hm as [E1 E2].
  rewrite Ha, E1, E2, E3, E4. simpl. now rewrite (IH Hs).
Qed.

(** X4.  Whatever value [_esc] is given, its result holds no [<], no [>]
    and no quote of either kind, so it cannot close the attribute or the
    element it is put in; and a text with none of these characters and no
    [&] comes back as it is. *)
Theorem esc_markup_free :
  forall (B : Py.builtins) (text : value),
    markup_free (_esc B text) = true
    /\ (plain_text (Py.str B text) = true -> _esc B text = Py.str B text).
Proof.
  intros B text. unfold _esc. split.
  - apply html_escape_markup_free.
  - apply html_escape_plain.
Qed.

(** ** The planner rearranges its input *)

Lemma perm_concat {A} (l l' : list (list A)) :
  Permutation l l' -> Permutation (concat l) (concat l').
Proof.
  induction 1; simpl.
  - reflexivity.
  - now apply Permutation_app_head.
  - rewrite !app_assoc. apply Permutation_app_tail, Permutation_app_comm.
  - etransitivity; eassumption.
Qed.

Lemma kappend_perm {A} (k : value) (x : A) (g : list (value * list A)) :
  Permutation (concat (map snd (kappend k x g))) (concat (map snd g) ++ [x]).
Proof.
  induction g as [|[k' xs] g IH]; simpl.
  - reflexivity.
  - destruct (Py.key_eqb k' k); simpl.
    + rewrite <- !app_assoc. apply Permutation_app_head, Permutation_app_comm.
    + rewrite <- app_assoc. now apply Permutation_app_head.
Qed.

(** Each categorising loop adds its visible nodes, and nothing else, to the
    two accumulators. *)
Lemma categorize_perm (kind : item_kind) (m : list (value * value))
    (nodes : list value) :
  forall g u g' u',
    categorize kind nodes m g u = Ok (g', u') ->
    Permutation (concat (map snd g') ++ map snd u')
      ((concat (map snd g) ++ map snd u) ++ map (pair kind) (shown nodes)).
Proof.
  induction nodes as [|x nodes IH]; intros g u g' u' H.
  - injection H as <- <-. simpl. now rewrite app_nil_r.
  - simpl in H. rewrite get_hidden in H.
    destruct (is_dict x); [|discriminate]. rewrite rbind_ok in H.
    fold (hidden x) in H. unfold shown. simpl filter. fold (shown nodes).
    destruct (hidden x) eqn:Hh; cbn [negb]; [now apply IH|].
    destruct (Py.get x "groupId" VNone) as [gid|]; [|discriminate].
    rewrite rbind_ok in H.
    destruct (in_group gid m) as [b|]; [|discriminate]. rewrite rbind_ok in H.
    simpl map.
    destruct b.
    + rewrite (IH _ _ _ _ H), (kappend_perm gid (kind, x) g).
      rewrite <- !app_assoc. apply Permutation_app_head. simpl.
      apply (Permutation_middle (map snd u) _ (kind, x)).
    + destruct (index_or_zero x) as [idx|]; [|discriminate]. rewrite rbind_ok in H.
      rewrite (IH _ _ _ _ H). rewrite map_app. simpl.
      rewrite <- !app_assoc. reflexivity.
Qed.

Lemma build_units_concat (m : list (value * value))
    (g : list (value * list item)) (u : list (value * item)) (units : list unit_) :
  build_units m g u = Ok units ->
  concat (map snd units) = (concat (map snd g) ++ map snd u)%list.
Proof.
  unfold build_units. intros H.
  destruct (rmap _ g) as [gs|] eqn:Hgs; [|discriminate].
  rewrite rbind_ok in H. injection H as <-.
  assert (Hsnd : map snd gs = map snd g).
  { revert gs Hgs. induction g as [|[k xs] g IH]; intros gs Hgs.
    - now injection Hgs as <-.
    - simpl in Hgs. destruct (kfind k m); [|discriminate]. rewrite rbind_ok in Hgs.
      destruct (rmap _ g) as [gs'|]; [|discriminate]. rewrite rbind_ok in Hgs.
      injection Hgs as <-. simpl. f_equal. now apply IH. }
  rewrite map_app, concat_app, Hsnd. f_equal.
  clear. induction u as [|[idx x] u IH]; [reflexivity|]. simpl. now rewrite IH.
Qed.

Lemma build_render_order_perm (landmarks locations : list value) (groups : value)
    (out : list item) :
  _build_render_order (VList landmarks) (VList locations) groups = Ok out ->
  Permutation out (candidates landmarks locations).
Proof.
  intros H. unfold _build_render_order, render_units in H.
  destruct (Py.iter groups) as [gl|]; [|discriminate]. rewrite rbind_ok in H.
  destruct (group_index_loop gl []) as [m|]; [|discriminate]. rewrite rbind_ok in H.
  simpl Py.iter in H. rewrite rbind_ok in H.
  destruct (categorize Landmark landmarks m [] []) as [[g u]|] eqn:H1; [|discriminate].
  rewrite rbind_ok in H. rewrite rbind_ok in H.
  destruct (categorize Location locations m g u) as [[g' u']|] eqn:H2; [|discriminate].
  rewrite rbind_ok in H.
  destruct (build_units m g' u') as [units|] eqn:H3; [|discriminate].
  rewrite rbind_ok in H.
  destruct (sort_desc units) as [sorted|] eqn:H4; [|discriminate].
  rewrite rbind_ok in H. injection H as <-.
  rewrite (perm_concat _ _ (Permutation_map snd (sort_desc_perm _ _ H4))).
  rewrite (build_units_concat _ _ _ _ H3).
  rewrite (categorize_perm _ _ _ _ _ _ _ H2).
  unfold candidates. apply Permutation_app_tail.
  rewrite (categorize_perm _ _ _ _ _ _ _ H1). reflexivity.
Qed.

Lemma build_render_order_by_perm (sort : list unit_ -> result (list unit_))
    (landmarks locations : list value) (groups : value) (out : list item) :
  (forall units sorted, sort units = Ok sorted -> Permutation sorted units) ->
  build_render_order_by sort (VList landmarks) (VList locations) groups = Ok out ->
  Permutation out (candidates landmarks locations).
Proof.
  intros Hsort H. unfold build_render_order_by, render_units_by in H.
  destruct (Py.iter groups) as [gl|]; [|discriminate]. rewrite rbind_ok in H.
  destruct (group_index_loop gl []) as [m|]; [|discriminate]. rewrite rbind_ok in H.
  simpl Py.iter in H. rewrite rbind_ok in H.
  destruct (categorize Landmark landmarks m [] []) as [[g u]|] eqn:H1; [|discriminate].
  rewrite rbind_ok in H. rewrite rbind_ok in H.
  destruct (categorize Location locations m g u) as [[g' u']|] eqn:H2; [|discriminate].
  rewrite rbind_ok in H.
  destruct (build_units m g' u') as [units|] eqn:H3; [|discriminate].
  rewrite rbind_ok in H.
  destruct (sort units) as [sorted|] eqn:H4; [|discriminate].
  rewrite rbind_ok in H. injection H as <-.
  rewrite (perm_concat _ _ (Permutation_map snd (Hsort _ _ H4))).
  rewrite (build_units_concat _ _ _ _ H3).
  rewrite (categorize_perm _ _ _ _ _ _ _ H2).
  unfold candidates. apply Permutation_app_tail.
  rewrite (categorize_perm _ _ _ _ _ _ _ H1). reflexivity.
Qed.

(** [_build_render_order] is the planner with the sort of the embedding. *)
Lemma build_render_order_with_sort_desc (landmarks locations groups : value) :
  _build_render_order landmarks locations groups
  = build_render_order_by sort_desc landmarks locations groups.
Proof. reflexivity. Qed.

(** X5.  Whatever the groups and the fields of the nodes hold, and
    whatever order the sort leaves the units in, a render order that the
    planner returns is a rearrangement of the visible landmarks and the
    visible locations: every one of them is in it once, under its own kind,
    and nothing else is.  All that is asked of the sort is what Python's
    [list.sort] gives for any keys and any outcome of their comparisons:
    when it returns, the list holds the elements it held.  The sort of
    [_build_render_order] is one such. *)
Theorem render_order_rearranges :
  forall (sort : list unit_ -> result (list unit_)),
    (forall units sorted, sort units = Ok sorted -> Permutation sorted units) ->
    forall (landmarks locations : list value) (groups : value) (out : list item),
      build_render_order_by sort (VList landmarks) (VList locations) groups = Ok out ->
      Permutation out (candidates landmarks locations).
Proof.
  intros sort Hsort landmarks locations groups out.
  now apply build_render_order_by_perm.
Qed.

Lemma render_order_rearranges_witness :
  (forall units sorted, sort_desc units = Ok sorted -> Permutation sorted units)
  /\ _build_render_order (VList [node "shed" 5; member "pond" 9 "g1"])
       (VList [node "bed" 2; member "row" 0 "g1"]) (VList [group "g1" 3])
     = Ok [ (Landmark, node "shed" 5);
            (Landmark, member "pond" 9 "g1"); (Location, member "row" 0 "g1");
            (Location, node "bed" 2) ]
  /\ Permutation
       [ (Landmark, node "shed" 5);
         (Landmark, member "pond" 9 "g1"); (Location, member "row" 0 "g1");
         (Location, node "bed" 2) ]
       (candidates [node "shed" 5; member "pond" 9 "g1"]
          [node "bed" 2; member "row" 0 "g1"]).
Proof.
  split; [exact sort_desc_perm|]. split; [reflexivity|].
  exact (render_order_rearranges sort_desc sort_desc_perm
           [node "shed" 5; member "pond" 9 "g1"]
           [node "bed" 2; member "row" 0 "g1"] (VList [group "g1" 3]) _ eq_refl).
Defined.

(** Keys that are lists are ordered as Python orders lists. *)
Lemma list_keys_ordered :
  _build_render_order
    (VList [VDict [("name", VStr "a"); ("index", VList [VInt 1])];
            VDict [("name", VStr "b"); ("index", VList [VInt 2; VInt 0])];
            VDict [("name", VStr "c"); ("index", VList [])]])
    (VList []) (VList [])
  = Ok [ (Landmark, VDict [("name", VStr "b"); ("index", VList [VInt 2; VInt 0])]);
         (Landmark, VDict [("name", VStr "a"); ("index", VList [VInt 1])]);
         (Landmark, VDict [("name", VStr "c"); ("index", VList [])]) ].
Proof. reflexivity. Qed.

(** ** A visible group without an id *)

Lemma group_index_loop_app (pre : list value) :
  forall post m,
    group_index_loop (pre ++ post) m
    = (m' <- group_index_loop pre m ;; group_index_loop post m').
Proof.
  induction pre as [|grp pre IH]; intros post m; [reflexivity|].
  simpl. destruct (Py.get grp "hidden" VNone) as [h|]; [|reflexivity].
  rewrite !rbind_ok. destruct (Py.truthy h); [apply IH|].
  destruct (index_or_zero grp) as [idx|]; [|reflexivity]. rewrite !rbind_ok.
  destruct (Py.getitem grp (VStr "id")) as [id|]; [|reflexivity]. rewrite !rbind_ok.
  destruct (Py.hashable id); [apply IH | reflexivity].
Qed.

Lemma group_without_id (d : list (string * value)) (post : list value)
    (m : list (value * value)) :
  hidden (VDict d) = false -> Py.lookup "id" d = None ->
  group_index_loop (VDict d :: post) m = Raise KeyError.
Proof.
  intros Hh Hid. unfold hidden, field in Hh.
  cbn [group_index_loop Py.get rbind]. rewrite Hh.
  unfold index_or_zero. cbn [Py.get rbind].
  destruct (match Py.lookup "index" d with Some v => v | None => VNone end);
    cbn [rbind Py.getitem]; now rewrite Hid.
Qed.

Section GroupWithoutId.

Variable B : Py.builtins.

(** X6.  A group that is not hidden and has no ["id"] stops the render:
    with well-typed groups before it, whatever comes after it and whatever
    the landmarks, locations and texts are, [_build_render_order] raises
    [KeyError], and so does [render_garden_svg], which has logged nothing
    and returns no document. *)
Theorem group_without_id_aborts :
  forall (width height : value) (landmarks locations pre post texts : list value)
         (d : list (string * value)) (l : log),
    forallb group_ok pre = true ->
    hidden (VDict d) = false ->
    Py.lookup "id" d = None ->
    _build_render_order (VList landmarks) (VList locations)
      (VList (pre ++ VDict d :: post)) = Raise KeyError
    /\ render_garden_svg B
         (plan_of width height landmarks locations (pre ++ VDict d :: post) texts) l
       = (Raise KeyError, l).
Proof.
  intros width height landmarks locations pre post texts d l Hpre Hh Hid.
  assert (H : _build_render_order (VList landmarks) (VList locations)
                (VList (pre ++ VDict d :: post)) = Raise KeyError).
  { unfold _build_render_order, render_units. simpl Py.iter at 1. rewrite rbind_ok.
    rewrite group_index_loop_app.
    destruct (group_index_loop_spec pre Hpre [] [] map_of_nil) as [m [-> _]].
    rewrite rbind_ok. now rewrite (group_without_id d post m Hh Hid). }
  split; [exact H|].
  rewrite render_garden_svg_plan_of. unfold scene. now rewrite H.
Qed.

End GroupWithoutId.

Lemma group_without_id_aborts_witness :
  forallb group_ok [group "g1" 3] = true
  /\ hidden (VDict [("index", VInt 2)]) = false
  /\ Py.lookup "id" [("index", VInt 2)] = None
  /\ _build_render_order (VList [node "shed" 5]) (VList [])
       (VList ([group "g1" 3] ++ VDict [("index", VInt 2)] :: [])) = Raise KeyError
  /\ render_garden_svg sample_builtins
       (plan_of VNone VNone [node "shed" 5] []
          ([group "g1" 3] ++ VDict [("index", VInt 2)] :: []) []) []
     = (Raise KeyError, []).
Proof.
  split; [reflexivity|]. split; [reflexivity|]. split; [reflexivity|].
  exact (group_without_id_aborts sample_builtins VNone VNone [node "shed" 5] []
           [group "g1" 3] [] [] [("index", VInt 2)] [] eq_refl eq_refl eq_refl).
Defined.

(** ** The parts of the document *)

Section Document.

Variable B : Py.builtins.

(** The two loops of the scene composer only append, one part per item. *)
Lemma render_items_appends (items : list item) :
  forall parts l out l',
    render_items B items parts l = (Ok out, l') ->
    exists body, out = (parts ++ body)%list /\ length body = length items.
Proof.
  induction items as [|[kind it] items IH]; intros parts l out l' H.
  - injection H as <- <-. exists []. now rewrite app_nil_r.
  - assert (Hs : exists s l1, render_items B items (parts ++ [s]) l1 = (Ok out, l')).
    { destruct kind; simpl in H; unfold mbind in H.
      - destruct (_render_landmark B it l) as [[s|e] l1]; [|discriminate].
        now exists s, l1.
      - destruct (_render_planting_location B it l) as [[s|e] l1]; [|discriminate].
        now exists s, l1. }
    destruct Hs as [s [l1 Hs]]. destruct (IH _ _ _ _ Hs) as [body [-> Hlen]].
    exists (s :: body). rewrite <- app_assoc. split; [reflexivity|].
    simpl. now rewrite Hlen.
Qed.

Lemma render_texts_appends (texts : list value) :
  forall parts out,
    render_texts B texts parts = Ok out ->
    exists body, out = (parts ++ body)%list /\ length body = length (shown texts).
Proof.
  induction texts as [|txt texts IH]; intros parts out H.
  - injection H as <-. exists []. now rewrite app_nil_r.
  - simpl in H. rewrite get_hidden in H.
    destruct (is_dict txt); [|discriminate]. rewrite rbind_ok in H.
    fold (hidden txt) in H. unfold shown. simpl filter. fold (shown texts).
    destruct (hidden txt); cbn [negb] in H |- *; [now apply IH|].
    destruct (_render_text B txt) as [s|]; [|discriminate]. rewrite rbind_ok in H.
    destruct (IH _ _ H) as [body [-> Hlen]].
    exists (s :: body). rewrite <- app_assoc. split; [reflexivity|].
    simpl. now rewrite Hlen.
Qed.

(** Each loop appends the markup of its items, in order. *)
Lemma render_items_markup (items : list item) :
  forall parts l,
    fst (render_items B items parts l)
    = (xs <- rmap (element_markup B) items ;; Ok (parts ++ xs)%list).
Proof.
  induction items as [|[kind it] items IH]; intros parts l.
  - simpl. now rewrite app_nil_r.
  - simpl rmap. unfold element_markup at 1. cbn [fst snd].
    destruct kind; simpl render_items.
    + destruct (fst_mbind (_render_landmark B it)
                  (fun s => render_items B items (parts ++ [s])%list) l
                  (oblivious_render_landmark B it)) as [l' ->].
      destruct (fst (_render_landmark B it [])) as [s|e]; [|reflexivity].
      rewrite rbind_ok, IH.
      destruct (rmap (element_markup B) items) as [xs|e]; [|reflexivity].
      rewrite !rbind_ok. now rewrite <- app_assoc.
    + destruct (fst_mbind (_render_planting_location B it)
                  (fun s => render_items B items (parts ++ [s])%list) l
                  (oblivious_render_planting_location B it)) as [l' ->].
      destruct (fst (_render_planting_location B it [])) as [s|e]; [|reflexivity].
      rewrite rbind_ok, IH.
      destruct (rmap (element_markup B) items) as [xs|e]; [|reflexivity].
      rewrite !rbind_ok. now rewrite <- app_assoc.
Qed.

Lemma render_text_not_dict (txt : value) :
  is_dict txt = false -> _render_text B txt = Raise AttributeError.
Proof. destruct txt; try reflexivity. discriminate. Qed.

Lemma render_texts_markup (texts : list value) :
  forall parts,
    render_texts B texts parts
    = (xs <- rmap (_render_text B) (shown texts) ;; Ok (parts ++ xs)%list).
Proof.
  induction texts as [|txt texts IH]; intros parts.
  - simpl. now rewrite app_nil_r.
  - simpl render_texts. rewrite get_hidden.
    unfold shown. simpl filter. fold (shown texts).
    destruct (is_dict txt) eqn:Hd.
    + rewrite rbind_ok. fold (hidden txt).
      destruct (hidden txt); cbn [negb]; [apply IH|].
      simpl rmap. destruct (_render_text B txt) as [s|e]; [|reflexivity].
      rewrite !rbind_ok, IH.
      destruct (rmap (_render_text B) (shown texts)) as [xs|e]; [|reflexivity].
      rewrite !rbind_ok. now rewrite <- app_assoc.
    + rewrite (not_dict_shown txt Hd). cbn [negb]. simpl rmap.
      now rewrite (render_text_not_dict txt Hd).
Qed.

Lemma svg_open_text (width height : value) :
  svg_open B width height = header_text B width height.
Proof.
  unfold svg_open, header_text, Py.attr, quoted.
  repeat rewrite append_assoc. reflexivity.
Qed.

Lemma svg_defs_text : svg_defs = style_sheet.
Proof. reflexivity. Qed.

Lemma document_markup (width height : value)
    (landmarks locations groups texts : list value) (l : log) :
  fst (render_garden_svg B (plan_of width height landmarks locations groups texts) l)
  = (order <- _build_render_order (VList landmarks) (VList locations) (VList groups) ;;
     elements <- rmap (element_markup B) order ;;
     labels <- rmap (_render_text B) (shown texts) ;;
     Ok (Py.join Py.nl (document_lines B width height elements labels))).
Proof.
  rewrite render_garden_svg_plan_of. unfold scene.
  destruct (_build_render_order _ _ _) as [order|e]; [|reflexivity].
  rewrite mbind_lift_ok, rbind_ok. unfold mbind.
  pose proof (render_items_markup order
                [svg_open B (Py.or_ width (VInt 800)) (Py.or_ height (VInt 600)); svg_defs]
                l) as Hi.
  destruct (render_items B order _ l) as [[parts|e] l1];
    destruct (rmap (element_markup B) order) as [elements|e'];
    cbn [fst rbind] in Hi |- *; try discriminate.
  - injection Hi as ->. unfold lift.
    rewrite render_texts_markup.
    destruct (rmap (_render_text B) (shown texts)) as [labels|e]; [|reflexivity].
    rewrite !rbind_ok. unfold mret. simpl fst. do 2 f_equal.
    unfold document_lines. rewrite <- svg_open_text, <- svg_defs_text.
    repeat rewrite <- app_assoc. reflexivity.
  - now injection Hi as ->.
Qed.

(** X7.  The document of a plan is, joined by newlines: the opening tag
    with the plan's size (800 by 600 where the plan gives none), the style
    sheet, the markup of each element of the render order, in that order,
    then the markup of each visible text, in the order of the plan, so that
    the texts lie on top, and the closing tag; an element that renders as the
    empty string still has its line.  Where the planner, an element or a
    text raises, the first of these exceptions is the outcome.  The render
    order holds each visible landmark and location once. *)
Theorem document_layout :
  forall (width height : value) (landmarks locations groups texts : list value)
         (l : log),
    fst (render_garden_svg B (plan_of width height landmarks locations groups texts) l)
    = (order <- _build_render_order (VList landmarks) (VList locations) (VList groups) ;;
       elements <- rmap (element_markup B) order ;;
       labels <- rmap (_render_text B) (shown texts) ;;
       Ok (Py.join Py.nl (document_lines B width height elements labels)))
    /\ forall order,
         _build_render_order (VList landmarks) (VList locations) (VList groups)
         = Ok order ->
         Permutation order (candidates landmarks locations).
Proof.
  intros width height landmarks locations groups texts l. split.
  - apply document_markup.
  - intros order. apply build_render_order_perm.
Qed.

(** X8.  Every document [render_garden_svg] returns, for whatever input,
    the placeholder for a missing plan included, opens with an [svg] tag and
    ends with its closing tag. *)
Theorem document_framed :
  forall (garden_data : value) (l l' : log) (doc : string),
    render_garden_svg B garden_data l = (Ok doc, l') ->
    exists body, doc = ("<svg " ++ body ++ "</svg>")%string.
Proof.
  intros garden_data l l' doc H. unfold render_garden_svg in H.
  destruct (Py.get garden_data "gardenPlan" VNone) as [plan|]; [|discriminate].
  rewrite mbind_lift_ok in H.
  destruct (negb (Py.truthy plan)).
  - injection H as <- <-.
    exists (substring 5 (String.length (_empty_svg "No garden plan data") - 11)
              (_empty_svg "No garden plan data")).
    vm_compute. reflexivity.
  - destruct (Py.get plan "width" VNone) as [w|]; [|discriminate].
    rewrite mbind_lift_ok in H.
    destruct (Py.get plan "height" VNone) as [h|]; [|discriminate].
    rewrite mbind_lift_ok in H.
    destruct (nodes_of plan "plantingLocations") as [locations|]; [|discriminate].
    rewrite mbind_lift_ok in H.
    destruct (nodes_of plan "landmarks") as [landmarks|]; [|discriminate].
    rewrite mbind_lift_ok in H.
    destruct (nodes_of plan "groups") as [groups|]; [|discriminate].
    rewrite mbind_lift_ok in H.
    destruct (nodes_of plan "texts") as [texts|]; [|discriminate].
    rewrite mbind_lift_ok in H.
    destruct (_build_render_order landmarks locations groups) as [render_list|];
      [|discriminate].
    rewrite mbind_lift_ok in H. unfold mbind in H.
    destruct (render_items B render_list _ l) as [[parts|] l1] eqn:Hi; [|discriminate].
    unfold lift in H.
    destruct (Py.iter texts) as [txts|]; [|discriminate].
    destruct (render_texts B txts parts) as [parts'|] eqn:Ht; [|discriminate].
    injection H as <- <-.
    destruct (render_items_appends _ _ _ _ _ Hi) as [items [-> _]].
    destruct (render_texts_appends _ _ _ Ht) as [labels [-> _]].
    rewrite <- !app_assoc. simpl app.
    destruct (join_framed Py.nl (svg_open B (Py.or_ w (VInt 800)) (Py.or_ h (VInt 600)))
                (svg_defs :: items ++ labels) "</svg>") as [mid Hj].
    simpl app in Hj. rewrite <- app_assoc in Hj. rewrite Hj.
    unfold svg_open.
    match goal with
    | |- exists _, (("<svg " ++ ?R) ++ _)%string = _ => exists (R ++ mid)%string
    end.
    now rewrite !append_assoc.
Qed.

(** X9.  A text is rendered without a handler.  The first segment of a
    visible text lacking its ["start"], [_render_text] raises [KeyError] and
    with it the whole render, which returns no document and has logged
    nothing; the same shape as an outline makes [_shape_to_path] log the
    error and return the empty path. *)
Theorem malformed_text_aborts :
  forall (width height : value) (others seg : list (string * value))
         (rest post : list value) (l : log),
    Py.lookup "start" seg = None ->
    Py.lookup "hidden" others = None ->
    _shape_to_path (shape_of (VDict seg :: rest)) l = (Ok "", (l ++ [KeyError])%list)
    /\ _render_text B (text_node others (VDict seg :: rest)) = Raise KeyError
    /\ render_garden_svg B
         (plan_of width height [] [] []
            (text_node others (VDict seg :: rest) :: post)) l
       = (Raise KeyError, l).
Proof.
  intros width height others seg rest post l Hs Hh.
  assert (Ht : _render_text B (text_node others (VDict seg :: rest)) = Raise KeyError).
  { unfold _render_text, text_node, shape_of.
    cbn [Py.get Py.lookup String.eqb Ascii.eqb Bool.eqb rbind Py.truthy negb].
    unfold start_at. cbn. now rewrite Hs. }
  split; [|split; [exact Ht|]].
  - unfold _shape_to_path, shape_of.
    cbn [Py.get Py.lookup String.eqb Ascii.eqb Bool.eqb]. rewrite mbind_lift_ok.
    cbn [Py.truthy negb]. unfold shape_to_path_try, start_at. cbn. now rewrite Hs.
  - rewrite render_garden_svg_plan_of. unfold scene.
    change (_build_render_order (VList []) (VList []) (VList [])) with (@Ok (list item) []).
    rewrite mbind_lift_ok. cbn [render_items]. unfold mbind, mret, lift.
    cbn [render_texts]. unfold text_node at 1.
    cbn [Py.get Py.lookup String.eqb Ascii.eqb Bool.eqb]. rewrite Hh.
    cbn [rbind Py.truthy negb]. now rewrite Ht.
Qed.

End Document.

Lemma document_framed_witness :
  match render_garden_svg sample_builtins sample_plan [] with
  | (Ok doc, _) => exists body, doc = ("<svg " ++ body ++ "</svg>")%string
  | (Raise _, _) => False
  end.
Proof.
  destruct (render_garden_svg sample_builtins sample_plan []) as [[doc|e] l'] eqn:H.
  - exact (document_framed sample_builtins _ _ _ _ H).
  - vm_compute in H. discriminate.
Defined.

Lemma malformed_text_aborts_witness :
  Py.lookup "start" [("end", pt (VInt 0) (VInt 0))] = None
  /\ Py.lookup "hidden" [("text", VStr "north")] = None
  /\ _shape_to_path (shape_of [VDict [("end", pt (VInt 0) (VInt 0))]]) []
     = (Ok "", [KeyError])
  /\ _render_text sample_builtins
       (text_node [("text", VStr "north")] [VDict [("end", pt (VInt 0) (VInt 0))]])
     = Raise KeyError
  /\ render_garden_svg sample_builtins
       (plan_of VNone VNone [] [] []
          [text_node [("text", VStr "north")] [VDict [("end", pt (VInt 0) (VInt 0))]]]) []
     = (Raise KeyError, []).
Proof.
  split; [reflexivity|]. split; [reflexivity|].
  exact (malformed_text_aborts sample_builtins VNone VNone [("text", VStr "north")]
           [("end", pt (VInt 0) (VInt 0))] [] [] [] eq_refl eq_refl).
Defined.

(** ** Every element is one group *)

Section Groups.

Variable B : Py.builtins.

Lemma landmark_open_tag (lm fill : value) (g : string) :
  landmark_open B lm fill = Ok g -> exists attrs, g = ("<g " ++ attrs)%string.
Proof.
  unfold landmark_open. intros H.
  destruct (Py.get lm "name" (VStr "")) as [n|]; [|discriminate].
  rewrite rbind_ok in H.
  destruct (Py.get lm "iconName" VNone) as [icon|]; [|discriminate].
  rewrite !rbind_ok in H. cbv zeta in H. injection H as <-.
  eexists. reflexivity.
Qed.

Lemma Ok_inj {A} (a b : A) : Ok a = Ok b -> a = b.
Proof. now intros [= ->]. Qed.

(** A group: parts that open with a tag, joined with the closing tag. *)
Lemma join_group (tag attrs : string) (parts body : list string) (last : string) :
  parts = ((tag ++ attrs)%string :: body) ->
  exists inner, Py.join Py.nl (parts ++ [last]) = (tag ++ inner ++ last)%string.
Proof.
  intros ->. destruct (join_framed Py.nl (tag ++ attrs) body last) as [mid ->].
  exists (attrs ++ mid)%string. now rewrite !append_assoc.
Qed.

Lemma render_landmark_body_framed (lm shape : value) (d s : string) :
  render_landmark_body B lm shape d = Ok s ->
  exists body, s = ("<g " ++ body ++ "</g>")%string.
Proof.
  unfold render_landmark_body. intros H.
  destruct (Py.get lm "fillColor" (VStr "#cccccc")) as [fill|]; [|discriminate].
  rewrite rbind_ok in H.
  destruct (Py.get lm "strokeColor" (VStr "#999999")) as [stroke|]; [|discriminate].
  rewrite rbind_ok in H.
  destruct (Py.get lm "strokeWidth" (VInt 1)) as [stroke_w|]; [|discriminate].
  rewrite rbind_ok in H.
  destruct (Py.min2 stroke_w (VInt 60)) as [m|]; [|discriminate].
  rewrite rbind_ok in H.
  destruct (Py.max2 (VInt 3) m) as [w|]; [|discriminate].
  rewrite rbind_ok in H.
  destruct (Py.get lm "iconName" VNone) as [icon|]; [|discriminate].
  rewrite rbind_ok in H.
  destruct (landmark_open B lm fill) as [g|] eqn:Hg; [|discriminate].
  rewrite rbind_ok in H. cbv zeta in H.
  destruct (landmark_open_tag _ _ _ Hg) as [attrs ->].
  destruct (Py.truthy icon), (negb (Py.eq_str icon "house"));
    try (destruct (landmark_badge icon shape); [|discriminate]);
    rewrite ?rbind_ok in H; apply Ok_inj in H; subst s;
    eapply join_group; simpl app; reflexivity.
Qed.

Lemma render_cluster_appends (cluster sp outer inner color : value)
    (parts out : list string) (l l' : log) :
  render_cluster B cluster sp outer inner color parts l = (Ok out, l') ->
  exists body, out = (parts ++ body)%list.
Proof.
  unfold render_cluster. intros H.
  destruct (Py.get cluster "rows" VNone) as [r|]; [|discriminate].
  rewrite mbind_lift_ok in H. cbv zeta in H.
  destruct (Py.truthy (Py.or_ r (VList []))).
  - unfold lift in H.
    destruct (_plant_positions_from_rows _ sp) as [positions|]; [|discriminate].
    rewrite rbind_ok in H.
    destruct (rmap (plant_circle B outer color (Some "0.3")) positions) as [o|];
      [|discriminate].
    rewrite rbind_ok in H.
    destruct (rmap (plant_circle B inner color None) positions) as [i|];
      [|discriminate].
    rewrite rbind_ok in H. injection H as <- <-. now exists (o ++ i)%list.
  - destruct (Py.get cluster "shape" (VDict [])) as [cs|]; [|discriminate].
    rewrite mbind_lift_ok in H. unfold mbind in H.
    destruct (_shape_to_path cs l) as [[cd|] l1]; [|discriminate].
    destruct (Py.truthy (VStr cd)); injection H as <- <-.
    + eexists. reflexivity.
    + exists []. now rewrite app_nil_r.
Qed.

Lemma clusters_loop_appends (clusters : list value) (sp outer inner color : value) :
  forall parts out l l',
    clusters_loop B clusters sp outer inner color parts l = (Ok out, l') ->
    exists body, out = (parts ++ body)%list.
Proof.
  induction clusters as [|c clusters IH]; intros parts out l l' H.
  - injection H as <- <-. exists []. now rewrite app_nil_r.
  - simpl in H. unfold mbind in H.
    destruct (render_cluster B c sp outer inner color parts l) as [[parts'|] l1] eqn:Hc;
      [|discriminate].
    destruct (render_cluster_appends _ _ _ _ _ _ _ _ _ Hc) as [b1 ->].
    destruct (IH _ _ _ _ H) as [b2 ->].
    exists (b1 ++ b2)%list. now rewrite app_assoc.
Qed.

Lemma render_formation_head_tag (formation : value) (d : string) (h : formation_head) :
  render_formation_head B formation d = Ok h ->
  exists attrs rest, fh_parts h = (("  <g " ++ attrs)%string :: rest).
Proof.
  unfold render_formation_head. intros H.
  repeat match type of H with
    | rbind ?m _ = Ok _ => destruct m; [rewrite rbind_ok in H | discriminate]
    | _ => progress cbv zeta in H
    end.
  injection H as <-. cbn [fh_parts]. eexists. eexists. reflexivity.
Qed.

Lemma render_formation_framed (formation : value) (l l' : log) (s : string) :
  _render_formation B formation l = (Ok s, l') ->
  s = "" \/ exists body, s = ("  <g " ++ body ++ "  </g>")%string.
Proof.
  unfold _render_formation. intros H.
  destruct (Py.get formation "shape" (VDict [])) as [shape|]; [|discriminate].
  rewrite mbind_lift_ok in H. unfold mbind at 1 in H.
  destruct (_shape_to_path shape l) as [[d|] l1]; [|discriminate].
  destruct (negb (Py.truthy (VStr d))); [injection H as <- <-; now left|].
  destruct (render_formation_head B formation d) as [h|] eqn:Hh; [|discriminate].
  rewrite mbind_lift_ok in H.
  destruct (Py.get formation "clusters" (VList [])) as [cl|]; [|discriminate].
  rewrite mbind_lift_ok in H.
  destruct (Py.iter cl) as [clusters|]; [|discriminate].
  rewrite mbind_lift_ok in H. unfold mbind at 1 in H.
  destruct (clusters_loop B clusters _ _ _ _ _ l1) as [[parts|] l2] eqn:Hc;
    [|discriminate].
  destruct (clusters_loop_appends _ _ _ _ _ _ _ _ _ Hc) as [b1 ->].
  destruct (render_formation_head_tag _ _ _ Hh) as [attrs [rest Hparts]].
  rewrite Hparts in H. clear Hc.
  unfold mbind, lift, mret in H.
  destruct (Py.truthy (fh_initial h)).
  - destruct (formation_label B shape (fh_initial h)) as [t|]; [|discriminate].
    rewrite rbind_ok in H.
    match type of H with
    | (Ok (Py.join _ (?P ++ _)%list), _) = _ => remember P as parts eqn:Ep
    end.
    injection H as <- <-. right.
    eapply join_group. rewrite Ep, <- !app_assoc. simpl app. reflexivity.
  - match type of H with
    | (Ok (Py.join _ (?P ++ _)%list), _) = _ => remember P as parts eqn:Ep
    end.
    injection H as <- <-. right.
    eapply join_group. rewrite Ep. simpl app. reflexivity.
Qed.

Lemma formations_loop_appends (fs : list value) :
  forall parts out l l',
    formations_loop B fs parts l = (Ok out, l') ->
    exists body, out = (parts ++ body)%list.
Proof.
  induction fs as [|f fs IH]; intros parts out l l' H.
  - injection H as <- <-. exists []. now rewrite app_nil_r.
  - simpl in H. unfold mbind in H.
    destruct (_render_formation B f l) as [[s|] l1]; [|discriminate].
    destruct (IH _ _ _ _ H) as [body ->].
    exists (s :: body). now rewrite <- app_assoc.
Qed.

Lemma render_planting_location_framed (loc : value) (l l' : log) (s : string) :
  _render_planting_location B loc l = (Ok s, l') ->
  s = "" \/ exists body, s = ("<g " ++ body ++ "</g>")%string.
Proof.
  unfold _render_planting_location. intros H.
  destruct (Py.get loc "shape" (VDict [])) as [shape|]; [|discriminate].
  rewrite mbind_lift_ok in H. unfold mbind at 1 in H.
  destruct (_shape_to_path shape l) as [[d|] l1]; [|discriminate].
  destruct (negb (Py.truthy (VStr d))); [injection H as <- <-; now left|].
  destruct (Py.get loc "fillColor" (VStr "#d4e6b5")) as [fill|]; [|discriminate].
  rewrite mbind_lift_ok in H.
  destruct (Py.get loc "name" (VStr "")) as [n|]; [|discriminate].
  rewrite mbind_lift_ok in H. cbv zeta in H.
  destruct (Py.get loc "plantingFormations" VNone) as [pf|]; [|discriminate].
  rewrite mbind_lift_ok in H.
  destruct (Py.get (Py.or_ pf (VDict [])) "nodes" (VList [])) as [nodes|]; [|discriminate].
  rewrite mbind_lift_ok in H.
  destruct (Py.iter nodes) as [items|]; [|discriminate].
  rewrite mbind_lift_ok in H.
  destruct (select_formations items) as [formations|]; [|discriminate].
  rewrite mbind_lift_ok in H. unfold mbind, mret in H.
  destruct (formations_loop B formations _ l1) as [[parts|] l2] eqn:Hf; [|discriminate].
  destruct (formations_loop_appends _ _ _ _ _ Hf) as [body Hb].
  injection H as <- <-. right.
  eapply join_group. rewrite Hb. simpl app. reflexivity.
Qed.

(** X20.  Each element renderer returns the empty string or one group:
    what [_render_landmark] and [_render_planting_location] return opens
    with a [g] tag and ends with its closing tag, and so does, two spaces
    in, what [_render_formation] returns, whatever the entity holds. *)
Theorem element_markup_framed :
  forall (v : value) (l l' : log) (s : string),
    (_render_landmark B v l = (Ok s, l') ->
     s = "" \/ exists body, s = ("<g " ++ body ++ "</g>")%string)
    /\ (_render_planting_location B v l = (Ok s, l') ->
        s = "" \/ exists body, s = ("<g " ++ body ++ "</g>")%string)
    /\ (_render_formation B v l = (Ok s, l') ->
        s = "" \/ exists body, s = ("  <g " ++ body ++ "  </g>")%string).
Proof.
  intros v l l' s. split; [|split].
  - unfold _render_landmark. intros H.
    destruct (Py.get v "shape" (VDict [])) as [shape|]; [|discriminate].
    rewrite mbind_lift_ok in H. unfold mbind in H.
    destruct (_shape_to_path shape l) as [[d|] l1]; [|discriminate].
    destruct (negb (Py.truthy (VStr d))); [injection H as <- <-; now left|].
    unfold lift in H.
    destruct (render_landmark_body B v shape d) as [s'|] eqn:Hb; [|discriminate].
    injection H as <- <-. right. exact (render_landmark_body_framed _ _ _ _ Hb).
  - apply render_planting_location_framed.
  - apply render_formation_framed.
Qed.

End Groups.

(** ** What the renderer logs *)

Lemma logs_only_ret {A} (P : exn -> bool) (a : A) : logs_only P (mret a).
Proof. intros l. exists []. now rewrite app_nil_r. Qed.

Lemma logs_only_lift {A} (P : exn -> bool) (r : result A) : logs_only P (lift r).
Proof. intros l. exists []. now rewrite app_nil_r. Qed.

Lemma logs_only_bind {A C} (P : exn -> bool) (m : M A) (k : A -> M C) :
  logs_only P m -> (forall a, logs_only P (k a)) -> logs_only P (mbind m k).
Proof.
  intros Hm Hk l. destruct (Hm l) as [r1 [H1 P1]]. unfold mbind.
  destruct (m l) as [[a|e] l1]; simpl in H1; subst l1.
  - destruct (Hk a (l ++ r1)%list) as [r2 [H2 P2]].
    exists (r1 ++ r2)%list. rewrite H2, app_assoc, forallb_app, P1, P2. now split.
  - now exists r1.
Qed.

Lemma logs_only_if {A} (P : exn -> bool) (b : bool) (m1 m2 : M A) :
  logs_only P m1 -> logs_only P m2 -> logs_only P (if b then m1 else m2).
Proof. now destruct b. Qed.

Ltac logs :=
  repeat lazymatch goal with
    | |- logs_only _ (mret _) => apply logs_only_ret
    | |- logs_only _ (lift _) => apply logs_only_lift
    | |- logs_only _ (mbind _ _) => apply logs_only_bind; [|intros ?]
    | |- logs_only _ (if _ then _ else _) => apply logs_only_if
    end.

Lemma logs_only_shape_to_path (shape : value) :
  logs_only caught_by_shape_to_path (_shape_to_path shape).
Proof.
  unfold _shape_to_path. logs. intros l.
  destruct (shape_to_path_try a) as [d|e].
  - exists []. now rewrite app_nil_r.
  - destruct (caught_by_shape_to_path e) eqn:Hc.
    + exists [e]. simpl. now rewrite Hc.
    + exists []. now rewrite app_nil_r.
Qed.

Section Logs.

Variable B : Py.builtins.

Lemma logs_only_render_landmark (lm : value) :
  logs_only caught_by_shape_to_path (_render_landmark B lm).
Proof. unfold _render_landmark. logs. apply logs_only_shape_to_path. Qed.

Lemma logs_only_render_cluster (cluster sp outer inner color : value)
    (parts : list string) :
  logs_only caught_by_shape_to_path
    (render_cluster B cluster sp outer inner color parts).
Proof. unfold render_cluster. logs. apply logs_only_shape_to_path. Qed.

Lemma logs_only_clusters_loop (clusters : list value) (sp outer inner color : value) :
  forall parts,
    logs_only caught_by_shape_to_path
      (clusters_loop B clusters sp outer inner color parts).
Proof.
  induction clusters as [|c clusters IH]; intros parts; simpl.
  - apply logs_only_ret.
  - apply logs_only_bind; [apply logs_only_render_cluster | intros parts'; apply IH].
Qed.

Lemma logs_only_render_formation (f : value) :
  logs_only caught_by_shape_to_path (_render_formation B f).
Proof.
  unfold _render_formation. logs;
    first [apply logs_only_shape_to_path | apply logs_only_clusters_loop].
Qed.

Lemma logs_only_formations_loop (fs : list value) :
  forall parts, logs_only caught_by_shape_to_path (formations_loop B fs parts).
Proof.
  induction fs as [|f fs IH]; intros parts; simpl.
  - apply logs_only_ret.
  - apply logs_only_bind; [apply logs_only_render_formation | intros s; apply IH].
Qed.

Lemma logs_only_render_planting_location (loc : value) :
  logs_only caught_by_shape_to_path (_render_planting_location B loc).
Proof.
  unfold _render_planting_location. logs;
    first [apply logs_only_shape_to_path | apply logs_only_formations_loop].
Qed.

Lemma logs_only_render_items (items : list item) :
  forall parts, logs_only caught_by_shape_to_path (render_items B items parts).
Proof.
  induction items as [|[kind it] items IH]; intros parts; simpl.
  - apply logs_only_ret.
  - destruct kind; (apply logs_only_bind; [|intros s; apply IH]).
    + apply logs_only_render_landmark.
    + apply logs_only_render_planting_location.
Qed.

(** X10.  Whether it returns or raises, [render_garden_svg] leaves the log
    it was given untouched and only appends to it, and every record it
    appends is one of a [KeyError], [TypeError] or [IndexError] met in a
    malformed shape. *)
Theorem render_log_discipline :
  forall (garden_data : value) (l : log),
    exists records : log,
      snd (render_garden_svg B garden_data l) = (l ++ records)%list
      /\ forallb caught_by_shape_to_path records = true.
Proof.
  intros garden_data.
  change (logs_only caught_by_shape_to_path (render_garden_svg B garden_data)).
  unfold render_garden_svg. logs. apply logs_only_render_items.
Qed.

End Logs.

(** ** Rows of plants *)

(** The reads of a row succeed on a row with both end points and fail, in a
    way the handler catches, on any other. *)
Lemma row_endpoints_spec (row : value) :
  if has_endpoints row
  then exists sx sy ex ey, row_endpoints row = Ok (sx, sy, ex, ey)
  else exists e, row_endpoints row = Raise e /\ caught_by_plant_positions e = true.
Proof.
  unfold has_endpoints, has_xy, row_endpoints. rewrite !getitem_key.
  destruct row as [| | | | | | d]; try (now exists TypeError).
  destruct (Py.lookup "start" d) as [s|]; [|now exists KeyError].
  cbn [rbind]. rewrite !getitem_key.
  destruct s as [| | | | | | sd];
    try (destruct (Py.lookup "end" d); now exists TypeError).
  destruct (Py.lookup "x" sd) as [sx|];
    [|destruct (Py.lookup "end" d); now exists KeyError].
  cbn [rbind].
  destruct (Py.lookup "y" sd) as [sy|];
    [|destruct (Py.lookup "end" d); now exists KeyError].
  cbn [rbind].
  destruct (Py.lookup "end" d) as [e|]; [|now exists KeyError].
  cbn [rbind andb]. rewrite !getitem_key.
  destruct e as [| | | | | | ed]; try (now exists TypeError).
  destruct (Py.lookup "x" ed) as [ex|]; [|now exists KeyError]. cbn [rbind].
  destruct (Py.lookup "y" ed) as [ey|]; [|now exists KeyError]. cbn [rbind].
  now exists sx, sy, ex, ey.
Qed.

Lemma plants_loop_acc (sx sy ps : value) (ux uy : float) (idxs : list Z) :
  forall acc,
    plants_loop sx sy ps ux uy idxs acc
    = (r <- plants_loop sx sy ps ux uy idxs [] ;; Ok (acc ++ r)%list).
Proof.
  induction idxs as [|i idxs IH]; intros acc; simpl.
  - now rewrite app_nil_r.
  - destruct (plant_at sx sy ps ux uy i) as [p|]; [|reflexivity].
    rewrite !rbind_ok. rewrite (IH (acc ++ [p])%list), (IH [p]).
    destruct (plants_loop sx sy ps ux uy idxs []) as [r|]; [|reflexivity].
    rewrite !rbind_ok. now rewrite <- app_assoc.
Qed.

Lemma row_plants_acc (sx sy ex ey ps : value) (acc : list (value * value)) :
  row_plants sx sy ex ey ps acc
  = (r <- row_plants sx sy ex ey ps [] ;; Ok (acc ++ r)%list).
Proof.
  unfold row_plants.
  repeat match goal with
    | |- rbind ?m _ = rbind (rbind ?m _) _ =>
        destruct m; [rewrite !rbind_ok | reflexivity]
    | |- (if ?b then _ else _) = _ => destruct b
    end; try reflexivity.
  apply plants_loop_acc.
Qed.

Lemma rows_loop_acc (rows : list value) (ps : value) :
  forall acc,
    rows_loop rows ps acc = (r <- rows_loop rows ps [] ;; Ok (acc ++ r)%list).
Proof.
  induction rows as [|row rows IH]; intros acc; simpl.
  - now rewrite app_nil_r.
  - destruct (row_endpoints row) as [[[[sx sy] ex] ey]|e].
    + rewrite (row_plants_acc sx sy ex ey ps acc).
      destruct (row_plants sx sy ex ey ps []) as [r|]; [|reflexivity].
      rewrite !rbind_ok. simpl app. rewrite (IH (acc ++ r)%list), (IH r).
      destruct (rows_loop rows ps []) as [r'|]; [|reflexivity].
      rewrite !rbind_ok. now rewrite <- app_assoc.
    + destruct (caught_by_plant_positions e); [apply IH | reflexivity].
Qed.

Lemma rows_loop_app (rows1 rows2 : list value) (ps : value) :
  forall acc,
    rows_loop (rows1 ++ rows2) ps acc
    = (acc' <- rows_loop rows1 ps acc ;; rows_loop rows2 ps acc').
Proof.
  induction rows1 as [|row rows1 IH]; intros acc; [reflexivity|]. simpl.
  destruct (row_endpoints row) as [[[[sx sy] ex] ey]|e].
  - destruct (row_plants sx sy ex ey ps acc) as [r|]; [|reflexivity].
    rewrite !rbind_ok. apply IH.
  - destruct (caught_by_plant_positions e); [apply IH | reflexivity].
Qed.

Lemma plant_positions_app (rows1 rows2 : list value) (ps : value) :
  _plant_positions_from_rows (VList (rows1 ++ rows2)) ps
  = (a <- _plant_positions_from_rows (VList rows1) ps ;;
     b <- _plant_positions_from_rows (VList rows2) ps ;;
     Ok (a ++ b)%list).
Proof.
  unfold _plant_positions_from_rows, Py.iter. rewrite !rbind_ok.
  rewrite rows_loop_app.
  destruct (rows_loop rows1 ps []) as [a|]; [|reflexivity]. rewrite !rbind_ok.
  apply rows_loop_acc.
Qed.

(** X11.  The layout of rows is row by row, with no hypothesis on the rows
    or the spacing: the positions of two lists of rows put end to end are
    the positions of the first list followed by those of the second, and
    the call raises what the first list raises or else what the second
    does. *)
Theorem plant_positions_concatenate :
  forall (rows1 rows2 : list value) (plant_spacing : value),
    _plant_positions_from_rows (VList (rows1 ++ rows2)) plant_spacing
    = (a <- _plant_positions_from_rows (VList rows1) plant_spacing ;;
       b <- _plant_positions_from_rows (VList rows2) plant_spacing ;;
       Ok (a ++ b)%list).
Proof. exact plant_positions_app. Qed.

(** X12.  A row without both end points (not a dict, a missing ["start"] or
    ["end"], an end point that is not a dict or lacks a coordinate) is
    skipped: the result, positions or exception, is that of the rows
    without it. *)
Theorem malformed_row_skipped :
  forall (rows1 rows2 : list value) (row plant_spacing : value),
    has_endpoints row = false ->
    _plant_positions_from_rows (VList (rows1 ++ row :: rows2)) plant_spacing
    = _plant_positions_from_rows (VList (rows1 ++ rows2)) plant_spacing.
Proof.
  intros rows1 rows2 row ps Hrow.
  rewrite !plant_positions_app.
  destruct (_plant_positions_from_rows (VList rows1) ps) as [a|]; [|reflexivity].
  rewrite !rbind_ok. f_equal.
  unfold _plant_positions_from_rows, Py.iter. rewrite !rbind_ok. simpl rows_loop.
  pose proof (row_endpoints_spec row) as H. rewrite Hrow in H.
  destruct H as [e [-> ->]]. reflexivity.
Qed.

Lemma malformed_row_skipped_witness :
  has_endpoints (VDict [("start", pt (VInt 0) (VInt 0))]) = false
  /\ _plant_positions_from_rows
       (VList ([row (VInt 0) (VInt 0) (VInt 100) (VInt 0)]
               ++ VDict [("start", pt (VInt 0) (VInt 0))]
               :: [row (VInt 2) (VInt 3) (VInt 5) (VInt 7)])) (VInt 80)
     = _plant_positions_from_rows
         (VList ([row (VInt 0) (VInt 0) (VInt 100) (VInt 0)]
                 ++ [row (VInt 2) (VInt 3) (VInt 5) (VInt 7)])) (VInt 80).
Proof.
  split; [reflexivity|].
  exact (malformed_row_skipped [row (VInt 0) (VInt 0) (VInt 100) (VInt 0)]
           [row (VInt 2) (VInt 3) (VInt 5) (VInt 7)]
           (VDict [("start", pt (VInt 0) (VInt 0))]) (VInt 80) eq_refl).
Defined.

(** *** What leaves the layout *)

Lemma arith_in_plant (e : exn) : arith_exn e = true -> escapes_plant_positions e = true.
Proof. now destruct e. Qed.

Lemma raises_plant_binop (fz : Z -> Z -> Z) (ff : float -> float -> float)
    (a b : value) :
  raises_in escapes_plant_positions (Py.binop (Py.arith fz ff) a b).
Proof. apply (raises_in_weaken _ _ _ arith_in_plant), raises_binop. Qed.

Lemma raises_sqrt (v : value) : raises_in escapes_plant_positions (Py.math_sqrt v).
Proof.
  unfold Py.math_sqrt. destruct (Py.as_num v) as [n|]; [|reflexivity].
  apply raises_in_bind.
  - apply (raises_in_weaken _ _ _ arith_in_plant), raises_to_float.
  - intros f _. destruct (Py.num_lt n (Py.NInt 0)); [reflexivity | exact I].
Qed.

Lemma raises_lt (a : value) (z : Z) :
  raises_in escapes_plant_positions (Py.lt a (VInt z)).
Proof. destruct a; first [reflexivity | exact I]. Qed.

Lemma raises_int_of_float (f : float) :
  raises_in escapes_plant_positions (Py.int_of_float f).
Proof. unfold Py.int_of_float. destruct (Prim2SF f); first [reflexivity | exact I]. Qed.

(** A number that is not below one is not zero. *)
Lemma not_below_one_nonzero (v : value) :
  Py.lt v (VInt 1) = Ok false ->
  exists n, Py.as_num v = Some n /\ Py.num_is_zero n = false.
Proof.
  destruct v as [| b | z | f | | |]; try discriminate; simpl; intros [= H];
    eexists; (split; [reflexivity|]); simpl.
  - destruct b; [reflexivity | discriminate].
  - apply Z.ltb_ge in H. apply Z.eqb_neq. lia.
  - unfold Py.float_lt_Z in H. unfold Py.float_is_zero.
    destruct (Prim2SF f); try reflexivity. discriminate.
Qed.

Lemma raises_truediv_nonzero (a b : value) :
  Py.lt b (VInt 1) = Ok false ->
  raises_in escapes_plant_positions (Py.truediv a b).
Proof.
  intros Hb. destruct (not_below_one_nonzero b Hb) as [y [Hy Hz]].
  unfold Py.truediv. rewrite Hy.
  destruct (Py.as_num a) as [x|]; [|reflexivity].
  unfold Py.num_truediv.
  assert (Hmixed : raises_in escapes_plant_positions
            (x0 <- Py.to_float x ;; y0 <- Py.to_float y ;;
             if Py.num_is_zero y then Raise ZeroDivisionError else Ok (x0 / y0)%float)).
  { apply raises_in_bind;
      [apply (raises_in_weaken _ _ _ arith_in_plant), raises_to_float | intros].
    apply raises_in_bind;
      [apply (raises_in_weaken _ _ _ arith_in_plant), raises_to_float | intros].
    rewrite Hz. exact I. }
  destruct x as [p|f], y as [q|g]; try exact Hmixed.
  unfold Py.int_truediv. simpl in Hz. rewrite Hz.
  destruct (Z.abs p =? 0); [exact I|].
  destruct (_ <=? _); [reflexivity | exact I].
Qed.

Lemma raises_plant_at (sx sy ps : value) (ux uy : float) (i : Z) :
  raises_in escapes_plant_positions (plant_at sx sy ps ux uy i).
Proof.
  unfold plant_at, Py.mul, Py.add, Py.num_mul, Py.num_add.
  raises; apply raises_plant_binop.
Qed.

Lemma raises_plants_loop (sx sy ps : value) (ux uy : float) (idxs : list Z) :
  forall acc, raises_in escapes_plant_positions (plants_loop sx sy ps ux uy idxs acc).
Proof.
  induction idxs as [|i idxs IH]; intros acc; simpl; [exact I|].
  apply raises_in_bind; [apply raises_plant_at | intros; apply IH].
Qed.

Lemma raises_row_plants (sx sy ex ey ps : value) (acc : list (value * value)) :
  raises_in escapes_plant_positions (row_plants sx sy ex ey ps acc).
Proof.
  unfold row_plants, Py.sub, Py.mul, Py.add, Py.num_sub, Py.num_mul, Py.num_add.
  apply raises_in_bind; [apply raises_plant_binop | intros dx _].
  apply raises_in_bind; [apply raises_plant_binop | intros dy _].
  apply raises_in_bind; [apply raises_plant_binop | intros xx _].
  apply raises_in_bind; [apply raises_plant_binop | intros yy _].
  apply raises_in_bind; [apply raises_plant_binop | intros sq _].
  apply raises_in_bind; [apply raises_sqrt | intros row_len _].
  pose proof (raises_lt (VFloat row_len) 1) as Rs.
  destruct (Py.lt (VFloat row_len) (VInt 1)) as [short|e] eqn:Hs; [|exact Rs].
  rewrite rbind_ok. destruct short; [rewrite rbind_ok; exact I|].
  pose proof (raises_lt ps 1) as Rp.
  destruct (Py.lt ps (VInt 1)) as [tight|e] eqn:Hp; [|exact Rp].
  rewrite rbind_ok. destruct tight; [exact I|].
  apply raises_in_bind; [now apply raises_truediv_nonzero | intros ux _].
  apply raises_in_bind; [now apply raises_truediv_nonzero | intros uy _].
  apply raises_in_bind; [now apply raises_truediv_nonzero | intros q _].
  apply raises_in_bind; [apply raises_int_of_float | intros n _].
  apply raises_plants_loop.
Qed.

Lemma raises_rows_loop (rows : list value) (ps : value) :
  forall acc, raises_in escapes_plant_positions (rows_loop rows ps acc).
Proof.
  induction rows as [|row rows IH]; intros acc; simpl; [exact I|].
  pose proof (row_endpoints_spec row) as H.
  destruct (has_endpoints row).
  - destruct H as [sx [sy [ex [ey ->]]]].
    apply raises_in_bind; [apply raises_row_plants | intros; apply IH].
  - destruct H as [e [-> ->]]. apply IH.
Qed.

(** X13.  For any rows and spacing, [_plant_positions_from_rows] returns or
    raises a [TypeError], an [OverflowError] or a [ValueError].  It never
    divides by zero: both divisors have passed the test that sends a
    length or a spacing below one to the single plant.  Nor does a
    [KeyError] leave it, the reads of a row being inside the handler. *)
Theorem plant_positions_outcomes :
  forall rows plant_spacing : value,
    match _plant_positions_from_rows rows plant_spacing with
    | Ok _ => True
    | Raise e => escapes_plant_positions e = true
    end.
Proof.
  intros rows ps. change (raises_in escapes_plant_positions
                            (_plant_positions_from_rows rows ps)).
  unfold _plant_positions_from_rows.
  apply raises_in_bind; [|intros; apply raises_rows_loop].
  destruct rows; first [reflexivity | exact I].
Qed.

(** *** No row is left without a plant *)

Lemma not_below_one_nonneg (f : float) :
  Py.float_lt_Z f 1 = false -> sf_nonneg (Prim2SF f) = true.
Proof.
  unfold Py.float_lt_Z, sf_nonneg.
  destruct (Prim2SF f) as [s | s | | s m e]; try reflexivity.
  - intros ->. reflexivity.
  - destruct s; [|reflexivity]. cbv zeta. intros H. exfalso.
    destruct (0 <=? e) eqn:He.
    + apply Z.ltb_ge in H. apply Z.leb_le in He.
      assert (0 < 2 ^ e) by (apply Z.pow_pos_nonneg; lia).
      pose proof (Pos2Z.neg_is_neg m). nia.
    + apply Z.ltb_ge in H. apply Z.leb_gt in He.
      assert (0 < 2 ^ (- e)) by (apply Z.pow_pos_nonneg; lia).
      pose proof (Pos2Z.neg_is_neg m). nia.
Qed.

Lemma sf_int_nonneg (x : spec_float) (n : Z) :
  sf_nonneg x = true ->
  match x with
  | S754_nan => Raise ValueError
  | S754_infinity _ => Raise OverflowError
  | S754_zero _ => Ok 0
  | S754_finite s m e =>
      let a := if 0 <=? e then Zpos m * 2 ^ e else Zpos m / 2 ^ (- e) in
      Ok (if s then - a else a)
  end = Ok n ->
  0 <= n.
Proof.
  destruct x as [s | s | | s m e]; try discriminate.
  - intros _ [= <-]. lia.
  - unfold sf_nonneg. destruct s; [discriminate|]. cbv zeta. intros _ [= <-].
    destruct (0 <=? e) eqn:He.
    + assert (H : 0 <= 2 ^ e) by (apply Z.pow_nonneg; lia).
      destruct (2 ^ e); lia.
    + apply Z.leb_gt in He. apply Z.div_pos; [lia|].
      apply Z.pow_pos_nonneg; lia.
Qed.

(** The whole part of a quotient of two floats that are not negative. *)
Lemma int_of_div_nonneg (f g : float) (n : Z) :
  sf_nonneg (Prim2SF f) = true -> sf_nonneg (Prim2SF g) = true ->
  Py.int_of_float (f / g) = Ok n -> 0 <= n.
Proof.
  unfold Py.int_of_float. rewrite FloatAxioms.div_spec. unfold SF64div, SFdiv.
  destruct (Prim2SF f) as [s | s | | s m e], (Prim2SF g) as [s' | s' | | s' m' e'];
    intros H1 H2; try discriminate; try (intros [= <-]; lia).
  simpl in H1, H2. destruct s; [discriminate|]. destruct s'; [discriminate|].
  cbn [xorb].
  destruct (SFdiv_core_binary prec emax (Z.pos m) e (Z.pos m') e') as [[mz ez] lz].
  apply sf_int_nonneg, binary_round_aux_nonneg.
Qed.

Lemma truediv_float_int_nonneg (f : float) (b : value) (q : float) (n : Z) :
  sf_nonneg (Prim2SF f) = true ->
  Py.lt b (VInt 1) = Ok false ->
  Py.truediv (VFloat f) b = Ok q ->
  Py.int_of_float q = Ok n ->
  0 <= n.
Proof.
  intros Hf Hb. unfold Py.truediv. rewrite lt_int in Hb.
  destruct (Py.as_num b) as [y|] eqn:Hy; [|discriminate].
  injection Hb as Hb. simpl Py.as_num. cbv iota.
  unfold Py.num_truediv. cbn [Py.to_float rbind].
  destruct y as [z|g].
  - simpl in Hb. apply Z.ltb_ge in Hb. simpl. unfold Py.float_of_Z.
    destruct (Z.abs z <? Py.float_limit); [|discriminate]. rewrite rbind_ok.
    destruct (z =? 0); [discriminate|]. intros [= <-].
    apply int_of_div_nonneg; [assumption|].
    apply (fl_int_nonneg z). lia.
  - simpl in Hb |- *. destruct (Py.float_is_zero g); [discriminate|].
    intros [= <-]. apply int_of_div_nonneg; [assumption|].
    now apply not_below_one_nonneg.
Qed.

Lemma plants_loop_length (sx sy ps : value) (ux uy : float) (idxs : list Z) :
  forall acc out,
    plants_loop sx sy ps ux uy idxs acc = Ok out ->
    length out = (length acc + length idxs)%nat.
Proof.
  induction idxs as [|i idxs IH]; intros acc out H.
  - injection H as <-. simpl. lia.
  - simpl in H. destruct (plant_at sx sy ps ux uy i) as [p|]; [|discriminate].
    rewrite rbind_ok in H. rewrite (IH _ _ H), length_app. simpl. lia.
Qed.

Lemma row_plants_grows (sx sy ex ey ps : value) (acc out : list (value * value)) :
  row_plants sx sy ex ey ps acc = Ok out -> (length acc < length out)%nat.
Proof.
  unfold row_plants. intros H.
  destruct (Py.sub ex sx) as [dx|]; [|discriminate]. rewrite rbind_ok in H.
  destruct (Py.sub ey sy) as [dy|]; [|discriminate]. rewrite rbind_ok in H.
  destruct (Py.mul dx dx) as [xx|]; [|discriminate]. rewrite rbind_ok in H.
  destruct (Py.mul dy dy) as [yy|]; [|discriminate]. rewrite rbind_ok in H.
  destruct (Py.add xx yy) as [sq|]; [|discriminate]. rewrite rbind_ok in H.
  destruct (Py.math_sqrt sq) as [row_len|]; [|discriminate]. rewrite rbind_ok in H.
  destruct (Py.lt (VFloat row_len) (VInt 1)) as [short|] eqn:Hs; [|discriminate].
  rewrite rbind_ok in H.
  destruct short.
  - rewrite rbind_ok in H. injection H as <-. rewrite length_app. simpl. lia.
  - destruct (Py.lt ps (VInt 1)) as [tight|] eqn:Hp; [|discriminate].
    rewrite rbind_ok in H. destruct tight.
    + injection H as <-. rewrite length_app. simpl. lia.
    + destruct (Py.truediv dx (VFloat row_len)) as [ux|]; [|discriminate].
      rewrite rbind_ok in H.
      destruct (Py.truediv dy (VFloat row_len)) as [uy|]; [|discriminate].
      rewrite rbind_ok in H.
      destruct (Py.truediv (VFloat row_len) ps) as [q|] eqn:Hq; [|discriminate].
      rewrite rbind_ok in H.
      destruct (Py.int_of_float q) as [n|] eqn:Hn; [|discriminate].
      rewrite rbind_ok in H.
      assert (Hlen : sf_nonneg (Prim2SF row_len) = true).
      { apply not_below_one_nonneg. now injection Hs. }
      pose proof (truediv_float_int_nonneg row_len ps q n Hlen Hp Hq Hn) as Hn0.
      rewrite (plants_loop_length _ _ _ _ _ _ _ _ H).
      unfold Py.range. rewrite length_map, length_seq. lia.
Qed.

Lemma rows_loop_grows (rows : list value) (ps : value) :
  forall acc out,
    rows_loop rows ps acc = Ok out ->
    (length acc + length (filter has_endpoints rows) <= length out)%nat.
Proof.
  induction rows as [|row rows IH]; intros acc out H.
  - injection H as <-. simpl. lia.
  - simpl in H |- *. pose proof (row_endpoints_spec row) as He.
    destruct (has_endpoints row).
    + destruct He as [sx [sy [ex [ey He]]]]. rewrite He in H.
      destruct (row_plants sx sy ex ey ps acc) as [acc'|] eqn:Hr; [|discriminate].
      rewrite rbind_ok in H. apply row_plants_grows in Hr.
      apply IH in H. simpl. lia.
    + destruct He as [e [He Hc]]. rewrite He, Hc in H. now apply IH.
Qed.

(** X14.  When [_plant_positions_from_rows] returns, every row that has its
    two end points has at least one plant: there are at least as many
    positions as such rows.  The count [int(row_len / plant_spacing) + 1] of
    a row is never below one, both numbers of the quotient having been
    found not below one. *)
Theorem every_row_gets_a_plant :
  forall (rows : list value) (plant_spacing : value)
         (positions : list (value * value)),
    _plant_positions_from_rows (VList rows) plant_spacing = Ok positions ->
    (length (filter has_endpoints rows) <= length positions)%nat.
Proof.
  intros rows ps positions H. unfold _plant_positions_from_rows in H.
  simpl Py.iter in H. rewrite rbind_ok in H.
  apply rows_loop_grows in H. simpl in H. exact H.
Qed.

Lemma every_row_gets_a_plant_witness :
  _plant_positions_from_rows
    (VList [ row (VInt 0) (VInt 0) (VInt 100) (VInt 0);
             VDict [("start", pt (VInt 0) (VInt 0))];
             row (VInt 2) (VInt 3) (VInt 2) (VInt 3) ]) (VInt 25)
  = Ok [ (VFloat 0, VFloat 0); (VFloat 25, VFloat 0); (VFloat 50, VFloat 0);
         (VFloat 75, VFloat 0); (VFloat 100, VFloat 0); (VInt 2, VInt 3) ]
  /\ (length (filter has_endpoints
                [ row (VInt 0) (VInt 0) (VInt 100) (VInt 0);
                  VDict [("start", pt (VInt 0) (VInt 0))];
                  row (VInt 2) (VInt 3) (VInt 2) (VInt 3) ])
      <= length [ (VFloat 0, VFloat 0); (VFloat 25, VFloat 0); (VFloat 50, VFloat 0);
                  (VFloat 75, VFloat 0); (VFloat 100, VFloat 0); (VInt 2, VInt 3) ])%nat.
Proof.
  split; [vm_compute; reflexivity|].
  apply (every_row_gets_a_plant _ (VInt 25)). vm_compute. reflexivity.
Defined.

(** ** Clamped sizes *)








(** ** The centre and the extent of a shape *)

Lemma numv_number (b : Z) (v : value) :
  numv b v -> b < Py.float_limit -> is_number v = true /\ fits v = true.
Proof.
  destruct v; simpl; try contradiction; intros H Hb; split; try reflexivity.
  apply Z.ltb_lt. lia.
Qed.

Lemma binop_exact (fz : Z -> Z -> Z) (ff : float -> float -> float)
    (b1 b2 b : Z) (x y : value) :
  (forall a c, Z.abs a <= b1 -> Z.abs c <= b2 -> Z.abs (fz a c) <= b) ->
  numv b1 x -> numv b2 y -> b1 < Py.float_limit -> b2 < Py.float_limit ->
  Py.binop (Py.arith fz ff) x y = Ok (exact fz ff x y) /\ numv b (exact fz ff x y).
Proof.
  intros Hfz Hx Hy H1 H2.
  destruct (numv_number _ _ Hx H1) as [Nx Fx].
  destruct (numv_number _ _ Hy H2) as [Ny Fy].
  pose proof (exact_ok fz ff x y Nx Ny Fx Fy) as E.
  destruct (binop_numv fz ff b1 b2 b x y Hfz Hx Hy H1 H2) as [r [Hr Hn]].
  rewrite E in Hr. injection Hr as <-. now split.
Qed.

Lemma add_exact (b1 b2 : Z) (x y : value) :
  numv b1 x -> numv b2 y -> b1 < Py.float_limit -> b2 < Py.float_limit ->
  Py.add x y = Ok (vadd x y) /\ numv (b1 + b2) (vadd x y).
Proof. apply binop_exact. intros a c Ha Hc. lia. Qed.

Lemma sub_exact (b1 b2 : Z) (x y : value) :
  numv b1 x -> numv b2 y -> b1 < Py.float_limit -> b2 < Py.float_limit ->
  Py.sub x y = Ok (vsub x y) /\ numv (b1 + b2) (vsub x y).
Proof. apply binop_exact. intros a c Ha Hc. lia. Qed.

Lemma mul_float_exact (b : Z) (x : value) (f : float) :
  numv b x -> b < Py.float_limit ->
  Py.mul x (VFloat f) = Ok (VFloat (fl x * f)).
Proof.
  intros Hx Hb. destruct (numv_number _ _ Hx Hb) as [Nx Fx].
  unfold Py.mul, Py.num_mul.
  rewrite (exact_ok Z.mul PrimFloat.mul x (VFloat f) Nx eq_refl Fx eq_refl).
  now rewrite exact_by_float.
Qed.

Lemma sum_from_total (b : Z) (xs : list value) :
  0 <= b -> Forall (numv b) xs ->
  forall (acc : value) (k : Z),
    numv k acc -> 0 <= k ->
    k + Z.of_nat (length xs) * b < Py.float_limit ->
    Py.sum_from acc xs = Ok (fold_left vadd xs acc)
    /\ numv (k + Z.of_nat (length xs) * b) (fold_left vadd xs acc).
Proof.
  intros Hb Hxs. induction Hxs as [|x xs Hx Hxs IH]; intros acc k Hacc Hk Hroom.
  - split; [reflexivity|]. simpl. now rewrite Z.add_0_r.
  - rewrite length_cons, Nat2Z.inj_succ in *.
    destruct (add_exact k b acc x Hacc Hx) as [Ha Hn]; [nia | nia |].
    simpl. rewrite Ha, rbind_ok.
    destruct (IH (vadd acc x) (k + b) Hn) as [Hr Hrn]; [lia | nia |].
    split; [exact Hr|]. eapply numv_weaken; [|exact Hrn]. nia.
Qed.

Lemma mean_average (xs : list value) :
  Forall (numv coord_bound) xs -> xs <> [] ->
  Z.of_nat (length xs) <= coord_bound ->
  mean xs = Ok (average xs).
Proof.
  intros Hxs Hne Hlen. pose proof coord_bound_room as [Hb Hroom].
  assert (Hn : 0 < Z.of_nat (length xs)) by (destruct xs; [congruence | simpl; lia]).
  unfold mean, Py.sum, average, total.
  destruct (sum_from_total coord_bound xs (Z.lt_le_incl _ _ Hb) Hxs (VInt 0) 0)
    as [Hs Hsn]; [simpl; lia | lia | nia |].
  rewrite Hs, rbind_ok.
  destruct (truediv_count _ (Z.of_nat (length xs)) _ Hsn) as [q Hq]; [nia | nia |].
  rewrite Hq. cbv zeta.
  destruct (fold_left vadd xs (VInt 0)) as [| | z | f | | |]; try contradiction.
  - change (Py.truediv (VInt z) (VInt (Z.of_nat (length xs))))
      with (Py.int_truediv z (Z.of_nat (length xs))) in Hq.
    now rewrite Hq.
  - unfold Py.truediv, Py.as_num, Py.num_truediv, Py.to_float in Hq.
    rewrite fits_float_of_Z in Hq by (apply Z.ltb_lt; nia).
    rewrite !rbind_ok in Hq. unfold Py.num_is_zero in Hq.
    destruct (Z.eqb_spec (Z.of_nat (length xs)) 0); [lia|].
    injection Hq as <-. reflexivity.
Qed.

Lemma less_lt (b1 b2 : Z) (x y : value) :
  numv b1 x -> numv b2 y -> Py.lt x y = Ok (less x y).
Proof.
  destruct x; try contradiction; destruct y; try contradiction; reflexivity.
Qed.

Lemma min2_smaller (b : Z) (x y : value) :
  numv b x -> numv b y -> Py.min2 x y = Ok (smaller x y) /\ numv b (smaller x y).
Proof.
  intros Hx Hy. unfold Py.min2, smaller. rewrite (less_lt b b y x Hy Hx), rbind_ok.
  split; [reflexivity|]. now destruct (less y x).
Qed.

Lemma max2_larger (b : Z) (x y : value) :
  numv b x -> numv b y -> Py.max2 x y = Ok (larger x y) /\ numv b (larger x y).
Proof.
  intros Hx Hy. unfold Py.max2, Py.gt, larger.
  rewrite (less_lt b b x y Hx Hy), rbind_ok.
  split; [reflexivity|]. now destruct (less x y).
Qed.

Lemma fold_best_fold (pick : value -> value -> result value)
    (f : value -> value -> value) (b : Z) :
  (forall x y, numv b x -> numv b y -> pick x y = Ok (f x y) /\ numv b (f x y)) ->
  forall (l : list value) (best : value),
    numv b best -> Forall (numv b) l ->
    Py.fold_best pick best l = Ok (fold_left f l best)
    /\ numv b (fold_left f l best).
Proof.
  intros Hp l. induction l as [|x l IH]; intros best Hb Hl.
  - now split.
  - inversion Hl as [|x' l' Hx Hl']; subst.
    destruct (Hp best x Hb Hx) as [Hr Hn].
    simpl. rewrite Hr, rbind_ok. now apply IH.
Qed.

Lemma has_start_reads (seg : value) (k : string) :
  has_start seg = true -> k = "x" \/ k = "y" ->
  (st <- Py.getitem seg (VStr "start") ;; Py.getitem st (VStr k))
  = Ok (field k (field "start" seg)).
Proof.
  unfold has_start, has_xy. intros H Hk. rewrite !getitem_key.
  destruct seg as [| | | | | | d]; try discriminate. unfold field in *.
  destruct (Py.lookup "start" d) as [p|]; [|discriminate]. rewrite rbind_ok.
  rewrite getitem_key.
  destruct p as [| | | | | | pd]; try discriminate.
  destruct (Py.lookup "x" pd) as [x|] eqn:Hx; [|discriminate].
  destruct (Py.lookup "y" pd) as [y|] eqn:Hy; [|discriminate].
  destruct Hk as [->| ->]; [now rewrite Hx | now rewrite Hy].
Qed.

Lemma start_coords_starts (k : string) (segs : list value) :
  forallb has_start segs = true -> k = "x" \/ k = "y" ->
  start_coords k (VList segs) = Ok (starts k segs).
Proof.
  intros Hs Hk. unfold start_coords, starts, Py.iter. rewrite rbind_ok.
  rewrite <- (map_id segs) at 1. apply rmap_map.
  intros s Hin. rewrite forallb_forall in Hs. unfold id.
  now apply has_start_reads; [apply Hs|].
Qed.

Lemma numeric_starts (segs : list value) :
  forallb numeric_start segs = true ->
  forallb has_start segs = true
  /\ Forall (numv coord_bound) (starts "x" segs)
  /\ Forall (numv coord_bound) (starts "y" segs).
Proof.
  intros H. rewrite forallb_forall in H. split; [|split].
  - apply forallb_forall. intros s Hs. specialize (H s Hs).
    unfold numeric_start in H. now rewrite !andb_true_iff in H.
  - apply Forall_forall. intros v Hv. apply in_map_iff in Hv.
    destruct Hv as [s [<- Hs]]. specialize (H s Hs).
    unfold numeric_start in H. rewrite !andb_true_iff in H.
    now apply small_coord_numv.
  - apply Forall_forall. intros v Hv. apply in_map_iff in Hv.
    destruct Hv as [s [<- Hs]]. specialize (H s Hs).
    unfold numeric_start in H. rewrite !andb_true_iff in H.
    now apply small_coord_numv.
Qed.

Lemma plain_numeric (segs : list value) :
  forallb plain_segment segs = true -> forallb numeric_start segs = true.
Proof.
  rewrite !forallb_forall. intros H s Hs. specialize (H s Hs).
  unfold plain_segment in H. rewrite !andb_true_iff in H.
  destruct H as [[Hseg Hx] Hy]. unfold numeric_start, has_start.
  rewrite Hx, Hy, !andb_true_r.
  destruct (segment_start s Hseg) as [_ Hp].
  destruct (field "start" s) as [| | | | | | pd]; try discriminate.
  unfold is_point in Hp. unfold has_xy.
  destruct (Py.lookup "x" pd); [|discriminate].
  destruct (Py.lookup "y" pd); [reflexivity | discriminate].
Qed.

Lemma truthy_segments (segs : list value) : segs <> [] -> Py.truthy (VList segs) = true.
Proof. destruct segs; [congruence | reflexivity]. Qed.

(** The centroid of numeric start points is their mean. *)
Lemma shape_centroid_average (sd : list (string * value)) (segs : list value) :
  Py.get (VDict sd) "segments" (VList []) = Ok (VList segs) ->
  segs <> [] ->
  forallb numeric_start segs = true ->
  Z.of_nat (length segs) <= coord_bound ->
  _shape_centroid (VDict sd)
  = Ok (VFloat (average (starts "x" segs)), VFloat (average (starts "y" segs))).
Proof.
  intros Hsegs Hne Hnum Hcount.
  destruct (numeric_starts segs Hnum) as [Hs [Hx Hy]].
  unfold _shape_centroid. rewrite Hsegs, rbind_ok, (truthy_segments segs Hne).
  cbn [negb].
  rewrite (start_coords_starts "x" segs Hs (or_introl eq_refl)), rbind_ok.
  rewrite (start_coords_starts "y" segs Hs (or_intror eq_refl)), rbind_ok.
  assert (Hnx : starts "x" segs <> []) by (destruct segs; [congruence | discriminate]).
  assert (Hny : starts "y" segs <> []) by (destruct segs; [congruence | discriminate]).
  rewrite (mean_average _ Hx Hnx), rbind_ok by (unfold starts; now rewrite length_map).
  rewrite (mean_average _ Hy Hny), rbind_ok by (unfold starts; now rewrite length_map).
  reflexivity.
Qed.






(** *** C3: the centroid

    The claim's fallback for non-numeric coordinates fails on
    [shape_centroid_string_coordinate_raises]; what the function does is
    this. *)



Lemma range_exact (xs : list value) :
  xs <> [] -> Forall (numv coord_bound) xs ->
  (hi <- Py.max_list xs ;; lo <- Py.min_list xs ;; Py.sub hi lo)
  = Ok (vsub (greatest xs) (least xs))
  /\ numv (coord_bound + coord_bound) (vsub (greatest xs) (least xs)).
Proof.
  intros Hne Hc. pose proof coord_bound_room as [Hb Hroom].
  destruct xs as [|x xs]; [congruence|].
  inversion Hc as [|x' xs' Hx Hxs]; subst.
  destruct (fold_best_fold Py.max2 larger coord_bound (max2_larger coord_bound) xs x Hx Hxs)
    as [Hhi Hhn].
  destruct (fold_best_fold Py.min2 smaller coord_bound (min2_smaller coord_bound) xs x Hx Hxs)
    as [Hlo Hln].
  unfold Py.max_list, Py.min_list, greatest, least.
  rewrite Hhi, rbind_ok, Hlo, rbind_ok.
  apply sub_exact; try assumption; lia.
Qed.

Lemma start_extent_exact (segs : list value) :
  segs <> [] -> forallb numeric_start segs = true ->
  start_extent (VList segs) = Ok (extent segs)
  /\ numv (coord_bound + coord_bound) (extent segs).
Proof.
  intros Hne Hnum. destruct (numeric_starts segs Hnum) as [Hs [Hx Hy]].
  assert (Hnx : starts "x" segs <> []) by (destruct segs; [congruence | discriminate]).
  assert (Hny : starts "y" segs <> []) by (destruct segs; [congruence | discriminate]).
  destruct (range_exact _ Hnx Hx) as [Ex Nx].
  destruct (range_exact _ Hny Hy) as [Ey Ny].
  unfold start_extent.
  rewrite (start_coords_starts "x" segs Hs (or_introl eq_refl)), rbind_ok.
  rewrite (start_coords_starts "y" segs Hs (or_intror eq_refl)), rbind_ok.
  destruct (Py.max_list (starts "x" segs)) as [hx|]; [|discriminate].
  rewrite rbind_ok in Ex |- *.
  destruct (Py.min_list (starts "x" segs)) as [lx|]; [|discriminate].
  rewrite rbind_ok in Ex |- *. rewrite Ex, rbind_ok.
  destruct (Py.max_list (starts "y" segs)) as [hy|]; [|discriminate].
  rewrite rbind_ok in Ey |- *.
  destruct (Py.min_list (starts "y" segs)) as [ly|]; [|discriminate].
  rewrite rbind_ok in Ey |- *. rewrite Ey, rbind_ok.
  unfold extent. now apply min2_smaller.
Qed.

(** [max(lo, min(hi, e))] of a float [e]. *)
Lemma clamp_size_exact (lo hi : Z) (g : float) :
  lo < hi ->
  (m <- Py.min2 (VInt hi) (VFloat g) ;; Py.max2 (VInt lo) m)
  = Ok (clamp_size lo hi (VFloat g)).
Proof.
  intros Hb. unfold Py.min2, Py.max2, Py.gt, clamp_size.
  change (Py.lt (VFloat g) (VInt hi)) with (Ok (less (VFloat g) (VInt hi))).
  rewrite !rbind_ok. destruct (less (VFloat g) (VInt hi)).
  - change (Py.lt (VInt lo) (VFloat g)) with (Ok (less (VInt lo) (VFloat g))).
    now rewrite rbind_ok.
  - change (Py.lt (VInt lo) (VInt hi)) with (Ok (lo <? hi)). rewrite rbind_ok.
    destruct (Z.ltb_spec lo hi); [reflexivity | lia].
Qed.

Lemma clamp_size_numv (lo hi : Z) (v : float) :
  0 <= lo <= 100 -> 0 <= hi <= 100 -> numv 100 (clamp_size lo hi (VFloat v)).
Proof.
  intros Hlo Hhi. unfold clamp_size.
  destruct (less (VFloat v) (VInt hi)); [destruct (less (VInt lo) (VFloat v))|];
    simpl; try exact I; lia.
Qed.

Lemma scaled_extent_exact (sd : list (string * value)) (segs : list value)
    (factor : float) (lo hi otherwise : Z) :
  Py.get (VDict sd) "segments" (VList []) = Ok (VList segs) ->
  segs <> [] -> forallb numeric_start segs = true -> lo < hi ->
  scaled_extent (VDict sd) factor lo hi otherwise
  = Ok (clamp_size lo hi (vmul (extent segs) (VFloat factor))).
Proof.
  intros Hsegs Hne Hnum Hb. pose proof coord_bound_room as [Hc Hroom].
  unfold scaled_extent. rewrite Hsegs, rbind_ok, (truthy_segments segs Hne).
  destruct (start_extent_exact segs Hne Hnum) as [He Hen]. rewrite He, rbind_ok.
  rewrite (mul_float_exact _ _ factor Hen) by lia. rewrite rbind_ok.
  unfold vmul. rewrite exact_by_float. now apply clamp_size_exact.
Qed.

(** ** The markup of a landmark *)

Lemma fl_12 : fl (VInt 12) = 12%float. Proof. reflexivity. Qed.
Lemma fl_24 : fl (VInt 24) = 24%float. Proof. reflexivity. Qed.

Lemma format_f_number (digits : nat) (b : Z) (v : value) :
  numv b v -> b < Py.float_limit ->
  Py.format_f digits v = Ok (decimal digits (fl v)).
Proof.
  intros Hv Hb. destruct (numv_number _ _ Hv Hb) as [_ Fv].
  destruct v as [| | a | f | | |]; try contradiction; unfold Py.format_f.
  - now rewrite (fits_float_of_Z a Fv).
  - reflexivity.
Qed.

Lemma badge_markup_text (color glyph : string) (cx cy : float) (r : value) :
  badge_markup color glyph (decimal 1 cx) (decimal 1 cy) (decimal 1 (fl r))
    (decimal 1 (cx - 12 * (fl r * 1.2 / 24))%float)
    (decimal 1 (cy - 12 * (fl r * 1.2 / 24))%float)
    (decimal 3 (fl r * 1.2 / 24)%float)
  = badge_text cx cy r color glyph.
Proof.
  unfold badge_markup, badge_text, Py.attr, quoted. cbv zeta.
  repeat rewrite append_assoc. reflexivity.
Qed.

Lemma badge_svg_text (cx cy : float) (r icon : value) :
  numv 100 r ->
  _landmark_badge_svg icon (VFloat cx) (VFloat cy) r
  = Ok (match badge_style icon with
        | (color, Some glyph) => badge_text cx cy r color glyph
        | (_, None) => ""
        end).
Proof.
  intros Hr. pose proof coord_bound_room as [Hb Hroom].
  assert (H100 : 100 < Py.float_limit) by (unfold coord_bound in *; lia).
  unfold _landmark_badge_svg.
  destruct (badge_style icon) as [color [glyph|]] eqn:Hstyle; [|reflexivity].
  assert (Hg : Py.truthy (VStr glyph) = true).
  { unfold badge_style in Hstyle.
    destruct (Py.eq_str icon "house"); [now injection Hstyle as <- <-|].
    destruct (Py.eq_str icon "tree"); [now injection Hstyle as <- <-|].
    discriminate. }
  rewrite Hg. cbn [negb].
  rewrite (mul_float_exact 100 r 1.2 Hr H100). cbn [rbind].
  change (Py.truediv (VFloat (fl r * 1.2)) (VInt 24))
    with (Ok (fl r * 1.2 / fl (VInt 24))%float).
  cbn [rbind].
  change (Py.mul (VInt 12) (VFloat (fl r * 1.2 / fl (VInt 24))))
    with (Ok (VFloat (fl (VInt 12) * (fl r * 1.2 / fl (VInt 24))))).
  cbn [rbind Py.sub Py.binop Py.as_num Py.num_sub Py.arith Py.to_float Py.of_num].
  rewrite (format_f_number 1 100 r Hr H100). cbn [rbind Py.format_f].
  rewrite fl_12, fl_24. now rewrite <- badge_markup_text.
Qed.

(** [max(3, min(stroke_w, 60))] *)
Lemma stroke_clamp_exact (stroke_w : value) :
  is_number stroke_w = true ->
  (m <- Py.min2 stroke_w (VInt 60) ;; Py.max2 (VInt 3) m) = Ok (stroke_clamp stroke_w).
Proof.
  intros H. unfold Py.min2, Py.max2, Py.gt, stroke_clamp.
  destruct stroke_w as [| | z | f | | |]; try discriminate.
  - change (Py.lt (VInt 60) (VInt z)) with (Ok (60 <? z)). rewrite !rbind_ok.
    destruct (Z.ltb_spec 60 z).
    + change (Py.lt (VInt 3) (VInt 60)) with (Ok true). rewrite rbind_ok.
      do 2 f_equal. lia.
    + change (Py.lt (VInt 3) (VInt z)) with (Ok (3 <? z)). rewrite rbind_ok.
      destruct (Z.ltb_spec 3 z); do 2 f_equal; lia.
  - change (Py.lt (VInt 60) (VFloat f)) with (Ok (Py.Z_lt_float 60 f)). rewrite !rbind_ok.
    destruct (Py.Z_lt_float 60 f); [reflexivity|].
    change (Py.lt (VInt 3) (VFloat f)) with (Ok (Py.Z_lt_float 3 f)). rewrite rbind_ok.
    now destruct (Py.Z_lt_float 3 f).
Qed.

Section LandmarkMarkup.

Variable B : Py.builtins.

Lemma landmark_open_text (d : list (string * value)) :
  landmark_open B (VDict d) (fill_color d) = Ok (opening_text B d).
Proof.
  unfold landmark_open, opening_text, Py.get, field, landmark_name, _esc, escaped,
    Py.attr, quoted.
  rewrite !rbind_ok.
  destruct (Py.truthy _ && Py.truthy _); f_equal; repeat rewrite append_assoc;
    reflexivity.
Qed.

Lemma landmark_path_text (d : list (string * value)) (path : string) (w : value) :
  landmark_path B path (fill_color d) (stroke_color d) w = outline_text B d path w.
Proof.
  unfold landmark_path, outline_text, _esc, escaped, Py.attr, quoted.
  repeat rewrite append_assoc. reflexivity.
Qed.

Lemma icon_truthy (icon : value) (s : string) :
  s <> "" -> Py.eq_str icon s = true -> Py.truthy icon = true.
Proof.
  intros Hs H. destruct icon; try discriminate. simpl in H.
  apply String.eqb_eq in H. subst. simpl.
  destruct s; [congruence | reflexivity].
Qed.

(** The markup of a landmark with a well-formed outline and a numeric
    stroke width. *)
Lemma render_landmark_text (d sd : list (string * value)) (segs : list value)
    (l : log) :
  Py.lookup "shape" d = Some (VDict sd) ->
  Py.lookup "segments" sd = Some (VList segs) ->
  segs <> [] ->
  forallb plain_segment segs = true ->
  Z.of_nat (length segs) <= coord_bound ->
  is_number (stroke_width d) = true ->
  _render_landmark B (VDict d) l = (Ok (landmark_text B d segs), l).
Proof.
  intros Hshape Hsegs Hne Hplain Hcount Hstroke.
  pose proof (plain_numeric segs Hplain) as Hnum.
  assert (Hget : Py.get (VDict sd) "segments" (VList []) = Ok (VList segs)).
  { unfold Py.get. now rewrite Hsegs. }
  unfold _render_landmark, Py.get. rewrite Hshape, mbind_lift_ok.
  rewrite (mbind_ok _ _ l l (path_text segs)
             (shape_to_path_segments sd segs l Hsegs Hne
                (plain_segments_are_segments segs Hplain))).
  rewrite path_text_truthy. cbn [negb]. unfold lift. f_equal.
  unfold render_landmark_body, Py.get. rewrite !rbind_ok.
  fold (fill_color d) (stroke_color d) (stroke_width d).
  pose proof (stroke_clamp_exact _ Hstroke) as Hw.
  destruct (Py.min2 (stroke_width d) (VInt 60)) as [m|]; [|discriminate].
  cbn [rbind] in Hw |- *. rewrite Hw. cbn [rbind].
  rewrite landmark_open_text. cbn [rbind]. rewrite landmark_path_text.
  change (match Py.lookup "iconName" d with Some v => v | None => VNone end)
    with (field "iconName" (VDict d)).
  unfold landmark_text. set (icon := field "iconName" (VDict d)).
  unfold landmark_lines, landmark_badge.
  rewrite (shape_centroid_average sd segs Hget Hne Hnum Hcount), rbind_ok.
  rewrite (scaled_extent_exact sd segs 0.15 30 80 60 Hget Hne Hnum) by lia.
  rewrite rbind_ok. fold (badge_radius segs).
  rewrite badge_svg_text
    by (unfold badge_radius, vmul; rewrite exact_by_float; apply clamp_size_numv; lia).
  unfold badge_style.
  destruct (Py.eq_str icon "house") eqn:Hhouse.
  - rewrite (icon_truthy icon "house") by (discriminate || assumption). reflexivity.
  - destruct (Py.eq_str icon "tree") eqn:Htree.
    + rewrite (icon_truthy icon "tree") by (discriminate || assumption). reflexivity.
    + destruct (Py.truthy icon); reflexivity.
Qed.


(** *** C7: a null stroke width *)

(** C7.  A landmark whose [strokeWidth] is null stops the render:
    [lm.get("strokeWidth", 1)] answers the missing key, not the null, and
    [max(3, min(None, 60))] raises [TypeError] before any line is built, for
    a house too, whose outline would not have been drawn.  The same house
    without the null is rendered as its opening tag, the blue-gray badge and
    the closing tag. *)
Theorem landmark_null_stroke_width_raises :
  forall l : log,
    _render_landmark B (VDict (("strokeWidth", VNone) :: house)) l
    = (Raise TypeError, l)
    /\ render_garden_svg B
         (plan_of VNone VNone [VDict (("strokeWidth", VNone) :: house)] [] [] []) l
       = (Raise TypeError, l)
    /\ _render_landmark B (VDict house) l
       = (Ok (Py.join Py.nl
                [ opening_text B house;
                  badge_text 5 5 (VInt 30) "#44739e" _MDI_HOME;
                  "</g>" ]), l).
Proof.
  intros l. split; [reflexivity|]. split; [reflexivity|].
  apply (render_landmark_text house [("segments", VList square)] square l);
    first [reflexivity | discriminate].
Qed.

End LandmarkMarkup.


(** ** The image entity *)

(** *** Counting crops *)

Lemma existsb_key_str (t : string) (l : list string) :
  existsb (Py.key_eqb (VStr t)) (map VStr l) = existsb (String.eqb t) l.
Proof.
  induction l as [|a l IH]; [reflexivity|]. simpl. now rewrite IH.
Qed.

(** Adding a title to the set of the titles met so far. *)
Lemma set_add_title (t : string) (ts : list string) :
  set_add (VStr t) (map VStr (dedup ts)) = Ok (map VStr (dedup (ts ++ [t]))).
Proof.
  unfold set_add. simpl Py.hashable. cbv iota. rewrite existsb_key_str, dedup_snoc.
  assert (He : existsb (String.eqb t) (dedup ts) = existsb (String.eqb t) ts).
  { destruct (existsb (String.eqb t) ts) eqn:E.
    - rewrite existsb_eqb_in, dedup_in, <- existsb_eqb_in. exact E.
    - destruct (existsb _ (dedup ts)) eqn:E'; [|reflexivity].
      rewrite existsb_eqb_in, dedup_in, <- existsb_eqb_in in E'. congruence. }
  rewrite He. destruct (existsb (String.eqb t) ts); [reflexivity|].
  now rewrite map_app.
Qed.

Lemma formations_titles_spec (fs : list value) :
  forallb formation_typed fs = true ->
  forall ts,
    formations_titles fs (map VStr (dedup ts))
    = Ok (map VStr (dedup (ts ++ flat_map crop_title fs))).
Proof.
  induction fs as [|f fs IH]; intros Hok ts.
  - simpl. now rewrite app_nil_r.
  - simpl in Hok. apply andb_prop in Hok. destruct Hok as [Hf Hfs].
    unfold formation_typed in Hf. apply andb_prop in Hf. destruct Hf as [Hd Hg].
    simpl formations_titles. rewrite (get_field f "gardenCrop" Hd), rbind_ok.
    simpl flat_map. unfold crop_title at 1.
    destruct (field "gardenCrop" f) as [| | | | | | gc]; try discriminate.
    + cbn [Py.truthy rbind]. simpl app. now apply IH.
    + destruct gc as [|kv gc'] eqn:Egc.
      * cbn [Py.truthy rbind Py.lookup]. simpl app. now apply IH.
      * rewrite <- Egc in *. assert (Ht : Py.truthy (VDict gc) = true) by now rewrite Egc.
        rewrite Ht. unfold Py.get, Py.getitem.
        destruct (Py.lookup "title" gc) as [t|]; cbn [rbind Py.truthy].
        -- destruct t as [| | | | t | |]; try discriminate; cbn [rbind Py.truthy].
           ++ simpl app. now apply IH.
           ++ destruct (String.eqb t ""); cbn [negb rbind].
              ** simpl app. now apply IH.
              ** rewrite set_add_title, rbind_ok.
                 rewrite (IH Hfs). simpl app. now rewrite <- app_assoc.
        -- simpl app. now apply IH.
Qed.

Lemma locations_titles_spec (locs : list value) :
  forallb location_typed locs = true ->
  forall ts,
    locations_titles locs (map VStr (dedup ts))
    = Ok (map VStr (dedup (ts ++ crop_titles_of locs))).
Proof.
  induction locs as [|loc locs IH]; intros Hok ts.
  - simpl. unfold crop_titles_of. simpl. now rewrite app_nil_r.
  - simpl in Hok. apply andb_prop in Hok. destruct Hok as [Hl Hls].
    unfold location_typed in Hl. apply andb_prop in Hl. destruct Hl as [Hd Hp].
    simpl locations_titles. rewrite (get_field loc "plantingFormations" Hd), rbind_ok.
    unfold crop_titles_of. simpl flat_map. fold (crop_titles_of locs).
    unfold formations_of.
    assert (Hstep : forall fs,
              forallb formation_typed fs = true ->
              (crop_titles' <- formations_titles fs (map VStr (dedup ts)) ;;
               locations_titles locs crop_titles')
              = Ok (map VStr (dedup (ts ++ flat_map crop_title fs ++ crop_titles_of locs)))).
    { intros fs Hfs. rewrite (formations_titles_spec fs Hfs), rbind_ok.
      rewrite (IH Hls). now rewrite <- app_assoc. }
    destruct (field "plantingFormations" loc) as [| | | | | | pf]; try discriminate.
    + cbn [Py.or_ Py.truthy Py.get Py.lookup rbind Py.iter]. now apply (Hstep []).
    + assert (Hor : Py.get (Py.or_ (VDict pf) (VDict [])) "nodes" (VList [])
                    = Ok (match Py.lookup "nodes" pf with
                          | Some v => v | None => VList [] end)).
      { destruct pf; reflexivity. }
      rewrite Hor, rbind_ok.
      destruct (Py.lookup "nodes" pf) as [nodes|].
      * destruct nodes as [| | | | | fs |]; try discriminate.
        cbn [Py.iter rbind]. now apply Hstep.
      * cbn [Py.iter rbind]. now apply (Hstep []).
Qed.

(** X17.  For coordinator data typed as in the data model,
    [extra_state_attributes] reports the garden's title, the plan's width
    and height as they are, the number of planting locations, hidden ones
    included, and as the crop count the number of different titles, empty
    ones apart, among the garden crops of all formations, drafts included:
    a title met twice counts once. *)
Theorem state_attributes_count :
  forall (title width height : value) (locations : list value),
    forallb location_typed locations = true ->
    extra_state_attributes (coordinator_data title width height locations)
    = Ok (VDict [ (ATTR_GARDEN_TITLE, title);
                  (ATTR_PLAN_WIDTH, width);
                  (ATTR_PLAN_HEIGHT, height);
                  (ATTR_LOCATION_COUNT, VInt (Z.of_nat (length locations)));
                  (ATTR_CROP_COUNT,
                   VInt (Z.of_nat (length (dedup (crop_titles_of locations))))) ]).
Proof.
  intros title width height locations Hok.
  unfold extra_state_attributes, coordinator_data.
  cbn [Py.truthy Py.get Py.lookup String.eqb Ascii.eqb Bool.eqb rbind Py.or_].
  unfold nodes_of.
  cbn [Py.truthy Py.get Py.lookup String.eqb Ascii.eqb Bool.eqb rbind Py.or_ Py.iter].
  change (locations_titles locations [])
    with (locations_titles locations (map VStr (dedup []))).
  rewrite (locations_titles_spec locations Hok []), rbind_ok.
  cbn [Py.len rbind app]. now rewrite length_map.
Qed.

Lemma state_attributes_count_witness :
  forallb location_typed
    [plot [planting "kale"; planting "leek"]; plot [planting "kale"; VDict []]] = true
  /\ extra_state_attributes
       (coordinator_data (VStr "home") (VInt 800) (VInt 600)
          [plot [planting "kale"; planting "leek"]; plot [planting "kale"; VDict []]])
     = Ok (VDict [ ("garden_title", VStr "home"); ("plan_width", VInt 800);
                   ("plan_height", VInt 600); ("location_count", VInt 2);
                   ("crop_count", VInt 2) ]).
Proof.
  split; [reflexivity|].
  exact (state_attributes_count (VStr "home") (VInt 800) (VInt 600)
           [plot [planting "kale"; planting "leek"]; plot [planting "kale"; VDict []]]
           eq_refl).
Defined.

(** *** The cache *)

Lemma hash_differs_same (h : string) : hash_differs h (Some h) = false.
Proof. simpl. now rewrite String.eqb_refl. Qed.

(** Encoding returns the bytes of the string, when it returns. *)
Lemma encode_utf8_ok (s b : string) : Py.encode_utf8 s = Ok b -> b = s.
Proof.
  unfold Py.encode_utf8. destruct (Py.has_surrogate s); [discriminate|].
  now intros [= <-].
Qed.

Section ImageCache.

Variable B : Py.builtins.
Variable md5_hexdigest : string -> string.

(** The renderer reads nothing of the garden but its plan, which is what
    the cache is keyed by. *)
Lemma render_reads_plan (d : list (string * value)) (p : value) (l : log) :
  Py.get (VDict d) "gardenPlan" VNone = Ok p ->
  render_garden_svg B (VDict d) l = render_garden_svg B (VDict [("gardenPlan", p)]) l.
Proof.
  intros H. unfold render_garden_svg. rewrite H. reflexivity.
Qed.

Lemma render_ignores_log (garden : value) (l l0 : log) :
  fst (render_garden_svg B garden l) = fst (render_garden_svg B garden l0).
Proof.
  destruct (oblivious_render_garden_svg B garden) as [r [records H]].
  now rewrite !H.
Qed.

(** X18.  Asking again changes nothing: after a call of [async_image] that
    returned, a second call on the same data, at whatever time, returns the
    same image and leaves the cache, the time of the last update and the
    log as the first call left them; the plan is not rendered again. *)
Theorem async_image_repeat :
  forall (data : value) (now now' : Z) (st st1 : image_state) (l l1 : log)
         (r : option string),
    async_image B md5_hexdigest data now st l = (Ok r, st1, l1) ->
    async_image B md5_hexdigest data now' st1 l1 = (Ok r, st1, l1).
Proof.
  intros data now now' st st1 l l1 r H. unfold async_image in *.
  destruct (negb (Py.truthy data)); [now injection H as <- <- <-|].
  destruct (Py.get data "garden" (VDict [])) as [garden|]; [|discriminate].
  destruct (Py.get garden "gardenPlan" VNone) as [p|]; [|discriminate].
  destruct (negb (Py.truthy p)); [now injection H as <- <- <-|].
  destruct (Py.encode_utf8 (Py.str B p)) as [plan_bytes|]; [|discriminate].
  cbv zeta in *.
  destruct (hash_differs (md5_hexdigest plan_bytes) (_cached_hash st)) eqn:Hd.
  - destruct (render_garden_svg B garden l) as [[svg|e] l']; [|discriminate].
    destruct (Py.encode_utf8 svg) as [image|]; [|discriminate].
    injection H as <- <- <-. cbn [_cached_hash _cached_svg].
    now rewrite hash_differs_same.
  - injection H as <- <- <-. now rewrite Hd.
Qed.

(** A document that cannot be encoded is not served and not cached:
    [svg.encode("utf-8")] raises before the three assignments. *)
Lemma async_image_lone_surrogate :
  fst (render_garden_svg sample_builtins
         (plan_of VNone VNone [] [] [] [label lone_surrogate 1 2]) [])
  = Ok (Py.join Py.nl
          (document_lines sample_builtins VNone VNone []
             [ "<text x=" ++ quoted "1.0" ++ " y=" ++ quoted "2.0"
               ++ " class=" ++ quoted "text-label" ++ " font-size=" ++ quoted "14"
               ++ " font-weight=" ++ quoted "bold" ++ ">" ++ lone_surrogate
               ++ "</text>" ]))
  /\ async_image sample_builtins (fun b => b) surrogate_data 7 new_image []
     = (Raise UnicodeEncodeError, new_image, []).
Proof. split; vm_compute; reflexivity. Qed.

(** X19.  The cache stays sound, and what is served was rendered.  From a
    sound cache, a call of [async_image] leaves a sound cache; an image it
    returns is the document [render_garden_svg] gives for a plan whose hash
    is the hash of the current plan; and the fields of the entity change
    only when a new image is returned, which is then the cached one, stamped
    with the current time.  A call that raises, be it in reading the data,
    in encoding the plan's text, in the render or in encoding the document,
    leaves the cache as it was. *)
Theorem async_image_serves_plan :
  forall (data : value) (now : Z) (st st' : image_state) (l l' : log)
         (r : result (option string)),
    cache_sound B md5_hexdigest st ->
    async_image B md5_hexdigest data now st l = (r, st', l') ->
    cache_sound B md5_hexdigest st'
    /\ (forall svg,
          r = Ok (Some svg) ->
          exists p0 p,
            current_plan data = Some p0
            /\ md5_hexdigest (Py.str B p) = md5_hexdigest (Py.str B p0)
            /\ forall l0,
                 fst (render_garden_svg B (VDict [("gardenPlan", p)]) l0) = Ok svg)
    /\ (st' = st \/ exists svg, r = Ok (Some svg) /\ _cached_svg st' = Some svg
                               /\ _attr_image_last_updated st' = Some now)
    /\ (forall e, r = Raise e -> st' = st).
Proof.
  intros data now st st' l l' r Hs H.
  enough (Hmain :
    cache_sound B md5_hexdigest st'
    /\ (forall svg,
          r = Ok (Some svg) ->
          exists p0 p,
            current_plan data = Some p0
            /\ md5_hexdigest (Py.str B p) = md5_hexdigest (Py.str B p0)
            /\ forall l0,
                 fst (render_garden_svg B (VDict [("gardenPlan", p)]) l0) = Ok svg)
    /\ (st' = st \/ exists svg, r = Ok (Some svg) /\ _cached_svg st' = Some svg
                               /\ _attr_image_last_updated st' = Some now)).
  { destruct Hmain as [H1 [H2 H3]]. repeat split; try assumption.
    intros e He. destruct H3 as [H3|[svg [H3 _]]]; [exact H3 | congruence]. }
  unfold async_image in H. unfold current_plan.
  destruct (Py.truthy data); cbn [negb] in H.
  2:{ injection H as <- <- <-. split; [assumption|]. split; [discriminate | now left]. }
  destruct (Py.get data "garden" (VDict [])) as [garden|].
  2:{ injection H as <- <- <-. split; [assumption|]. split; [discriminate | now left]. }
  destruct (Py.get garden "gardenPlan" VNone) as [p|] eqn:Hp.
  2:{ injection H as <- <- <-. split; [assumption|]. split; [discriminate | now left]. }
  destruct (Py.truthy p); cbn [negb] in H.
  2:{ injection H as <- <- <-. split; [assumption|]. split; [discriminate | now left]. }
  destruct (Py.encode_utf8 (Py.str B p)) as [plan_bytes|] eqn:Hb.
  2:{ injection H as <- <- <-. split; [assumption|]. split; [discriminate | now left]. }
  apply encode_utf8_ok in Hb. subst plan_bytes. cbv zeta in H.
  destruct (hash_differs (md5_hexdigest (Py.str B p)) (_cached_hash st)) eqn:Hd.
  - destruct (render_garden_svg B garden l) as [[svg|e] l1] eqn:Hr.
    + destruct (Py.encode_utf8 svg) as [image|] eqn:Hi.
      2:{ injection H as <- <- <-. split; [assumption|].
          split; [discriminate | now left]. }
      apply encode_utf8_ok in Hi. subst image.
      injection H as <- <- <-.
      assert (Hrender : forall l0,
                fst (render_garden_svg B (VDict [("gardenPlan", p)]) l0) = Ok svg).
      { intros l0. destruct garden as [| | | | | | d]; try discriminate.
        rewrite <- (render_reads_plan d p l0 Hp).
        rewrite (render_ignores_log (VDict d) l0 l), Hr. reflexivity. }
      split; [|split].
      * unfold cache_sound. cbn [_cached_hash _cached_svg]. now exists p, svg.
      * intros svg' [= <-]. now exists p, p.
      * right. now exists svg.
    + injection H as <- <- <-. split; [assumption|]. split; [discriminate | now left].
  - injection H as <- <- <-. split; [assumption|]. split; [|now left].
    intros svg Hsvg. injection Hsvg as Hsvg.
    unfold cache_sound in Hs. unfold hash_differs in Hd.
    destruct (_cached_hash st) as [h|]; [|discriminate].
    apply negb_false_iff, String.eqb_eq in Hd. subst h.
    destruct Hs as [p1 [svg1 [Hh [Hc Hrender]]]].
    rewrite Hc in Hsvg. injection Hsvg as ->.
    now exists p, p1.
Qed.

End ImageCache.

Lemma async_image_repeat_witness :
  match async_image sample_builtins (fun s => s) sample_data 7 new_image [] with
  | (Ok r, st1, l1) =>
      async_image sample_builtins (fun s => s) sample_data 9 st1 l1 = (Ok r, st1, l1)
  | (Raise _, _, _) => False
  end.
Proof.
  destruct (async_image sample_builtins (fun s => s) sample_data 7 new_image [])
    as [[[r|e] st1] l1] eqn:H.
  - exact (async_image_repeat sample_builtins (fun s => s) sample_data 7 9
             new_image st1 [] l1 r H).
  - vm_compute in H. discriminate.
Defined.

Lemma async_image_serves_plan_witness :
  cache_sound sample_builtins (fun s => s) new_image
  /\ match async_image sample_builtins (fun s => s) sample_data 7 new_image [] with
     | (r, st', _) =>
         cache_sound sample_builtins (fun s => s) st'
         /\ (forall svg,
               r = Ok (Some svg) ->
               exists p0 p,
                 current_plan sample_data = Some p0
                 /\ Py.str sample_builtins p = Py.str sample_builtins p0
                 /\ forall l0,
                      fst (render_garden_svg sample_builtins
                             (VDict [("gardenPlan", p)]) l0) = Ok svg)
         /\ (st' = new_image
             \/ exists svg, r = Ok (Some svg) /\ _cached_svg st' = Some svg
                            /\ _attr_image_last_updated st' = Some 7)
         /\ (forall e, r = Raise e -> st' = new_image)
     end.
Proof.
  split; [exact I|].
  destruct (async_image sample_builtins (fun s => s) sample_data 7 new_image [])
    as [[r st'] l'] eqn:H.
  exact (async_image_serves_plan sample_builtins (fun s => s) sample_data 7
           new_image st' [] l' r I H).
Defined.
